(** * Autonomous DevOps agents: the agent loop, its parsers and its gates

    A shallow embedding of the agent layer of [autonomous_devops]:
    the tagged-block response parsers, the tenacity retry wrapper, the
    conversation loop shared by the agents, the product-manager intake loop,
    the branch-name derivation of the orchestrator and [GithubAPI.create_pr].

    Conventions.
    - Python [str] is [string]; the embedding covers ASCII text.
    - Python objects that travel through [json.loads] are values of [value];
      [None] is [VNone].
    - A Python call either returns or raises: [outcome].
    - The language model, the tools and [json.loads] are capabilities of the
      environment ([Capabilities]); every call to the model, every sleep of
      the retry wrapper and every tool execution is recorded in a trace, so
      that rounds, attempts and tool executions can be counted.
    - A loop starts from its rendered prompt, the argument [current_prompt]:
      what an entry point does before its loop (fetching the repository
      content or the diff, [json.dumps], [str.format]) only builds that
      text.  The merge controller is given with its template.
    - [print] is left out. *)

From Stdlib Require Import List String Ascii ZArith Lia Bool PrimFloat.
From Stdlib Require Import QArith Lqa.
Import ListNotations.
Set Warnings "-register-all".
Close Scope Q_scope.
Local Open Scope string_scope.

(* ================================================================== *)
(** ** Python strings *)

Module PyStr.

Definition nl : string := String (ascii_of_nat 10) EmptyString.
Definition dq : string := String (ascii_of_nat 34) EmptyString.

Fixpoint map_chars (f : ascii -> ascii) (s : string) : string :=
  match s with
  | EmptyString => EmptyString
  | String c s' => String (f c) (map_chars f s')
  end.

Definition in_range (lo hi : nat) (c : ascii) : bool :=
  let n := nat_of_ascii c in (lo <=? n)%nat && (n <=? hi)%nat.

Definition is_upper (c : ascii) : bool := in_range 65 90 c.
Definition is_lower (c : ascii) : bool := in_range 97 122 c.
Definition is_digit (c : ascii) : bool := in_range 48 57 c.

(** [str.lower()] *)
Definition lower_char (c : ascii) : ascii :=
  if is_upper c then ascii_of_nat (nat_of_ascii c + 32) else c.
Definition lower : string -> string := map_chars lower_char.

(** [str.replace(old, new)] for one-character [old] and [new] *)
Definition replace_char (old new : ascii) : string -> string :=
  map_chars (fun c => if Ascii.eqb c old then new else c).

(** the slice [s[:n]] *)
Fixpoint take (n : nat) (s : string) : string :=
  match n, s with
  | S n', String c s' => String c (take n' s')
  | _, _ => EmptyString
  end.

(** [str.isspace] on one character (a code point below 256): TAB, LF, VT,
    FF, CR, FS, GS, RS, US, the space, NEL (U+0085) and the no-break space
    (U+00A0). *)
Definition isspace (c : ascii) : bool :=
  in_range 9 13 c || in_range 28 32 c || in_range 133 133 c || in_range 160 160 c.

Fixpoint lstrip (s : string) : string :=
  match s with
  | String c s' => if isspace c then lstrip s' else s
  | EmptyString => EmptyString
  end.

Fixpoint rstrip (s : string) : string :=
  match s with
  | EmptyString => EmptyString
  | String c s' =>
      match rstrip s' with
      | EmptyString => if isspace c then EmptyString else String c EmptyString
      | r => String c r
      end
  end.

(** [str.strip()] *)
Definition strip (s : string) : string := rstrip (lstrip s).

(** [s.startswith(p)], returning the rest of [s] *)
Fixpoint strip_prefix (p s : string) : option string :=
  match p, s with
  | EmptyString, _ => Some s
  | String a p', String b s' => if Ascii.eqb a b then strip_prefix p' s' else None
  | String _ _, EmptyString => None
  end.

(** [str.partition(sep)]: the text before the first occurrence of [sep]
    and the text after it, when there is one. *)
Fixpoint partition (sep s : string) : option (string * string) :=
  match strip_prefix sep s with
  | Some rest => Some (EmptyString, rest)
  | None =>
      match s with
      | EmptyString => None
      | String c s' =>
          match partition sep s' with
          | Some (before, rest) => Some (String c before, rest)
          | None => None
          end
      end
  end.

(** every character of [s] satisfies [p] *)
Fixpoint all_chars (p : ascii -> bool) (s : string) : bool :=
  match s with
  | EmptyString => true
  | String c s' => p c && all_chars p s'
  end.

(** [sub in s] *)
Definition contains (sub s : string) : bool :=
  match partition sub s with Some _ => true | None => false end.

(** [re.search(open + '(.*?)' + close, text, re.DOTALL)] and [group(1)]:
    the leftmost opening tag and the text up to the first closing tag that
    follows it. *)
Definition search_group (open close text : string) : option string :=
  match partition open text with
  | None => None
  | Some (_, rest) =>
      match partition close rest with
      | None => None
      | Some (inner, _) => Some inner
      end
  end.

End PyStr.

(* ================================================================== *)
(** ** Python objects, exceptions and outcomes *)

Inductive value : Type :=
| VNone
| VBool (b : bool)
| VInt (z : Z)
| VFloat (f : float)
| VStr (s : string)
| VList (l : list value)
| VDict (d : list (string * value)).

Inductive exn_class : Type :=
| ResourceExhausted
| RetryError
| AttributeError
| TypeError
| ValueError
| NameError
| OtherException.

Record exn : Type := mk_exn { exn_kind : exn_class; exn_str : string }.

Inductive outcome (A : Type) : Type :=
| Return (a : A)
| Raise (e : exn).
Arguments Return {A} a.
Arguments Raise {A} e.

Module Py.

Definition type_name (v : value) : string :=
  match v with
  | VNone => "NoneType" | VBool _ => "bool" | VInt _ => "int"
  | VFloat _ => "float" | VStr _ => "str" | VList _ => "list"
  | VDict _ => "dict"
  end.

(** [bool(v)] *)
Definition truthy (v : value) : bool :=
  match v with
  | VNone => false
  | VBool b => b
  | VInt z => negb (Z.eqb z 0)
  | VFloat f => negb (PrimFloat.eqb f 0%float)
  | VStr s => negb (String.eqb s EmptyString)
  | VList l => match l with [] => false | _ => true end
  | VDict d => match d with [] => false | _ => true end
  end.

(** dictionaries: association lists in insertion order *)
Fixpoint dict_get (k : string) (d : list (string * value)) : option value :=
  match d with
  | [] => None
  | (k', v) :: d' => if String.eqb k' k then Some v else dict_get k d'
  end.

Definition dict_in (k : string) (d : list (string * value)) : bool :=
  existsb (fun kv => String.eqb (fst kv) k) d.

Definition dict_del (k : string) (d : list (string * value)) : list (string * value) :=
  filter (fun kv => negb (String.eqb (fst kv) k)) d.

Definition is_str (k : string) (v : value) : bool :=
  match v with VStr s => String.eqb s k | _ => false end.

(** [k in v] for a string [k] *)
Definition contains (k : string) (v : value) : outcome bool :=
  match v with
  | VDict d => Return (dict_in k d)
  | VList l => Return (existsb (is_str k) l)
  | VStr s => Return (PyStr.contains k s)
  | _ => Raise (mk_exn TypeError
                  ("argument of type '" ++ type_name v ++ "' is not iterable"))
  end.

(** [del v[k]] for a string [k]; on a dictionary the key is present at
    every call site. *)
Definition delitem (k : string) (v : value) : outcome value :=
  match v with
  | VDict d => Return (VDict (dict_del k d))
  | VList _ => Raise (mk_exn TypeError "list indices must be integers or slices, not str")
  | _ => Raise (mk_exn TypeError
                  ("'" ++ type_name v ++ "' object doesn't support item deletion"))
  end.

(** [v.get(k, default)] *)
Definition get (v : value) (k : string) (default : value) : outcome value :=
  match v with
  | VDict d => Return (match dict_get k d with Some x => x | None => default end)
  | _ => Raise (mk_exn AttributeError
                  ("'" ++ type_name v ++ "' object has no attribute 'get'"))
  end.

(** [name in tools] for a dictionary [tools] keyed by strings: the name is
    hashed first. *)
Definition in_registry (name : value) (tools : list string) : outcome bool :=
  match name with
  | VStr s => Return (existsb (String.eqb s) tools)
  | VList _ | VDict _ =>
      Raise (mk_exn TypeError ("unhashable type: '" ++ type_name name ++ "'"))
  | _ => Return false
  end.

End Py.

(* ================================================================== *)
(** ** The environment: model, tools, decoder *)

(** What [generate_content] returns, for a response with one candidate:
    [response.parts] is either non-empty, and [response.text] is its text,
    or empty, and the accessor [response.text] raises [ValueError]. *)
Inductive response : Type :=
| Parts (text : string)
| NoParts.

(** What [json.loads] does on a text: it returns the decoded object, or
    raises [json.JSONDecodeError], or raises an exception of another class
    ([RecursionError] on a deeply nested text, [ValueError] on an integer
    with too many digits), which [except json.JSONDecodeError] does not
    catch. *)
Inductive decoded : Type :=
| Decoded (v : value)
| JSONDecodeError (msg : string)
| DecoderRaised (e : exn).

Inductive event : Type :=
| Generate (prompt : string)
| Sleep (seconds : Z)
| ToolCall (name : string) (params : value).

(** The capabilities an agent is built on.  [tool_func name params] is the
    call of the function registered under [name] with the keyword arguments
    of the mapping [params], its result rendered as text.  [function_str
    name] is how Python names that function in the [TypeError] of a call
    whose [**] argument is not a mapping (its module, its qualified name and
    a pair of parentheses). *)
Class Capabilities (World : Type) : Type := {
  json_loads : string -> decoded;
  generate_content : string -> World -> outcome response * World;
  tool_func : string -> value -> World -> outcome string * World;
  function_str : string -> string
}.

Record state (World : Type) : Type := mk_state { world : World; trace : list event }.
Arguments mk_state {World} world trace.
Arguments world {World} s.
Arguments trace {World} s.

(** Computations that read and change the world, log events and may raise. *)
Definition M (World A : Type) : Type := state World -> outcome A * state World.

Definition ret {World A} (a : A) : M World A := fun st => (Return a, st).

Definition raise {World A} (e : exn) : M World A := fun st => (Raise e, st).

Definition bind {World A B} (m : M World A) (k : A -> M World B) : M World B :=
  fun st =>
    match m st with
    | (Return a, st') => k a st'
    | (Raise e, st') => (Raise e, st')
    end.

Definition lift {World A} (o : outcome A) : M World A := fun st => (o, st).

(** [try: m  except Exception as e: handler e] *)
Definition try_except {World A} (m : M World A) (handler : exn -> M World A) : M World A :=
  fun st =>
    match m st with
    | (Return a, st') => (Return a, st')
    | (Raise e, st') => handler e st'
    end.

Definition emit {World} (ev : event) : M World unit :=
  fun st => (Return tt, mk_state (world st) (trace st ++ [ev])).

Declare Scope py_scope.
Delimit Scope py_scope with py.
Notation "x <- m ;; k" := (bind m (fun x => k))
  (at level 61, m at next level, right associativity) : py_scope.

(** Pure binding on outcomes, for code that raises without touching the world. *)
Definition obind {A B} (o : outcome A) (k : A -> outcome B) : outcome B :=
  match o with
  | Return a => k a
  | Raise e => Raise e
  end.

(* ================================================================== *)
(** ** tenacity: [@retry(wait=..., stop=..., retry=...)] *)

Module Tenacity.

(** [wait_exponential(multiplier, min, max)] after attempt [attempt_number] *)
Definition wait_exponential (multiplier min max : Z) (attempt_number : Z) : Z :=
  Z.max (Z.max 0 min) (Z.min (multiplier * 2 ^ (attempt_number - 1)) max).

Definition class_eqb (a b : exn_class) : bool :=
  match a, b with
  | ResourceExhausted, ResourceExhausted | RetryError, RetryError
  | AttributeError, AttributeError | TypeError, TypeError
  | ValueError, ValueError | NameError, NameError
  | OtherException, OtherException => true
  | _, _ => false
  end.

(** [retry_if_exception_type(cls)] *)
Definition retry_if_exception_type (cls : exn_class) (e : exn) : bool :=
  class_eqb (exn_kind e) cls.

(** The [RetryError] raised when the stop condition holds ([reraise] is left
    at its default, false).  Its text shows the last attempt; the address of
    the future object is left out. *)
Definition retry_error (last : exn) : exn :=
  mk_exn RetryError "RetryError[<Future state=finished raised ResourceExhausted>]".

(** The retrying loop, at attempt [attempt_number], with [remaining] more
    attempts allowed by [stop_after_attempt] after this one. *)
Fixpoint attempts {World A} (wait : Z -> Z) (retry_on : exn -> bool)
    (remaining : nat) (attempt_number : Z) (fn : M World A) : M World A :=
  fun st =>
    match fn st with
    | (Return a, st') => (Return a, st')
    | (Raise e, st') =>
        if retry_on e then
          match remaining with
          | O => (Raise (retry_error e), st')
          | S k =>
              match emit (Sleep (wait attempt_number)) st' with
              | (_, st'') => attempts wait retry_on k (attempt_number + 1) fn st''
              end
          end
        else (Raise e, st')
    end.

Definition retry {World A} (wait : Z -> Z) (stop_after_attempt : nat)
    (retry_on : exn -> bool) (fn : M World A) : M World A :=
  attempts wait retry_on (stop_after_attempt - 1) 1 fn.

End Tenacity.

(* ================================================================== *)
(** ** The agents *)

(** How an agent calls the model in a round.
    - [Direct]: [response = self.llm.generate_content(current_prompt)] and
      [response_text = response.text], outside any [try]
      (reviewer, QA, impact analyzer, merge controller).
    - [Retried]: the call goes through the tenacity wrapper inside
      [try/except]; a response without parts gives the empty text (builder).
    - [RetriedUnbound]: as [Retried], but the decorator argument is written
      [google.api_core.exceptions.ResourceExhausted] in a module that binds
      no name [google] (it imports [google.generativeai as genai] only), so
      defining the wrapper raises [NameError] before the [try]
      (documentation agent). *)
Inductive call_style : Type := Direct | Retried | RetriedUnbound.

Record agent : Type := mk_agent {
  agent_name : string;
  (** [self.tools]: name and description, in insertion order *)
  tools : list (string * string);
  style : call_style;
  (** the builder deletes [pr_url] and [pr_number] from its final answer *)
  strips_pr_fields : bool;
  (** the third field of a failure result, given the last response text *)
  default_field : string -> string * value
}.

Definition raw_response (response_text : string) : string * value :=
  ("raw_response", VStr response_text).

Definition no_local_changes (_ : string) : string * value :=
  ("local_changes_made", VBool false).

Definition max_iterations : nat := 10.

Definition builder_agent : agent :=
  mk_agent "Builder Agent"
    [("GitHub_GetRepoContent",
      "Reads content from the GitHub repository. Input: path (optional, defaults to root).");
     ("LocalFile_Write",
      "Writes content to a local file within the repository. Input: file_path (relative to local_repo_path), content.");
     ("Selenium_RunTests",
      "Runs pytest Selenium tests locally. Input: test_file_path.");
     ("MongoDB_InsertLog",
      "Inserts a log entry into a MongoDB collection. Input: collection_name, log_entry (dict).")]
    Retried true no_local_changes.

Definition reviewer_agent : agent :=
  mk_agent "Reviewer Agent"
    [("GitHub_GetPRDiff",
      "Retrieves the diff of a Pull Request. Input: pr_number (int).");
     ("GitHub_CreateCommit",
      "Commits changes to a file in the GitHub repository. Input: file_path, content, message, branch (optional, defaults to 'main').");
     ("MongoDB_InsertLog",
      "Inserts a log entry into a MongoDB collection. Input: collection_name, log_entry (dict).")]
    Direct false raw_response.

Definition qa_agent : agent :=
  mk_agent "QA Agent"
    [("CIManager_DeployToVercel",
      "Deploys the project to Vercel. Input: project_path.");
     ("CIManager_DeployToDocker",
      "Deploys the project using Docker. Input: project_path.");
     ("Selenium_DeployAndTestUI",
      "Deploys a preview and runs UI interaction tests using Selenium. Input: deploy_url (str), actions (list of dicts, e.g., [{'type': 'click', 'selector': '#button_id'}]).");
     ("MongoDB_InsertLog",
      "Inserts a log entry into a MongoDB collection. Input: collection_name, log_entry (dict).")]
    Direct false raw_response.

Definition impact_analyzer_agent : agent :=
  mk_agent "Impact Analyzer Agent"
    [("GitHub_GetPRDiff",
      "Retrieves the diff of a Pull Request. Input: pr_number (int).");
     ("RiskAnalyzer_AnalyzeDiff",
      "Analyzes a commit diff and provides a risk score. Input: commit_diff (str), repo_vector_memory (dict, placeholder for now).");
     ("MongoDB_InsertLog",
      "Inserts a log entry into a MongoDB collection. Input: collection_name, log_entry (dict).")]
    Direct false raw_response.

Definition merge_controller_agent : agent :=
  mk_agent "Confidence & Merge Controller Agent"
    [("GitHub_CreateCommit",
      "Commits changes to a file in the GitHub repository. Input: file_path, content, message, branch (optional, defaults to 'main').");
     ("MongoDB_InsertLog",
      "Inserts a log entry into a MongoDB collection. Input: collection_name, log_entry (dict).");
     ("GitHub_MergePR",
      "Merges a Pull Request. Input: pr_number (int), commit_title (str).")]
    Direct false raw_response.

Definition auto_documentation_agent : agent :=
  mk_agent "Auto Documentation Agent"
    [("GitHub_GetPRDiff",
      "Retrieves the diff of a Pull Request. Input: pr_number (int).");
     ("GitHub_GetRepoContent",
      "Reads content from the GitHub repository. Input: path (optional, defaults to root).");
     ("GitHub_CreateCommit",
      "Commits changes to a file in the GitHub repository. Input: file_path, content, message, branch (optional, defaults to 'main').");
     ("MongoDB_InsertLog",
      "Inserts a log entry into a MongoDB collection. Input: collection_name, log_entry (dict).")]
    RetriedUnbound false raw_response.

(** The result of one round of a loop: the function returned, or the loop
    goes on with the new prompt (and the response text of this round). *)
Inductive step : Type :=
| Finished (result : value)
| Continue (current_prompt response_text : string).

Section AgentLoop.

Context {World : Type} `{Capabilities World}.
Local Open Scope py_scope.
Import PyStr.

(** *** The response parsers (the same two methods in every agent) *)

Definition _parse_tool_code (text : string) : outcome (value * value) :=
  match search_group "<tool_code>" "</tool_code>" text with
  | Some group1 =>
      match json_loads (strip group1) with
      | Decoded tool_call =>
          obind (Py.get tool_call "tool_name" VNone) (fun tool_name =>
          obind (Py.get tool_call "parameters" (VDict [])) (fun parameters =>
          Return (tool_name, parameters)))
      | JSONDecodeError _ => Return (VNone, VNone)
      | DecoderRaised e => Raise e
      end
  | None => Return (VNone, VNone)
  end.

Definition _parse_final_answer (text : string) : outcome value :=
  match search_group "<final_answer>" "</final_answer>" text with
  | Some group1 =>
      match json_loads (strip group1) with
      | Decoded final_answer => Return final_answer
      | JSONDecodeError _ => Return VNone
      | DecoderRaised e => Raise e
      end
  | None => Return VNone
  end.

(** *** One model call *)

Definition llm_generate_content (prompt_text : string) : M World response :=
  fun st =>
    match generate_content prompt_text (world st) with
    | (r, w) => (r, mk_state w (trace st ++ [Generate prompt_text]))
    end.

Definition _generate_content_with_retry (prompt_text : string) : M World response :=
  Tenacity.retry (Tenacity.wait_exponential 1 4 10) 3
    (Tenacity.retry_if_exception_type ResourceExhausted)
    (llm_generate_content prompt_text).

(** [response.text] *)
Definition response_text_of (r : response) : outcome string :=
  match r with
  | Parts text => Return text
  | NoParts => Raise (mk_exn ValueError
      "Invalid operation: The `response.text` quick accessor requires the response to contain a valid `Part`, but none were returned.")
  end.

(** *** Results and segments *)

Definition failure (a : agent) (message response_text : string) : value :=
  VDict [("status", VStr "failure"); ("message", VStr message);
         default_field a response_text].

Definition quota_message (a : agent) (e : exn) : string :=
  agent_name a ++ " failed due to Gemini API quota exhaustion: " ++ exn_str e.

Definition unexpected_message (a : agent) (e : exn) : string :=
  agent_name a ++ " failed due to an unexpected error: " ++ exn_str e.

Definition max_iterations_message (a : agent) : string :=
  agent_name a ++ " reached max iterations without providing a final answer.".

Definition tool_output_segment (tool_name tool_output : string) : string :=
  nl ++ nl ++ "Tool Output for " ++ tool_name ++ ":" ++ nl ++ tool_output ++ nl ++ nl.

Definition tool_error_segment (tool_name : string) (e : exn) : string :=
  nl ++ nl ++ "Tool Error for " ++ tool_name ++ ": " ++ exn_str e ++ nl ++ nl.

Definition thought_segment (response_text : string) : string :=
  nl ++ nl ++ "LLM Thought/Response:" ++ nl ++ response_text ++ nl ++ nl.

(** [if key in d: del d[key]] *)
Definition discard (key : string) (final_answer_data : value) : outcome value :=
  obind (Py.contains key final_answer_data) (fun present =>
  if present then Py.delitem key final_answer_data else Return final_answer_data).

(** [tool_name and tool_name in self.tools] *)
Definition tool_selected (a : agent) (tool_name : value) : outcome bool :=
  if Py.truthy tool_name then Py.in_registry tool_name (map fst (tools a)) else Return false.

(** The call of a tool, which unpacks [tool_params] as keyword arguments,
    with parameters that are not a mapping: the call raises before the
    function is entered. *)
Definition not_a_mapping (tool_name : string) (tool_params : value) : exn :=
  mk_exn TypeError
    (function_str tool_name ++ " argument after ** must be a mapping, not "
       ++ Py.type_name tool_params).

(** The [try] around the tool call: the output or the error becomes a
    segment of the prompt.  The function is called only with a mapping. *)
Definition execute_tool (tool_name : string) (tool_params : value) : M World string :=
  fun st =>
    match tool_params with
    | VDict _ =>
        match tool_func tool_name tool_params (world st) with
        | (Return tool_output, w) =>
            (Return (tool_output_segment tool_name tool_output),
             mk_state w (trace st ++ [ToolCall tool_name tool_params]))
        | (Raise e, w) =>
            (Return (tool_error_segment tool_name e),
             mk_state w (trace st ++ [ToolCall tool_name tool_params]))
        end
    | _ =>
        (Return (tool_error_segment tool_name (not_a_mapping tool_name tool_params)),
         st)
    end.

(** *** The body of the loop, from the parse of the response on *)

(** the part after the test of the final answer *)
Definition use_tool (a : agent) (current_prompt response_text : string) : M World step :=
  parsed <- lift (_parse_tool_code response_text) ;;
  selected <- lift (tool_selected a (fst parsed)) ;;
  match selected, fst parsed with
  | true, VStr tool_name =>
      segment <- execute_tool tool_name (snd parsed) ;;
      ret (Continue (current_prompt ++ segment) response_text)
  | _, _ =>
      ret (Continue (current_prompt ++ thought_segment response_text) response_text)
  end.

Definition react (a : agent) (current_prompt response_text : string) : M World step :=
  final_answer <- lift (_parse_final_answer response_text) ;;
  if Py.truthy final_answer then
    if strips_pr_fields a then
      final_answer_data <- lift (obind (discard "pr_url" final_answer)
                                       (discard "pr_number")) ;;
      ret (Finished final_answer_data)
    else ret (Finished final_answer)
  else use_tool a current_prompt response_text.

(** *** One round *)

Definition round (a : agent) (current_prompt : string) : M World step :=
  match style a with
  | Direct =>
      response <- llm_generate_content current_prompt ;;
      response_text <- lift (response_text_of response) ;;
      react a current_prompt response_text
  | Retried =>
      called <- try_except
                  (response <- _generate_content_with_retry current_prompt ;;
                   ret (inr response))
                  (fun e =>
                     if Tenacity.retry_if_exception_type ResourceExhausted e
                     then ret (inl (failure a (quota_message a e) ""))
                     else ret (inl (failure a (unexpected_message a e) ""))) ;;
      match called with
      | inl result => ret (Finished result)
      | inr (Parts text) => react a current_prompt text
      | inr NoParts => react a current_prompt ""
      end
  | RetriedUnbound =>
      raise (mk_exn NameError "name 'google' is not defined")
  end.

(** *** The loop: [for i in range(n)] and the result after it *)

Fixpoint iterate (a : agent) (n : nat) (current_prompt response_text : string)
    : M World value :=
  match n with
  | O => ret (failure a (max_iterations_message a) response_text)
  | S n' =>
      s <- round a current_prompt ;;
      match s with
      | Finished result => ret result
      | Continue current_prompt' response_text' =>
          iterate a n' current_prompt' response_text'
      end
  end.

(** An agent's run from its rendered prompt. *)
Definition run_loop (a : agent) (current_prompt : string) : M World value :=
  iterate a max_iterations current_prompt "".

(** *** The product-manager intake loop

    [except google.api_core.exceptions.ResourceExhausted] is the first
    handler of its [try], in a module that binds no name [google]: when the
    model call raises, matching the exception evaluates that expression and
    raises [NameError]. *)

Definition no_text_segment : string :=
  nl ++ nl ++ "Error: LLM did not return any text. Please provide a valid JSON output.".

Definition invalid_json_segment (msg json_str : string) : string :=
  nl ++ nl ++ "Error: Invalid JSON format. Please ensure the output is valid JSON. Error: "
     ++ msg ++ nl ++ "Invalid JSON: " ++ json_str.

Definition no_tags_segment : string :=
  nl ++ nl ++ "Error: JSON output not enclosed in <json_output> tags. Please use the specified format.".

Definition pm_round (prompt : string) : M World step :=
  response <- try_except (_generate_content_with_retry prompt)
                (fun _ => raise (mk_exn NameError "name 'google' is not defined")) ;;
  match response with
  | NoParts => ret (Continue (prompt ++ no_text_segment) "")
  | Parts response_text =>
      match search_group "<json_output>" "</json_output>" response_text with
      | Some group1 =>
          let json_str := strip group1 in
          match json_loads json_str with
          | Decoded structured_output =>
              ret (Finished (VDict [("status", VStr "success");
                                    ("output", structured_output)]))
          | JSONDecodeError msg =>
              ret (Continue (prompt ++ invalid_json_segment msg json_str) response_text)
          | DecoderRaised e => raise e
          end
      | None => ret (Continue (prompt ++ no_tags_segment) response_text)
      end
  end.

Fixpoint pm_iterate (n : nat) (prompt : string) : M World value :=
  match n with
  | O => ret (VDict [("status", VStr "failure");
                     ("message", VStr "Product Manager Agent failed to generate valid JSON after multiple attempts.")])
  | S n' =>
      s <- pm_round prompt ;;
      match s with
      | Finished result => ret result
      | Continue prompt' _ => pm_iterate n' prompt'
      end
  end.

End AgentLoop.

(* ================================================================== *)
(** ** The entry points

    Each entry point renders its prompt template and runs the loop.  The
    merge controller is given with its template; its five arguments are the
    texts that the template receives.  The other entry points start from
    the rendered template. *)

(** [_format_tool_descriptions] *)
Definition _format_tool_descriptions (a : agent) : string :=
  String.concat PyStr.nl
    (map (fun tool => "- " ++ fst tool ++ ": " ++ snd tool) (tools a)).

Module BuilderAgent.
Section Run.
Context {World : Type} `{Capabilities World}.
Definition run (current_prompt : string) : M World value :=
  run_loop builder_agent current_prompt.
End Run.
End BuilderAgent.

Module ReviewerAgent.
Section Run.
Context {World : Type} `{Capabilities World}.
Definition run_review (current_prompt : string) : M World value :=
  run_loop reviewer_agent current_prompt.
End Run.
End ReviewerAgent.

Module QAAgent.
Section Run.
Context {World : Type} `{Capabilities World}.
Definition run_qa (current_prompt : string) : M World value :=
  run_loop qa_agent current_prompt.
End Run.
End QAAgent.

Module ImpactAnalyzerAgent.
Section Run.
Context {World : Type} `{Capabilities World}.
Definition run_analysis (current_prompt : string) : M World value :=
  run_loop impact_analyzer_agent current_prompt.
End Run.
End ImpactAnalyzerAgent.

Module ConfidenceMergeControllerAgent.
Import PyStr.

(** [MERGE_CONTROLLER_PROMPT_TEMPLATE.format(...)], line by line.  Step 2
    and step 3 of this text are the only place where the confidence formula
    and its threshold occur in the program. *)
Definition MERGE_CONTROLLER_PROMPT_TEMPLATE
    (tool_descriptions test_results review_feedback qa_report risk_score
     pr_details : string) : string :=
  String.concat PyStr.nl
   ["You are the Confidence & Merge Controller Agent (A5). Your task is to collect results from other agents, calculate a confidence level, and decide whether to automatically merge a Pull Request.";
    "You have access to the following tools:";
    tool_descriptions;
    EmptyString;
    "Here are the collected results:";
    "- Test Results (from Builder A1): " ++ test_results;
    "- Review Feedback (from Reviewer A2): " ++ review_feedback;
    "- QA Report (from QA Agent A4): " ++ qa_report;
    "- Risk Score (from Impact Analyzer A6): " ++ risk_score;
    EmptyString;
    "Here are the details of the Pull Request:";
    pr_details;
    EmptyString;
    "Follow these steps:";
    "1. Parse the `test_results`, `review_feedback`, `qa_report`, and `risk_score`.";
    "2. Calculate the confidence level using the formula:";
    "   `confidence = (tests_pass * 0.4) + (review_score * 0.3) + (qa_pass * 0.2) - ((risk_score / 10) * 0.3)`";
    "   - `tests_pass`: 1 if tests passed, 0 otherwise.";
    "   - `review_score`: Assume 1 for approved, 0 for not approved (can be refined later).";
    "   - `qa_pass`: 1 if no UI bugs detected, 0 otherwise.";
    "   - `risk_score`: The estimated risk score from A6 (0-10).";
    "3. If `confidence > 0.85`, then merge the PR automatically using `GitHub_MergePR`.";
    "4. Log the merge decision (or rejection) and the calculated confidence to MongoDB using `MongoDB_InsertLog` with collection 'merge_cycles'. The log entry should include:";
    "    - `pr_number`";
    "    - `confidence_score`";
    "    - `merge_decision` (merged/rejected)";
    "    - `reason` (e.g., " ++ dq ++ "Confidence above threshold" ++ dq ++ ", " ++ dq ++ "Low confidence" ++ dq ++ ")";
    "    - `explainable_merge_log` (human-readable summary)";
    EmptyString;
    "You must respond in a specific format.";
    "To use a tool, respond with:";
    "<tool_code>";
    "{";
    "  " ++ dq ++ "tool_name" ++ dq ++ ": " ++ dq ++ "ToolName" ++ dq ++ ",";
    "  " ++ dq ++ "parameters" ++ dq ++ ": {";
    "    " ++ dq ++ "param1" ++ dq ++ ": " ++ dq ++ "value1" ++ dq ++ ",";
    "    " ++ dq ++ "param2" ++ dq ++ ": " ++ dq ++ "value2" ++ dq;
    "  }";
    "}";
    "</tool_code>";
    EmptyString;
    "To provide your final answer, respond with a JSON object:";
    "<final_answer>";
    "{";
    "  " ++ dq ++ "pr_number" ++ dq ++ ": " ++ dq ++ "..." ++ dq ++ ",";
    "  " ++ dq ++ "confidence_score" ++ dq ++ ": " ++ dq ++ "..." ++ dq ++ ",";
    "  " ++ dq ++ "merge_decision" ++ dq ++ ": " ++ dq ++ "merged" ++ dq ++ " | " ++ dq ++ "rejected" ++ dq ++ ",";
    "  " ++ dq ++ "reason" ++ dq ++ ": " ++ dq ++ "..." ++ dq ++ ",";
    "  " ++ dq ++ "explainable_merge_log" ++ dq ++ ": " ++ dq ++ "..." ++ dq;
    "}";
    "</final_answer>";
    EmptyString;
    "Begin!";
    EmptyString].

Section Run.
Context {World : Type} `{Capabilities World}.
Definition run_merge_decision
    (test_results review_feedback qa_report risk_score pr_details : string)
    : M World value :=
  let tool_descriptions := _format_tool_descriptions merge_controller_agent in
  let current_prompt :=
    MERGE_CONTROLLER_PROMPT_TEMPLATE tool_descriptions test_results
      review_feedback qa_report risk_score pr_details in
  run_loop merge_controller_agent current_prompt.
End Run.
End ConfidenceMergeControllerAgent.

Module AutoDocumentationAgent.
Section Run.
Context {World : Type} `{Capabilities World}.
Definition run_documentation (current_prompt : string) : M World value :=
  run_loop auto_documentation_agent current_prompt.
End Run.
End AutoDocumentationAgent.

Module ProductManagerAgent.
Section Run.
Context {World : Type} `{Capabilities World}.
Definition max_iterations : nat := 3.
Definition process_comment (prompt : string) : M World value :=
  pm_iterate max_iterations prompt.
End Run.
End ProductManagerAgent.

(* ================================================================== *)
(** ** The orchestrator: branch name *)

Module Orchestrator.
Import PyStr.

(** [re.sub(r'[^a-zA-Z0-9\-_]', '-', s)] *)
Definition slug_char (c : ascii) : bool :=
  is_lower c || is_upper c || is_digit c || Ascii.eqb c "-" || Ascii.eqb c "_".

Definition re_sub_non_slug (s : string) : string :=
  map_chars (fun c => if slug_char c then c else "-"%char) s.

(** The three assignments to [feature_branch_name] in [run_devops_cycle]
    (and, word for word, in [BuilderAgent.run]). *)
Definition feature_branch_name (feature_id title : string) : string :=
  let feature_branch_name :=
    "feature/" ++ feature_id ++ "-" ++ lower (replace_char " " "-" title) in
  let feature_branch_name := re_sub_non_slug feature_branch_name in
  take 100 feature_branch_name.

End Orchestrator.

(* ================================================================== *)
(** ** mytools: [GithubAPI.create_pr] *)

Record PullRequest : Type := mk_pr { number : Z; html_url : string }.

(** The repository service behind [self.repo]: its state is [Repo]; the
    queries read it and [create_pull] changes it. *)
Class Github (Repo : Type) : Type := {
  owner_login : Repo -> string;
  (** [get_pulls(state=..., head=...)], in the order of the listing *)
  get_pulls : Repo -> string -> string -> list PullRequest;
  (** the names of [get_branches()] *)
  get_branches : Repo -> list string;
  (** [create_pull(title=..., body=..., head=..., base=...)] *)
  create_pull : string -> string -> string -> string -> Repo -> outcome PullRequest * Repo
}.

Module GithubAPI.
Section CreatePr.
Context {Repo : Type} `{Github Repo}.

Definition pr_result (pr : PullRequest) : value :=
  VDict [("pr_url", VStr (html_url pr)); ("pr_number", VInt (number pr))].

Definition create_pr (title body head base : string) (repo : Repo)
    : outcome value * Repo :=
  let existing_prs := get_pulls repo "open" (owner_login repo ++ ":" ++ head) in
  match existing_prs with
  | existing :: _ => (Return (pr_result existing), repo)
  | [] =>
      if negb (existsb (String.eqb head) (get_branches repo)) then
        (Raise (mk_exn ValueError ("Branch " ++ head ++ " not found in repo.")), repo)
      else
        match create_pull title body head base repo with
        | (Return pr, repo') => (Return (pr_result pr), repo')
        | (Raise e, repo') => (Raise e, repo')
        end
  end.

End CreatePr.
End GithubAPI.

(* ================================================================== *)
(** ** A decoder and test doubles for the concrete runs *)

(** A JSON decoder for the concrete runs below.  It follows [json.loads] on
    texts made of objects, arrays, strings with the one-letter escapes,
    integers and the three literals; texts with a fraction, an exponent, a
    [\u] escape or [NaN]/[Infinity] are rejected here, and the message of a
    rejection is not the library's. *)
Module Json.
Import PyStr.

Definition is_ws (c : ascii) : bool :=
  Ascii.eqb c " " || in_range 9 10 c || in_range 13 13 c.

Fixpoint skip_ws (s : string) : string :=
  match s with
  | String c s' => if is_ws c then skip_ws s' else s
  | EmptyString => EmptyString
  end.

Definition unescape (c : ascii) : option ascii :=
  let n := nat_of_ascii c in
  if (n =? 34)%nat then Some c            (* quote *)
  else if (n =? 92)%nat then Some c       (* backslash *)
  else if (n =? 47)%nat then Some c       (* slash *)
  else if (n =? 98)%nat then Some (ascii_of_nat 8)
  else if (n =? 102)%nat then Some (ascii_of_nat 12)
  else if (n =? 110)%nat then Some (ascii_of_nat 10)
  else if (n =? 114)%nat then Some (ascii_of_nat 13)
  else if (n =? 116)%nat then Some (ascii_of_nat 9)
  else None.

(** the characters of a string literal, after its opening quote *)
Fixpoint string_body (s : string) : option (string * string) :=
  match s with
  | EmptyString => None
  | String c s' =>
      let n := nat_of_ascii c in
      if (n =? 34)%nat then Some (EmptyString, s')
      else if (n =? 92)%nat then
        match s' with
        | String e s'' =>
            match unescape e, string_body s'' with
            | Some c', Some (body, rest) => Some (String c' body, rest)
            | _, _ => None
            end
        | EmptyString => None
        end
      else if (n <? 32)%nat then None
      else
        match string_body s' with
        | Some (body, rest) => Some (String c body, rest)
        | None => None
        end
  end.

Fixpoint digits (acc : Z) (s : string) : Z * string :=
  match s with
  | String c s' =>
      if is_digit c then digits (10 * acc + Z.of_nat (nat_of_ascii c - 48)) s'
      else (acc, s)
  | EmptyString => (acc, s)
  end.

(** [0] or a digit string without leading zero; no fraction, no exponent *)
Definition natural (s : string) : option (Z * string) :=
  match s with
  | String c s' =>
      if negb (is_digit c) then None
      else
        let '(z, rest) :=
          if Ascii.eqb c "0" then (0%Z, s') else digits 0 s in
        match rest with
        | String d _ =>
            if Ascii.eqb d "." || Ascii.eqb d "e" || Ascii.eqb d "E" then None
            else Some (z, rest)
        | EmptyString => Some (z, rest)
        end
  | EmptyString => None
  end.

(** [d[k] = v] *)
Fixpoint dict_set (k : string) (v : value) (d : list (string * value))
    : list (string * value) :=
  match d with
  | [] => [(k, v)]
  | (k', v') :: d' =>
      if String.eqb k' k then (k', v) :: d' else (k', v') :: dict_set k v d'
  end.

Fixpoint parse_value (fuel : nat) (s : string) : option (value * string) :=
  match fuel with
  | O => None
  | S fuel' =>
      match s with
      | String c rest =>
          let n := nat_of_ascii c in
          if (n =? 123)%nat then                      (* object *)
            match skip_ws rest with
            | String c' rest' =>
                if (nat_of_ascii c' =? 125)%nat then Some (VDict [], rest')
                else parse_members fuel' [] (skip_ws rest)
            | EmptyString => None
            end
          else if (n =? 91)%nat then                  (* array *)
            match skip_ws rest with
            | String c' rest' =>
                if (nat_of_ascii c' =? 93)%nat then Some (VList [], rest')
                else parse_elements fuel' [] (skip_ws rest)
            | EmptyString => None
            end
          else if (n =? 34)%nat then
            match string_body rest with
            | Some (body, rest') => Some (VStr body, rest')
            | None => None
            end
          else if (n =? 45)%nat then
            match natural rest with
            | Some (z, rest') => Some (VInt (- z), rest')
            | None => None
            end
          else if is_digit c then
            match natural s with
            | Some (z, rest') => Some (VInt z, rest')
            | None => None
            end
          else
            match strip_prefix "true" s, strip_prefix "false" s, strip_prefix "null" s with
            | Some rest', _, _ => Some (VBool true, rest')
            | _, Some rest', _ => Some (VBool false, rest')
            | _, _, Some rest' => Some (VNone, rest')
            | _, _, _ => None
            end
      | EmptyString => None
      end
  end
with parse_elements (fuel : nat) (acc : list value) (s : string)
    : option (value * string) :=
  match fuel with
  | O => None
  | S fuel' =>
      match parse_value fuel' s with
      | Some (v, rest) =>
          match skip_ws rest with
          | String c rest' =>
              if (nat_of_ascii c =? 44)%nat then
                parse_elements fuel' (acc ++ [v]) (skip_ws rest')
              else if (nat_of_ascii c =? 93)%nat then Some (VList (acc ++ [v]), rest')
              else None
          | EmptyString => None
          end
      | None => None
      end
  end
with parse_members (fuel : nat) (acc : list (string * value)) (s : string)
    : option (value * string) :=
  match fuel with
  | O => None
  | S fuel' =>
      match s with
      | String q s' =>
          if negb (nat_of_ascii q =? 34)%nat then None
          else
            match string_body s' with
            | Some (key, rest) =>
                match skip_ws rest with
                | String colon rest' =>
                    if negb (nat_of_ascii colon =? 58)%nat then None
                    else
                      match parse_value fuel' (skip_ws rest') with
                      | Some (v, rest'') =>
                          match skip_ws rest'' with
                          | String c r =>
                              if (nat_of_ascii c =? 44)%nat then
                                parse_members fuel' (dict_set key v acc) (skip_ws r)
                              else if (nat_of_ascii c =? 125)%nat then
                                Some (VDict (dict_set key v acc), r)
                              else None
                          | EmptyString => None
                          end
                      | None => None
                      end
                | EmptyString => None
                end
            | None => None
            end
      | EmptyString => None
      end
  end.

Definition loads (s : string) : decoded :=
  match parse_value (2 * String.length s + 2) (skip_ws s) with
  | Some (v, rest) =>
      match skip_ws rest with
      | EmptyString => Decoded v
      | _ => JSONDecodeError "Extra data"
      end
  | None => JSONDecodeError "Expecting value"
  end.

End Json.

Module Doubles.

(** A model that replays a script, one outcome per call, and fails when the
    script is over; tools that all succeed with the same text. *)
#[export] Instance scripted : Capabilities (list (outcome response)) := {|
  json_loads := Json.loads;
  generate_content := fun _ script =>
    match script with
    | r :: script' => (r, script')
    | [] => (Raise (mk_exn OtherException "no more responses"), [])
    end;
  tool_func := fun _ _ script => (Return "ok", script);
  function_str := fun name => "tools." ++ name ++ "()"
|}.

(** A model that gives the same outcome at every call. *)
Definition constant (r : outcome response) : Capabilities unit := {|
  json_loads := Json.loads;
  generate_content := fun _ w => (r, w);
  tool_func := fun _ _ w => (Return "ok", w);
  function_str := fun name => "tools." ++ name ++ "()"
|}.

Definition rate_limit : exn := mk_exn ResourceExhausted "429 Resource has been exhausted".

Definition outage : exn := mk_exn OtherException "503 Service Unavailable".

Definition start (script : list (outcome response)) : state (list (outcome response)) :=
  mk_state script [].

Definition says (text : string) : outcome response := Return (Parts text).

(** Texts of the wire format. *)
Definition quoted (s : string) : string := PyStr.dq ++ s ++ PyStr.dq.

Definition final_answer_block (json : string) : string :=
  "<final_answer>" ++ json ++ "</final_answer>".

Definition tool_code_block (json : string) : string :=
  "<tool_code>" ++ json ++ "</tool_code>".

(** an object with the one key [merge_decision] *)
Definition verdict_json (verdict : string) : string :=
  "{" ++ quoted "merge_decision" ++ ": " ++ quoted verdict ++ "}".

(** [{"status": "success"}] *)
Definition success_json : string :=
  "{" ++ quoted "status" ++ ": " ++ quoted "success" ++ "}".

(** [{"status": "success", "pr_url": "https://github.example/pull/7",
      "pr_number": 7, "local_changes_made": true}] *)
Definition success_with_pr_json : string :=
  "{" ++ quoted "status" ++ ": " ++ quoted "success" ++ ", "
      ++ quoted "pr_url" ++ ": " ++ quoted "https://github.example/pull/7" ++ ", "
      ++ quoted "pr_number" ++ ": 7, "
      ++ quoted "local_changes_made" ++ ": true}".

(** [{"tool_name": "MongoDB_InsertLog", "parameters": {}}] *)
Definition insert_log_json : string :=
  "{" ++ quoted "tool_name" ++ ": " ++ quoted "MongoDB_InsertLog" ++ ", "
      ++ quoted "parameters" ++ ": {}}".

(** A repository service that keeps its open pull requests by head label
    and numbers new ones in sequence. *)
Record repo_double : Type := mk_repo {
  login : string;
  open_pulls : list (string * PullRequest);
  branch_names : list string
}.

#[export] Instance github_double : Github repo_double := {|
  owner_login := login;
  get_pulls := fun repo st head =>
    if String.eqb st "open"
    then map snd (filter (fun p => String.eqb (fst p) head) (open_pulls repo))
    else [];
  get_branches := branch_names;
  create_pull := fun title body head base repo =>
    let pr := mk_pr (1 + Z.of_nat (List.length (open_pulls repo)))
                    ("https://github.example/pull/" ++ head) in
    (Return pr,
     mk_repo (login repo)
             (open_pulls repo ++ [(login repo ++ ":" ++ head, pr)])
             (branch_names repo))
|}.

End Doubles.

(* ================================================================== *)
(** ** Vocabulary of the properties *)

Module Orchestrator_spec.
Import PyStr Orchestrator.

(** What the three assignments do to one character of the title. *)
Definition title_char (c : ascii) : ascii :=
  let c := lower_char (if Ascii.eqb c " " then "-"%char else c) in
  if slug_char c then c else "-"%char.

End Orchestrator_spec.

Section LoopVocabulary.
Context {World : Type} `{Capabilities World}.

(** The text has no block between the two tags, or what stands between
    them is not valid JSON. *)
Definition block_absent (open close text : string) : Prop :=
  PyStr.search_group open close text = None
  \/ exists group1 msg,
       PyStr.search_group open close text = Some group1
       /\ json_loads (PyStr.strip group1) = JSONDecodeError msg.

(** Agent [a] finds in the text neither a final answer nor a call of one of
    its tools. *)
Definition unrecognized (a : agent) (text : string) : Prop :=
  (exists v, _parse_final_answer text = Return v /\ Py.truthy v = false)
  /\ (exists name params,
        _parse_tool_code text = Return (name, params)
        /\ tool_selected a name = Return false).

(** The model answers every call, and never with a text that [a] recognizes. *)
Definition always_unrecognized (a : agent) : Prop :=
  forall prompt w, exists text w',
    generate_content prompt w = (Return (Parts text), w') /\ unrecognized a text.

(** The model fails every call on [prompt] with [ResourceExhausted]. *)
Definition always_rate_limited (prompt : string) : Prop :=
  forall w, exists msg w',
    generate_content prompt w = (Raise (mk_exn ResourceExhausted msg), w').

End LoopVocabulary.

(** The prompts sent to the model, in order. *)
Fixpoint prompts (events : list event) : list string :=
  match events with
  | [] => []
  | Generate prompt :: events' => prompt :: prompts events'
  | _ :: events' => prompts events'
  end.

(** The tools executed, in order. *)
Fixpoint tool_calls (events : list event) : list string :=
  match events with
  | [] => []
  | ToolCall name _ :: events' => name :: tool_calls events'
  | _ :: events' => tool_calls events'
  end.

(** Each text is a prefix of the next one, starting from [p]. *)
Fixpoint chain (p : string) (texts : list string) : Prop :=
  match texts with
  | [] => True
  | q :: texts' => String.prefix p q = true /\ chain q texts'
  end.

Module MergeFormula.
Local Open Scope Q_scope.

(** The formula of step 2 of [MERGE_CONTROLLER_PROMPT_TEMPLATE], over the
    rationals, and the test of step 3. *)
Definition confidence (tests_pass review_score qa_pass risk_score : Q) : Q :=
  (tests_pass * 0.4) + (review_score * 0.3) + (qa_pass * 0.2)
  - ((risk_score / 10) * 0.3).

Definition above_threshold (confidence : Q) : Prop := 0.85 < confidence.

(** The two instructions as they stand in the template. *)
Definition formula_text : string :=
  "confidence = (tests_pass * 0.4) + (review_score * 0.3) + (qa_pass * 0.2) - ((risk_score / 10) * 0.3)".

Definition threshold_text : string :=
  "If `confidence > 0.85`, then merge the PR automatically using `GitHub_MergePR`.".

End MergeFormula.

(* ================================================================== *)
(** ** More vocabulary: what a run costs, what the intake loop cannot use *)

(** The most model calls one round of [a] can make: one for a direct call,
    three through the retry wrapper, none when the wrapper cannot be
    defined. *)
Definition calls_per_round (a : agent) : nat :=
  match style a with
  | Direct => 1
  | Retried => 3
  | RetriedUnbound => 0
  end.

(** [name] is a key of [self.tools]. *)
Definition registered (a : agent) (name : string) : Prop :=
  In name (map fst (tools a)).

Section IntakeVocabulary.
Context {World : Type} `{Capabilities World}.

(** A response from which the product-manager loop gets no ticket: no text,
    no [<json_output>] block, or a block that is not valid JSON. *)
Definition pm_unusable (r : response) : Prop :=
  match r with
  | NoParts => True
  | Parts text =>
      block_absent "<json_output>" "</json_output>" text
  end.

(** The model answers every call, and never with a usable ticket. *)
Definition never_a_ticket : Prop :=
  forall prompt w, exists r w',
    generate_content prompt w = (Return r, w') /\ pm_unusable r.

End IntakeVocabulary.

(** More test doubles. *)
Module Fixtures.

(** The scripted model of [Doubles], with tools that all fail. *)
Definition broken_tools : Capabilities (list (outcome response)) := {|
  json_loads := Json.loads;
  generate_content := fun _ script =>
    match script with
    | r :: script' => (r, script')
    | [] => (Raise (mk_exn OtherException "no more responses"), [])
    end;
  tool_func := fun _ _ script => (Raise (mk_exn OtherException "disk full"), script);
  function_str := fun name => "tools." ++ name ++ "()"
|}.

Definition json_output_block (json : string) : string :=
  "<json_output>" ++ json ++ "</json_output>".

(** [{"tool_name": "MongoDB_InsertLog", "parameters": [1]}] *)
Definition insert_log_list_json : string :=
  "{" ++ Doubles.quoted "tool_name" ++ ": " ++ Doubles.quoted "MongoDB_InsertLog" ++ ", "
      ++ Doubles.quoted "parameters" ++ ": [1]}".

(** a call of a tool that no agent has *)
Definition shell_json : string :=
  "{" ++ Doubles.quoted "tool_name" ++ ": " ++ Doubles.quoted "Shell_Run" ++ "}".

End Fixtures.

(* ================================================================== *)
(** ** git_workflow *)

Module GitWorkflow.
Import PyStr.

Record CompletedProcess : Type :=
  mk_completed { returncode : Z; stdout : string; stderr : string }.

(** What [subprocess.run(command, cwd=cwd, capture_output=True, text=True)]
    does before it looks at the return code: the process ran and exited,
    the program was not found, or something else went wrong. *)
Inductive launch : Type :=
| Exited (result : CompletedProcess)
| NotFound
| Broken (e : exn).

(** The exceptions of this module. *)
Inductive failure : Type :=
| CalledProcessError (result : CompletedProcess)
| FileNotFoundError
| OtherError (e : exn).

Inductive attempt (A : Type) : Type :=
| Done (a : A)
| Failed (f : failure).
Arguments Done {A} a.
Arguments Failed {A} f.

(** The shell the workflow runs on.  [isdir p] is
    [os.path.exists(p) and os.path.isdir(p)]; [strftime_now] is the
    formatted [datetime.datetime.now()]. *)
Class Shell (World : Type) : Type := {
  subprocess_run : list string -> option string -> World -> launch * World;
  isdir : string -> World -> bool;
  strftime_now : World -> string
}.

(** One executed command: the argument vector, the working directory and
    what became of it. *)
Record executed : Type :=
  mk_executed { command : list string; cwd : option string; outcome_of : launch }.

Record sh_state (World : Type) : Type :=
  mk_sh { sh_world : World; history : list executed }.
Arguments mk_sh {World} sh_world history.
Arguments sh_world {World} s.
Arguments history {World} s.

Section Workflow.
Context {World : Type} `{Shell World}.

Definition G (A : Type) : Type := sh_state World -> attempt A * sh_state World.

(** The state after one command: the world it leaves, and the history with
    the command and what became of it. *)
Definition after (cmd : list string) (dir : option string) (st : sh_state World)
    : sh_state World :=
  mk_sh (snd (subprocess_run cmd dir (sh_world st)))
        (history st ++ [mk_executed cmd dir
                          (fst (subprocess_run cmd dir (sh_world st)))]).

(** [try: m  except Exception: return fallback] *)
Definition or_else {A} (m : G A) (handler : failure -> A) : G A :=
  fun st =>
    match m st with
    | (Done a, st') => (Done a, st')
    | (Failed f, st') => (Done (handler f), st')
    end.

Definition run_command (command : list string) (cwd : option string)
    (check_error : bool) : G CompletedProcess :=
  fun st =>
    match subprocess_run command cwd (sh_world st) with
    | (l, w) =>
        let st' := mk_sh w (history st ++ [mk_executed command cwd l]) in
        match l with
        | Exited result =>
            if check_error && negb (Z.eqb (returncode result) 0)
            then (Failed (CalledProcessError result), st')
            else (Done result, st')
        | NotFound => (Failed FileNotFoundError, st')
        | Broken e => (Failed (OtherError e), st')
        end
    end.

Definition clone_repository (repo_url local_path branch : string) : G bool :=
  fun st =>
    if isdir local_path (sh_world st) then (Done true, st)
    else
      or_else
        (fun st0 =>
           match run_command ["git"; "clone"; "-b"; branch; repo_url; local_path]
                   None true st0 with
           | (Done _, st') => (Done true, st')
           | (Failed f, st') => (Failed f, st')
           end)
        (fun _ => false) st.

Definition detect_changes (local_path : string) : G bool :=
  or_else
    (fun st =>
       match run_command ["git"; "status"; "--porcelain"] (Some local_path) true st with
       | (Done result, st') =>
           (Done (negb (String.eqb (strip (stdout result)) EmptyString)), st')
       | (Failed f, st') => (Failed f, st')
       end)
    (fun _ => false).

Definition apply_changes (local_path : string) : G unit :=
  fun st => (Done tt, st).

Definition verify_changes (local_path : string) : G bool :=
  fun st => (Done true, st).

Definition stage_changes (local_path : string) : G bool :=
  or_else
    (fun st =>
       match run_command ["git"; "add"; "."] (Some local_path) true st with
       | (Done _, st') => (Done true, st')
       | (Failed f, st') => (Failed f, st')
       end)
    (fun _ => false).

Definition commit_changes (local_path message_prefix : string) : G bool :=
  fun st =>
    let timestamp := strftime_now (sh_world st) in
    let commit_message := message_prefix ++ " - " ++ timestamp in
    or_else
      (fun st0 =>
         match run_command ["git"; "commit"; "-m"; commit_message]
                 (Some local_path) true st0 with
         | (Done _, st') => (Done true, st')
         | (Failed f, st') => (Failed f, st')
         end)
      (fun f =>
         match f with
         | CalledProcessError e => contains "nothing to commit" (stderr e)
         | _ => false
         end) st.

Definition push_changes (local_path remote branch : string) : G bool :=
  or_else
    (fun st =>
       match run_command ["git"; "pull"; remote; branch] (Some local_path) true st with
       | (Done _, st1) =>
           match run_command ["git"; "push"; remote; branch] (Some local_path) true st1 with
           | (Done _, st2) => (Done true, st2)
           | (Failed f, st2) => (Failed f, st2)
           end
       | (Failed f, st1) => (Failed f, st1)
       end)
    (fun _ => false).

(** [if not step: return False], the pattern of the workflow *)
Definition and_then (step : G bool) (next : G bool) : G bool :=
  fun st =>
    match step st with
    | (Done true, st') => next st'
    | (Done false, st') => (Done false, st')
    | (Failed f, st') => (Failed f, st')
    end.

Definition automated_git_workflow (repo_url local_path branch
    commit_message_prefix : string) : G bool :=
  and_then (clone_repository repo_url local_path branch)
    (fun st =>
       match apply_changes local_path st with
       | (Failed f, st0) => (Failed f, st0)
       | (Done _, st0) =>
           match detect_changes local_path st0 with
           | (Failed f, st1) => (Failed f, st1)
           | (Done false, st1) => (Done true, st1)
           | (Done true, st1) =>
               and_then (verify_changes local_path)
                 (and_then (stage_changes local_path)
                    (and_then (commit_changes local_path commit_message_prefix)
                       (and_then (push_changes local_path "origin" branch)
                          (fun st5 => (Done true, st5))))) st1
           end
       end).

End Workflow.

(** The commands of a full run, in order, for the commit message [message]. *)
Definition script (repo_url local_path branch message : string)
    : list (list string) :=
  [["git"; "clone"; "-b"; branch; repo_url; local_path];
   ["git"; "status"; "--porcelain"];
   ["git"; "add"; "."];
   ["git"; "commit"; "-m"; message];
   ["git"; "pull"; "origin"; branch];
   ["git"; "push"; "origin"; branch]].

(** The process exited with code 0. *)
Definition exit_ok (l : launch) : bool :=
  match l with
  | Exited result => Z.eqb (returncode result) 0
  | _ => false
  end.

(** [git status --porcelain] exited with code 0 and printed something. *)
Definition reports_changes (l : launch) : bool :=
  match l with
  | Exited result =>
      Z.eqb (returncode result) 0
      && negb (String.eqb (strip (stdout result)) EmptyString)
  | _ => false
  end.

(** [git commit] exited with code 0, or with another code and the words
    "nothing to commit" on its standard error. *)
Definition commit_accepted (l : launch) : bool :=
  match l with
  | Exited result =>
      Z.eqb (returncode result) 0 || contains "nothing to commit" (stderr result)
  | _ => false
  end.

(** A shell that plays back what its commands do, one per command, over a
    directory that exists or not, at a fixed time of day. *)
Definition played (directory_exists : bool) : Shell (list launch) := {|
  subprocess_run := fun _ _ results =>
    match results with
    | l :: results' => (l, results')
    | [] => (NotFound, [])
    end;
  isdir := fun _ _ => directory_exists;
  strftime_now := fun _ => "2025-01-01 12:00:00"
|}.

Definition exits (code : Z) (out err : string) : launch :=
  Exited (mk_completed code out err).

End GitWorkflow.

(* ================================================================== *)
(** ** mytools: the services behind the cycle, [GithubAPI.create_branch] *)

(** The calls of the cycle that reach GitHub and MongoDB.  Each of them is
    a request to a remote service that may fail with an exception. *)
Class Services (World : Type) : Type := {
  (** [self.repo.get_git_refs()], iterated: the names of the refs that the
      listing yields, and the exception that interrupts it, if any *)
  get_git_refs : World -> (list string * option exn) * World;
  (** [self.repo.get_git_ref(ref).object.sha] *)
  get_git_ref : string -> World -> outcome string * World;
  (** [self.repo.create_git_ref(ref=..., sha=...)] *)
  create_git_ref : string -> string -> World -> outcome unit * World;
  (** [GithubAPI.get_repo_content(path)] *)
  get_repo_content : string -> World -> outcome value * World;
  (** [GithubAPI.get_pr_diff(pr_number)] *)
  get_pr_diff : Z -> World -> outcome string * World;
  (** [MongoDBService.insert_log(collection_name, log_entry)] *)
  insert_log : string -> value -> World -> outcome string * World;
  (** [MongoDBService.get_logs(collection_name)] *)
  get_logs : string -> World -> outcome (list value) * World
}.

Module Branches.
Section CreateBranch.
Context {World : Type} `{Services World}.

Definition create_branch (branch_name base : string) (w : World)
    : outcome string * World :=
  match get_git_refs w with
  | ((refs, interrupted), w1) =>
      if existsb (fun ref => String.eqb ref ("refs/heads/" ++ branch_name)) refs
      then (Return branch_name, w1)
      else
        match interrupted with
        | Some e => (Raise e, w1)
        | None =>
            match get_git_ref ("heads/" ++ base) w1 with
            | (Raise e, w2) => (Raise e, w2)
            | (Return sha, w2) =>
                match create_git_ref ("refs/heads/" ++ branch_name) sha w2 with
                | (Raise e, w3) => (Raise e, w3)
                | (Return _, w3) => (Return branch_name, w3)
                end
            end
        end
  end.

End CreateBranch.
End Branches.

(* ================================================================== *)
(** ** The orchestrator: [run_devops_cycle]

    The cycle is modelled without its [print]s.  What Python renders as
    text and what the prompt templates of the agents hold is left open:
    the cycle does not branch on it. *)

Declare Scope cycle_scope.
Delimit Scope cycle_scope with cycle.

Module DevopsCycle.
Import PyStr GitWorkflow.

Record Python : Type := mk_python {
  (** [str(v)] for a [v] that is not a string *)
  py_str : value -> string;
  (** [json.dumps(v, indent=2)] *)
  json_dumps : value -> string;
  (** [int(v)] for a [v] that is neither an integer nor a boolean *)
  py_int : value -> outcome Z;
  (** [str(e)] for the [FileNotFoundError] of a [git] command *)
  str_not_found : string
}.

(** The templates, as functions of the fields that [format] fills. *)
Record Templates : Type := mk_templates {
  PRODUCT_MANAGER_PROMPT_TEMPLATE : string -> string;
  BUILDER_PROMPT_TEMPLATE : string -> string -> string -> string -> string;
  AUTO_DOC_PROMPT_TEMPLATE : string -> string -> string -> string;
  REVIEWER_PROMPT_TEMPLATE : string -> string -> string -> string;
  QA_PROMPT_TEMPLATE : string -> string -> string -> string -> string;
  IMPACT_ANALYZER_PROMPT_TEMPLATE : string -> string -> string -> string
}.

(** An exception that leaves [run_devops_cycle]. *)
Inductive crash : Type :=
| Exception (e : exn)              (* raised by an agent or by a service *)
| KeyError (key : string)          (* [d[key]] on a dictionary without [key] *)
| BadSubscript (container : value) (* [TypeError]: [v[key]], [v] not a dictionary *)
| Subprocess (f : GitWorkflow.failure).

Inductive ended (A : Type) : Type :=
| Returned (a : A)
| Raised (c : crash).
Arguments Returned {A} a.
Arguments Raised {A} c.

(** The requests that the cycle itself sends to GitHub and MongoDB. *)
Inductive call : Type :=
| CreateBranch (branch_name base : string)
| GetRepoContent (path : string)
| GetPrDiff (pr_number : Z)
| CreatePr (title body head base : string)
| GetLogs (collection_name : string)
| InsertLog (collection_name : string) (log_entry : value).

(** The state of a cycle: the world, the events of the agents, the
    commands run so far, the announcements printed (the [print]s of a
    constant text; those of a formatted text are left out) and the requests
    sent. *)
Record cycle (World : Type) : Type :=
  mk_cycle { cy_world : World; events : list event; commands : list executed;
             printed : list string; requests : list call }.
Arguments mk_cycle {World} cy_world events commands printed requests.
Arguments cy_world {World} c.
Arguments events {World} c.
Arguments commands {World} c.
Arguments printed {World} c.
Arguments requests {World} c.

Definition REPO_NAME : string := "Merothiya/Snakes-Ladders-and-Faith".

Definition REPO_URL : string := "https://github.com/" ++ REPO_NAME ++ ".git".

Definition failure_result (message : string) : value :=
  VDict [("status", VStr "failure"); ("message", VStr message)].

Definition no_changes_result : value :=
  VDict [("status", VStr "success");
         ("message", VStr "No changes made by Builder Agent.")].

Section Cycle.
Context {World : Type}.

Definition O (A : Type) : Type := cycle World -> ended A * cycle World.

Definition unit_ {A} (a : A) : O A := fun c => (Returned a, c).

Definition crashes {A} (x : crash) : O A := fun c => (Raised x, c).

Definition then_ {A B} (m : O A) (k : A -> O B) : O B :=
  fun c =>
    match m c with
    | (Returned a, c') => k a c'
    | (Raised x, c') => (Raised x, c')
    end.

Notation "x <- m ;; k" := (then_ m (fun x => k))
  (at level 61, m at next level, right associativity) : cycle_scope.

Local Open Scope cycle_scope.

(** A call of an agent; an exception of the agent leaves the cycle. *)
Definition agents {A} (m : M World A) : O A :=
  fun c =>
    match m (mk_state (cy_world c) (events c)) with
    | (Return a, st) =>
        (Returned a,
         mk_cycle (world st) (trace st) (commands c) (printed c) (requests c))
    | (Raise e, st) =>
        (Raised (Exception e),
         mk_cycle (world st) (trace st) (commands c) (printed c) (requests c))
    end.

(** Shell commands, inside a [try]. *)
Definition shell {A} (g : GitWorkflow.G A) : O (attempt A) :=
  fun c =>
    match g (mk_sh (cy_world c) (commands c)) with
    | (a, st) =>
        (Returned a,
         mk_cycle (sh_world st) (events c) (history st) (printed c) (requests c))
    end.

(** [print(line)] for a constant [line] *)
Definition announce (line : string) : O unit :=
  fun c =>
    (Returned tt,
     mk_cycle (cy_world c) (events c) (commands c) (printed c ++ [line]) (requests c)).

(** A request to a service, inside a [try]. *)
Definition request {A} (sent : call) (f : World -> outcome A * World)
    : O (outcome A) :=
  fun c =>
    match f (cy_world c) with
    | (o, w) =>
        (Returned o,
         mk_cycle w (events c) (commands c) (printed c) (requests c ++ [sent]))
    end.

(** A request to a service, outside any [try]. *)
Definition service {A} (sent : call) (f : World -> outcome A * World) : O A :=
  o <- request sent f ;;
  match o with
  | Return a => unit_ a
  | Raise e => crashes (Exception e)
  end.

(** [v[key]] for a string [key] *)
Definition getitem (v : value) (key : string) : O value :=
  match v with
  | VDict d =>
      match Py.dict_get key d with
      | Some x => unit_ x
      | None => crashes (KeyError key)
      end
  | _ => crashes (BadSubscript v)
  end.

(** [v.get(key)] *)
Definition get (v : value) (key : string) : O value :=
  match Py.get v key VNone with
  | Return x => unit_ x
  | Raise e => crashes (Exception e)
  end.

(** the receiver of [.replace(' ', '-')] *)
Definition replaceable (v : value) : O string :=
  match v with
  | VStr s => unit_ s
  | _ => crashes (Exception (mk_exn AttributeError
                    ("'" ++ Py.type_name v ++ "' object has no attribute 'replace'")))
  end.

Section Rendering.
Variable py : Python.
Variable templates : Templates.
Variable LOCAL_REPO_PATH : string.

(** [f"{v}"] and [str(v)] *)
Definition format (v : value) : string :=
  match v with
  | VStr s => s
  | _ => py_str py v
  end.

(** [json.dumps(v, indent=2) if isinstance(v, dict) else str(v)] *)
Definition dumps_or_str (v : value) : string :=
  match v with
  | VDict _ => json_dumps py v
  | _ => format v
  end.

(** [int(v)] *)
Definition int_ (v : value) : outcome Z :=
  match v with
  | VInt z => Return z
  | VBool b => Return (if b then 1 else 0)%Z
  | _ => py_int py v
  end.

(** The three assignments to [feature_branch_name]. *)
Definition branch_name_of (feature_ticket : value) : O string :=
  feature_id <- getitem feature_ticket "feature_id" ;;
  title <- getitem feature_ticket "title" ;;
  title <- replaceable title ;;
  unit_ (Orchestrator.feature_branch_name (format feature_id) title).

(** [f"feat({feature_ticket['feature_id']}): {feature_ticket['title']}"] *)
Definition feat_title (feature_ticket : value) : O string :=
  feature_id <- getitem feature_ticket "feature_id" ;;
  title <- getitem feature_ticket "title" ;;
  unit_ ("feat(" ++ format feature_id ++ "): " ++ format title).

(** *** Checking out the branch (the [try] of lines 71 to 95) *)

Section Checkout.
Context `{Shell World}.

(** [subprocess.run(command, cwd=LOCAL_REPO_PATH, check=check)] *)
Definition run_in_repo (command : list string) (check : bool)
    : GitWorkflow.G CompletedProcess :=
  run_command command (Some LOCAL_REPO_PATH) check.

Definition checkout (feature_branch_name : string) : GitWorkflow.G unit :=
  fun st =>
    match run_in_repo ["git"; "fetch"; "origin"] true st with
    | (Failed f, st1) => (Failed f, st1)
    | (Done _, st1) =>
        match run_in_repo ["git"; "rev-parse"; "--verify"; feature_branch_name]
                false st1 with
        | (Failed f, st2) => (Failed f, st2)
        | (Done result, st2) =>
            let switch :=
              if Z.eqb (returncode result) 0
              then ["git"; "checkout"; feature_branch_name]
              else ["git"; "checkout"; "-b"; feature_branch_name;
                    "origin/" ++ feature_branch_name] in
            match run_in_repo switch true st2 with
            | (Failed f, st3) => (Failed f, st3)
            | (Done _, st3) =>
                match run_in_repo ["git"; "branch"; "-vv"] true st3 with
                | (Failed f, st4) => (Failed f, st4)
                | (Done _, st4) => (Done tt, st4)
                end
            end
        end
    end.

(** The two handlers.  The commands that are checked do not capture their
    output: [e.stderr] is [None]. *)
Definition checkout_failure (f : GitWorkflow.failure) : value :=
  match f with
  | CalledProcessError _ =>
      failure_result ("Failed to checkout local branch: " ++ "None")
  | FileNotFoundError =>
      failure_result ("Unexpected error during local branch checkout: "
                        ++ str_not_found py)
  | OtherError e =>
      failure_result ("Unexpected error during local branch checkout: "
                        ++ exn_str e)
  end.

(** [automated_git_workflow(REPO_URL, LOCAL_REPO_PATH, ...)] *)
Definition git_workflow (branch commit_message_prefix : string) : O bool :=
  a <- shell (automated_git_workflow REPO_URL LOCAL_REPO_PATH branch
                commit_message_prefix) ;;
  match a with
  | Done b => unit_ b
  | Failed f => crashes (Subprocess f)
  end.

End Checkout.

(** *** The agents, each with what its entry point does before its loop *)

Section Agents.
Context `{Capabilities World} `{Services World}.

(** [ProductManagerAgent().process_comment(raw_user_comment)] *)
Definition process_comment (raw_user_comment : string) : O value :=
  agents (ProductManagerAgent.process_comment
            (PRODUCT_MANAGER_PROMPT_TEMPLATE templates raw_user_comment)).

(** [BuilderAgent(...).run(feature_ticket)] *)
Definition run (feature_ticket : value) : O value :=
  repo_context <- service (GetRepoContent "") (get_repo_content "") ;;
  let feature_ticket_str := dumps_or_str feature_ticket in
  let tool_descriptions := _format_tool_descriptions builder_agent in
  _ <- branch_name_of feature_ticket ;;
  agents (BuilderAgent.run
            (BUILDER_PROMPT_TEMPLATE templates tool_descriptions
               feature_ticket_str (format repo_context) LOCAL_REPO_PATH)).

(** [AutoDocumentationAgent(...).run_documentation(pr_number, pr_details)] *)
Definition run_documentation (pr_number : Z) (pr_details : value) : O value :=
  commit_diff <- service (GetPrDiff pr_number) (get_pr_diff pr_number) ;;
  let pr_details_str := dumps_or_str pr_details in
  let tool_descriptions := _format_tool_descriptions auto_documentation_agent in
  agents (AutoDocumentationAgent.run_documentation
            (AUTO_DOC_PROMPT_TEMPLATE templates tool_descriptions
               pr_details_str commit_diff)).

(** [ReviewerAgent(...).run_review(pr_number, pr_details)] *)
Definition run_review (pr_number : Z) (pr_details : value) : O value :=
  commit_diff <- service (GetPrDiff pr_number) (get_pr_diff pr_number) ;;
  let pr_details_str := dumps_or_str pr_details in
  let tool_descriptions := _format_tool_descriptions reviewer_agent in
  agents (ReviewerAgent.run_review
            (REVIEWER_PROMPT_TEMPLATE templates tool_descriptions
               pr_details_str commit_diff)).

(** [QAAgent().run_qa(feature_ticket, deploy_method, project_path)] *)
Definition run_qa (feature_ticket : value) (deploy_method project_path : string)
    : O value :=
  let feature_ticket_str := dumps_or_str feature_ticket in
  let tool_descriptions := _format_tool_descriptions qa_agent in
  agents (QAAgent.run_qa
            (QA_PROMPT_TEMPLATE templates tool_descriptions feature_ticket_str
               deploy_method project_path)).

(** [ImpactAnalyzerAgent(...).run_analysis(pr_number, pr_details,
    repo_vector_memory)] *)
Definition run_analysis (pr_number : Z) (pr_details repo_vector_memory : value)
    : O value :=
  let pr_details_str := dumps_or_str pr_details in
  let repo_vector_memory_str := json_dumps py repo_vector_memory in
  let tool_descriptions := _format_tool_descriptions impact_analyzer_agent in
  agents (ImpactAnalyzerAgent.run_analysis
            (IMPACT_ANALYZER_PROMPT_TEMPLATE templates tool_descriptions
               pr_details_str repo_vector_memory_str)).

(** [ConfidenceMergeControllerAgent(github_api=github_api)]: the
    constructor puts [self.github_api.merge_pr] into the registry of tools,
    and [GithubAPI] has no such method. *)
Definition new_merge_controller : O unit :=
  crashes (Exception (mk_exn AttributeError
                        "'GithubAPI' object has no attribute 'merge_pr'")).

(** [merge_controller.run_merge_decision(...)], with the risk score [2.5]
    of the cycle *)
Definition run_merge_decision
    (test_results review_feedback qa_report pr_details : value) : O value :=
  agents (ConfidenceMergeControllerAgent.run_merge_decision
            (dumps_or_str test_results) (dumps_or_str review_feedback)
            (dumps_or_str qa_report) "2.5" (dumps_or_str pr_details)).

End Agents.

(** *** The pull request (lines 120 to 133) *)

Section PullRequests.
Context `{Github World}.

(** the body of the [try] *)
Definition create_pr (pr_title pr_body feature_branch_name : string)
    : O (outcome (value * Z)) :=
  pr_output <- request (CreatePr pr_title pr_body feature_branch_name "main")
                 (GithubAPI.create_pr pr_title pr_body feature_branch_name "main") ;;
  unit_ (obind pr_output (fun pr_output =>
         obind (Py.get pr_output "pr_url" VNone) (fun pr_url =>
         obind (obind (Py.get pr_output "pr_number" VNone) int_) (fun pr_number =>
         Return (pr_url, pr_number))))).

(** The title and the body are built before the [try]; the result is the
    value that the cycle returns, or the pull request to go on with. *)
Definition open_pull_request (feature_ticket : value)
    (feature_branch_name : string) : O (value + value * Z) :=
  pr_title <- feat_title feature_ticket ;;
  description <- getitem feature_ticket "description" ;;
  id <- getitem feature_ticket "id" ;;
  let pr_body :=
    "Implements feature: " ++ format description ++ nl ++ nl
      ++ "Generated by Builder Agent (A1) for feature ticket: " ++ format id in
  created <- create_pr pr_title pr_body feature_branch_name ;;
  match created with
  | Return pr => unit_ (inr pr)
  | Raise e => unit_ (inl (failure_result ("Failed to create PR: " ++ exn_str e)))
  end.

End PullRequests.

(** *** The cycle *)

Section Run.
Context `{Capabilities World} `{Shell World} `{Github World} `{Services World}.

(** From the pull request to the end of the cycle (lines 138 to 217). *)
Definition assess (feature_ticket builder_response pr_url : value)
    (pr_number : Z) : O value :=
  title <- getitem feature_ticket "title" ;;
  let pr_details :=
    VDict [("id", VInt pr_number); ("title", title);
           ("author", VStr "builder-agent"); ("url", pr_url)] in
  _ <- announce "Running Auto Documentation Agent (Post-PR Creation)..." ;;
  auto_doc_response_push <- run_documentation pr_number pr_details ;;
  _ <- announce "Running Reviewer Agent (A2)..." ;;
  reviewer_response <- run_review pr_number pr_details ;;
  _ <- announce "Running QA Agent (A4)..." ;;
  qa_response <- run_qa feature_ticket "vercel" "." ;;
  _ <- announce "Running Impact Analyzer Agent (A6)..." ;;
  impact_analyzer_response <- run_analysis pr_number pr_details (VDict []) ;;
  _ <- announce "Running Confidence & Merge Controller Agent (A5)..." ;;
  _ <- new_merge_controller ;;
  let test_results := VDict [("success", VBool true)] in
  let review_feedback := VDict [("review_summary", VStr "Approved")] in
  let qa_report := VDict [("ui_bugs_detected", VBool false)] in
  merge_controller_response <-
    run_merge_decision test_results review_feedback qa_report pr_details ;;
  _ <- announce "Running Auto Documentation Agent (Post-Merge)..." ;;
  auto_doc_response <- run_documentation pr_number pr_details ;;
  feature_ticket_id <- getitem feature_ticket "id" ;;
  logs <- service (GetLogs "orchestration_cycles")
            (get_logs "orchestration_cycles") ;;
  let log_entry :=
    VDict [("feature_ticket_id", feature_ticket_id);
           ("status", VStr "completed_full_cycle");
           ("builder_response", builder_response);
           ("reviewer_response", reviewer_response);
           ("qa_response", qa_response);
           ("impact_analyzer_response", impact_analyzer_response);
           ("merge_controller_response", merge_controller_response);
           ("auto_documentation_response", auto_doc_response);
           ("timestamp", VInt (Z.of_nat (List.length logs) + 1))] in
  _ <- service (InsertLog "orchestration_cycles" log_entry)
         (insert_log "orchestration_cycles" log_entry) ;;
  _ <- announce "DevOps cycle (Builder, Reviewer, QA, Impact Analyzer, Merge Controller, and Auto Documentation) completed and logged." ;;
  unit_ VNone.

(** From the feature ticket to the pull request (lines 53 to 136), then
    [assess]. *)
Definition develop (feature_ticket : value) : O value :=
  _ <- getitem feature_ticket "title" ;;
  feature_branch_name <- branch_name_of feature_ticket ;;
  created <- request (CreateBranch feature_branch_name "main")
               (Branches.create_branch feature_branch_name "main") ;;
  match created with
  | Raise e =>
      unit_ (failure_result ("Failed to create feature branch: " ++ exn_str e))
  | Return _ =>
      checked_out <- shell (checkout feature_branch_name) ;;
      match checked_out with
      | Failed f => unit_ (checkout_failure f)
      | Done _ =>
          _ <- announce "Running Builder Agent (A1)..." ;;
          builder_response <- run feature_ticket ;;
          status <- get builder_response "status" ;;
          if negb (Py.is_str "success" status) then unit_ builder_response
          else
            local_changes_made <- get builder_response "local_changes_made" ;;
            if Py.truthy local_changes_made then
              _ <- announce "Builder Agent made local changes. Committing and pushing via automated Git workflow..." ;;
              commit_message_prefix <- feat_title feature_ticket ;;
              commit_push_success <-
                git_workflow feature_branch_name commit_message_prefix ;;
              if negb commit_push_success
              then
                _ <- announce "Automated Git workflow failed during commit/push. Aborting." ;;
                unit_ (failure_result "Git workflow commit/push failed.")
              else
                _ <- announce "Automated Git workflow completed successfully for commit/push." ;;
                opened <- open_pull_request feature_ticket feature_branch_name ;;
                match opened with
                | inl result => unit_ result
                | inr (pr_url, pr_number) =>
                    assess feature_ticket builder_response pr_url pr_number
                end
            else
              _ <- announce "Builder Agent reported no local changes. Skipping commit/push and PR creation." ;;
              unit_ no_changes_result
      end
  end.

Definition run_devops_cycle (raw_user_comment : string) : O value :=
  _ <- announce "Running automated Git workflow to initialize/update repository..." ;;
  workflow_success <- git_workflow "main" "Automated commit" ;;
  if negb workflow_success
  then
    _ <- announce "Automated Git workflow failed during initialization. Aborting." ;;
    unit_ (failure_result "Git workflow initialization failed.")
  else
    _ <- announce "Automated Git workflow completed successfully for initialization." ;;
    _ <- announce "Running Product Manager Agent..." ;;
    pm_response <- process_comment raw_user_comment ;;
    status <- getitem pm_response "status" ;;
    if Py.is_str "failure" status then
      message <- getitem pm_response "message" ;;
      unit_ (VDict [("status", VStr "failure"); ("message", message)])
    else
      feature_ticket <- getitem pm_response "output" ;;
      develop feature_ticket.

End Run.
End Rendering.
End Cycle.


(** The feature ticket of the example in the intake prompt. *)
Definition example_ticket : list (string * value) :=
  [("feature_id", VStr "F103");
   ("title", VStr "Implement User Profile Page");
   ("description", VStr "Develop a dedicated user profile page.");
   ("priority", VStr "high");
   ("acceptance_criteria", VList [VStr "User can navigate to their profile page."])].

(** A rendering that gives the type of what it is asked to render. *)
Definition by_type : Python := {|
  py_str := fun v => "<" ++ Py.type_name v ++ ">";
  json_dumps := fun v => "<" ++ Py.type_name v ++ ">";
  py_int := fun v =>
    Raise (mk_exn TypeError ("int() argument must not be '" ++ Py.type_name v ++ "'"));
  str_not_found := "[Errno 2] No such file or directory: 'git'"
|}.






(** What a step of the cycle may cost: model calls and tool executions. *)
Definition spends {World A} (m : O A) (calls tools : nat) : Prop :=
  forall c : cycle World,
    exists new,
      events (snd (m c)) = (events c ++ new)%list
      /\ (List.length (prompts new) <= calls)%nat
      /\ (List.length (tool_calls new) <= tools)%nat.

End DevopsCycle.

(** A world for whole runs of the cycle: a scripted model, a shell that
    plays back what its commands do over a directory that exists, the
    repository double, and services that answer at once. *)
Module Lab.
Import GitWorkflow Doubles.

Record lab : Type := mk_lab {
  model : list (outcome response);
  launches : list launch;
  github : repo_double
}.

#[export] Instance lab_capabilities : Capabilities lab := {|
  json_loads := Json.loads;
  generate_content := fun _ w =>
    match model w with
    | r :: rest => (r, mk_lab rest (launches w) (github w))
    | [] => (Raise (mk_exn OtherException "no more responses"), w)
    end;
  tool_func := fun _ _ w => (Return "ok", w);
  function_str := fun name => "tools." ++ name ++ "()"
|}.

#[export] Instance lab_shell : Shell lab := {|
  subprocess_run := fun _ _ w =>
    match launches w with
    | l :: rest => (l, mk_lab (model w) rest (github w))
    | [] => (NotFound, w)
    end;
  isdir := fun _ _ => true;
  strftime_now := fun _ => "2025-01-01 12:00:00"
|}.

#[export] Instance lab_github : Github lab := {|
  owner_login := fun w => Doubles.login (github w);
  get_pulls := fun w st head => get_pulls (github w) st head;
  get_branches := fun w => Doubles.branch_names (github w);
  create_pull := fun title body head base w =>
    match create_pull title body head base (github w) with
    | (o, repo) => (o, mk_lab (model w) (launches w) repo)
    end
|}.

#[export] Instance lab_services : Services lab := {|
  get_git_refs := fun w =>
    ((map (fun b => "refs/heads/" ++ b) (Doubles.branch_names (github w)), None), w);
  get_git_ref := fun _ w => (Return "0a1b2c3", w);
  create_git_ref := fun ref _ w =>
    (Return tt,
     mk_lab (model w) (launches w)
       (Doubles.mk_repo (Doubles.login (github w)) (Doubles.open_pulls (github w))
          (Doubles.branch_names (github w)
             ++ [match PyStr.strip_prefix "refs/heads/" ref with
                 | Some b => b
                 | None => ref
                 end])));
  get_repo_content := fun _ w => (Return (VDict []), w);
  get_pr_diff := fun _ w => (Return "diff --git a/app.js b/app.js", w);
  insert_log := fun collection_name _ w =>
    (Return ("Log inserted into " ++ collection_name), w);
  get_logs := fun _ w => (Return [], w)
|}.

Definition ok : launch := exits 0 "" "".

(** [git status --porcelain] with one modified file *)
Definition modified : launch := exits 0 " M app.js" "".

Definition templates : DevopsCycle.Templates := {|
  DevopsCycle.PRODUCT_MANAGER_PROMPT_TEMPLATE := fun user_comment => user_comment;
  DevopsCycle.BUILDER_PROMPT_TEMPLATE := fun _ feature_ticket _ _ => feature_ticket;
  DevopsCycle.AUTO_DOC_PROMPT_TEMPLATE := fun _ pr_details _ => pr_details;
  DevopsCycle.REVIEWER_PROMPT_TEMPLATE := fun _ pr_details _ => pr_details;
  DevopsCycle.QA_PROMPT_TEMPLATE := fun _ feature_ticket _ _ => feature_ticket;
  DevopsCycle.IMPACT_ANALYZER_PROMPT_TEMPLATE := fun _ pr_details _ => pr_details
|}.

(** [{"feature_id": "F7", "title": "Dark Mode", "description": "A toggle."}],
    with the key [id] added when [id] is given *)
Definition ticket_json (id : option string) : string :=
  "{" ++ Doubles.quoted "feature_id" ++ ": " ++ Doubles.quoted "F7" ++ ", "
      ++ Doubles.quoted "title" ++ ": " ++ Doubles.quoted "Dark Mode" ++ ", "
      ++ Doubles.quoted "description" ++ ": " ++ Doubles.quoted "A toggle."
      ++ match id with
         | Some i => ", " ++ Doubles.quoted "id" ++ ": " ++ Doubles.quoted i
         | None => EmptyString
         end
      ++ "}".

(** [{"status": "success", "local_changes_made": true}] *)
Definition changes_json : string :=
  "{" ++ Doubles.quoted "status" ++ ": " ++ Doubles.quoted "success" ++ ", "
      ++ Doubles.quoted "local_changes_made" ++ ": true}".

(** A run in which everything succeeds: the intake gives the ticket, the
    builder reports local changes; the first workflow finds nothing to
    commit, the branch is checked out (it is new locally), the second
    workflow commits and pushes. *)
Definition good_day (id : option string) : DevopsCycle.cycle lab :=
  DevopsCycle.mk_cycle
    (mk_lab
       [Doubles.says (Fixtures.json_output_block (ticket_json id));
        Doubles.says (Doubles.final_answer_block changes_json)]
       [ok;
        ok; exits 128 "" "fatal: Needed a single revision"; ok; ok;
        modified; ok; ok; ok; ok]
       (Doubles.mk_repo "Merothiya" [] ["main"]))
    [] [] [] [].

End Lab.

(* ================================================================== *)
(** ** mytools: [SeleniumTester.deploy_and_test_ui] *)

From Stdlib Require DecimalString.

Module Selenium.
Import PyStr.

(** The calls that the method makes on [self.driver]. *)
Inductive driver_call : Type :=
| Get (url : value)
| FindElement (selector : value)   (* [find_element(By.CSS_SELECTOR, selector)] *)
| Click                            (* on the element found last *)
| SendKeys (text : value)          (* on the element found last *)
| SaveScreenshot (path : string)
| GetLog (log_type : string)
| Quit.

(** The browser: every call may raise; [get_log] gives the log. *)
Class WebDriver (World : Type) : Type := {
  perform : driver_call -> World -> option exn * World;
  log_of : string -> World -> value
}.

Record browser (World : Type) : Type :=
  mk_browser { br_world : World; driver_calls : list driver_call }.
Arguments mk_browser {World} br_world driver_calls.
Arguments br_world {World} b.
Arguments driver_calls {World} b.

(** [len(screenshots)] in decimal *)
Definition decimal (n : nat) : string :=
  DecimalString.NilEmpty.string_of_uint (Nat.to_uint n).

Definition screenshot_path (n : nat) : string :=
  "reports/screenshot_" ++ decimal n ++ ".png".

(** [for action in actions]: what the iteration yields *)
Definition iter (actions : value) : DevopsCycle.ended (list value) :=
  match actions with
  | VList l => DevopsCycle.Returned l
  | VDict d => DevopsCycle.Returned (map (fun kv => VStr (fst kv)) d)
  | VStr s =>
      DevopsCycle.Returned
        (map (fun ch => VStr (String ch EmptyString)) (list_ascii_of_string s))
  | _ =>
      DevopsCycle.Raised
        (DevopsCycle.Exception
           (mk_exn TypeError ("'" ++ Py.type_name actions ++ "' object is not iterable")))
  end.

Section Tester.
Context {World : Type} `{WebDriver World}.

Definition B (A : Type) : Type := browser World -> DevopsCycle.ended A * browser World.

Definition unit_ {A} (a : A) : B A := fun b => (DevopsCycle.Returned a, b).

Definition then_ {A C} (m : B A) (k : A -> B C) : B C :=
  fun b =>
    match m b with
    | (DevopsCycle.Returned a, b') => k a b'
    | (DevopsCycle.Raised x, b') => (DevopsCycle.Raised x, b')
    end.

Definition lift_ {A} (r : DevopsCycle.ended A) : B A := fun b => (r, b).

(** One call on the driver. *)
Definition drive (call : driver_call) : B unit :=
  fun b =>
    match perform call (br_world b) with
    | (None, w) =>
        (DevopsCycle.Returned tt, mk_browser w (driver_calls b ++ [call]))
    | (Some e, w) =>
        (DevopsCycle.Raised (DevopsCycle.Exception e),
         mk_browser w (driver_calls b ++ [call]))
    end.

(** [self.driver.get_log(log_type)] *)
Definition get_log (log_type : string) : B value :=
  then_ (drive (GetLog log_type))
        (fun _ b => (DevopsCycle.Returned (log_of log_type (br_world b)), b)).

(** [action[key]] *)
Definition getitem (action : value) (key : string) : B value :=
  match action with
  | VDict d =>
      match Py.dict_get key d with
      | Some x => unit_ x
      | None => lift_ (DevopsCycle.Raised (DevopsCycle.KeyError key))
      end
  | _ => lift_ (DevopsCycle.Raised (DevopsCycle.BadSubscript action))
  end.

(** The [if] and [elif] of the loop body. *)
Definition interact (action : value) : B unit :=
  then_ (getitem action "type") (fun type1 =>
  if Py.is_str "click" type1 then
    then_ (getitem action "selector") (fun selector =>
    then_ (drive (FindElement selector)) (fun _ =>
    drive Click))
  else
    then_ (getitem action "type") (fun type2 =>
    if Py.is_str "type" type2 then
      then_ (getitem action "selector") (fun selector =>
      then_ (drive (FindElement selector)) (fun _ =>
      then_ (getitem action "text") (fun text =>
      drive (SendKeys text))))
    else unit_ tt)).

(** The loop, from the screenshots taken so far. *)
Fixpoint act (actions : list value) (screenshots : list string) : B (list string) :=
  match actions with
  | [] => unit_ screenshots
  | action :: rest =>
      then_ (interact action) (fun _ =>
      then_ (drive (SaveScreenshot (screenshot_path (List.length screenshots))))
        (fun _ =>
      act rest (screenshots ++ [screenshot_path (List.length screenshots)])))
  end.

(** the body of the [try] *)
Definition test_ui (deploy_url actions : value) : B value :=
  then_ (drive (Get deploy_url)) (fun _ =>
  then_ (lift_ (iter actions)) (fun actions =>
  then_ (act actions []) (fun screenshots =>
  then_ (get_log "browser") (fun logs =>
  unit_ (VDict [("success", VBool true);
                ("screenshots", VList (map VStr screenshots));
                ("logs", logs)]))))).

(** [try: ... finally: self.driver.quit()] *)
Definition deploy_and_test_ui (deploy_url actions : value) : B value :=
  fun b =>
    match test_ui deploy_url actions b with
    | (r, b1) =>
        match drive Quit b1 with
        | (DevopsCycle.Returned _, b2) => (r, b2)
        | (DevopsCycle.Raised x, b2) => (DevopsCycle.Raised x, b2)
        end
    end.

End Tester.

(** The paths given to [save_screenshot], in order. *)
Fixpoint saved (calls : list driver_call) : list string :=
  match calls with
  | [] => []
  | SaveScreenshot path :: calls' => path :: saved calls'
  | _ :: calls' => saved calls'
  end.

Definition is_quit (call : driver_call) : bool :=
  match call with Quit => true | _ => false end.

(** A step whose calls on the driver all satisfy [P]. *)
Definition calls_only {World A} (P : list driver_call -> Prop) (m : B A) : Prop :=
  forall b : browser World,
    exists steps,
      driver_calls (snd (m b)) = (driver_calls b ++ steps)%list /\ P steps.

(** Calls that neither close the browser nor save a screenshot. *)
Definition plain (steps : list driver_call) : Prop :=
  existsb is_quit steps = false /\ saved steps = [].

(** A browser in which every call succeeds, with an empty log. *)
Definition obliging : WebDriver unit := {|
  perform := fun _ w => (None, w);
  log_of := fun _ _ => VList []
|}.

(** A browser in which no element is ever found. *)
Definition blank_page : WebDriver unit := {|
  perform := fun call w =>
    match call with
    | FindElement _ =>
        (Some (mk_exn OtherException "no such element: Unable to locate element"), w)
    | _ => (None, w)
    end;
  log_of := fun _ _ => VList []
|}.

(** [{"type": "click", "selector": "#toggle"}] *)
Definition click_toggle : value :=
  VDict [("type", VStr "click"); ("selector", VStr "#toggle")].

End Selenium.

(** ** Vocabulary of the properties: what the model does along a run *)

Section RunVocabulary.
Context {World : Type} `{Capabilities World}.

(** From world [w], the next [k] calls on [prompt] fail with
    [ResourceExhausted], and leave the world [w']. *)
Fixpoint rate_limited (k : nat) (prompt : string) (w w' : World) : Prop :=
  match k with
  | O => w' = w
  | S k' =>
      exists e w1,
        generate_content prompt w = (Raise e, w1)
        /\ exn_kind e = ResourceExhausted
        /\ rate_limited k' prompt w1 w'
  end.


End RunVocabulary.


(* ================================================================== *)
(** * Properties *)

Import Doubles.

(** ** Strings *)

Section StringFacts.
Import PyStr.

Lemma append_assoc (a b c : string) : (a ++ b) ++ c = a ++ (b ++ c).
Proof. induction a as [|x a IH]; simpl; [reflexivity | now rewrite IH]. Qed.

Lemma append_empty_r (a : string) : a ++ EmptyString = a.
Proof. induction a as [|x a IH]; simpl; [reflexivity | now rewrite IH]. Qed.

Lemma length_append (a b : string) :
  String.length (a ++ b) = (String.length a + String.length b)%nat.
Proof. induction a as [|x a IH]; simpl; [reflexivity | now rewrite IH]. Qed.

Lemma prefix_append (a b : string) : String.prefix a (a ++ b) = true.
Proof.
  induction a as [|x a IH]; simpl.
  - now destruct b.
  - destruct (ascii_dec x x) as [_|ne]; [exact IH | now elim ne].
Qed.

Lemma prefix_trans (a b c : string) :
  String.prefix a b = true -> String.prefix b c = true -> String.prefix a c = true.
Proof.
  revert b c; induction a as [|x a IH]; intros b c Hab Hbc.
  - now destruct c.
  - destruct b as [|y b]; [discriminate|].
    destruct c as [|z c]; [discriminate|].
    simpl in *.
    destruct (ascii_dec x y) as [->|]; [|discriminate].
    destruct (ascii_dec y z) as [->|]; [|discriminate].
    eauto.
Qed.

Lemma prefix_length (a b : string) :
  String.prefix a b = true -> (String.length a <= String.length b)%nat.
Proof.
  revert b; induction a as [|x a IH]; intros b Hab; simpl.
  - lia.
  - destruct b as [|y b]; [discriminate|].
    simpl in *. destruct (ascii_dec x y); [|discriminate].
    apply IH in Hab. lia.
Qed.

Lemma map_chars_append (f : ascii -> ascii) (a b : string) :
  map_chars f (a ++ b) = map_chars f a ++ map_chars f b.
Proof. induction a as [|x a IH]; simpl; [reflexivity | now rewrite IH]. Qed.

Lemma map_chars_compose (f g : ascii -> ascii) (s : string) :
  map_chars f (map_chars g s) = map_chars (fun c => f (g c)) s.
Proof. induction s as [|x s IH]; simpl; [reflexivity | now rewrite IH]. Qed.

Lemma length_map_chars (f : ascii -> ascii) (s : string) :
  String.length (map_chars f s) = String.length s.
Proof. induction s as [|x s IH]; simpl; [reflexivity | now rewrite IH]. Qed.

Lemma length_take (n : nat) (s : string) :
  String.length (take n s) = Nat.min n (String.length s).
Proof.
  revert s; induction n as [|n IH]; intros [|c s]; simpl; try reflexivity.
  now rewrite IH.
Qed.

Lemma all_chars_take (p : ascii -> bool) (n : nat) (s : string) :
  all_chars p s = true -> all_chars p (take n s) = true.
Proof.
  revert s; induction n as [|n IH]; intros [|c s]; simpl; try reflexivity.
  intros Hp. apply andb_true_iff in Hp as [Hc Hs].
  now rewrite Hc, IH.
Qed.

Lemma all_chars_map (p : ascii -> bool) (f : ascii -> ascii) (s : string) :
  (forall c, p (f c) = true) -> all_chars p (map_chars f s) = true.
Proof. intros Hf. induction s as [|x s IH]; simpl; [reflexivity | now rewrite Hf, IH]. Qed.

(** [partition] cuts the text at an occurrence of the separator... *)
Lemma strip_prefix_sound (p s rest : string) :
  strip_prefix p s = Some rest -> s = p ++ rest.
Proof.
  revert s; induction p as [|a p IH]; intros [|b s] Hs; simpl in *;
    try discriminate; try (now inversion Hs).
  destruct (Ascii.eqb_spec a b) as [->|]; [|discriminate].
  now rewrite (IH _ Hs).
Qed.

Lemma strip_prefix_complete (p rest : string) :
  strip_prefix p (p ++ rest) = Some rest.
Proof.
  induction p as [|a p IH]; simpl; [now destruct rest|].
  now rewrite Ascii.eqb_refl.
Qed.

Lemma partition_sound (sep s before rest : string) :
  partition sep s = Some (before, rest) -> s = before ++ sep ++ rest.
Proof.
  revert before; induction s as [|c s IH]; intros before Hp; simpl in Hp.
  - destruct (strip_prefix sep EmptyString) eqn:E; [|discriminate].
    inversion Hp; subst. now apply strip_prefix_sound in E.
  - destruct (strip_prefix sep (String c s)) eqn:E.
    + inversion Hp; subst. now apply strip_prefix_sound in E.
    + destruct (partition sep s) as [[b r]|] eqn:E'; [|discriminate].
      inversion Hp; subst. simpl. now rewrite (IH b eq_refl).
Qed.

Lemma partition_at_prefix (sep s rest : string) :
  strip_prefix sep s = Some rest -> partition sep s = Some (EmptyString, rest).
Proof. intros E. destruct s; simpl; now rewrite E. Qed.

(** ...and finds one whenever there is one. *)
Lemma partition_complete (sep before rest : string) :
  partition sep (before ++ sep ++ rest) <> None.
Proof.
  induction before as [|c before IH].
  - simpl. now rewrite (partition_at_prefix _ _ _ (strip_prefix_complete sep rest)).
  - change (String c before ++ sep ++ rest) with (String c (before ++ sep ++ rest)).
    simpl.
    destruct (strip_prefix sep (String c (before ++ sep ++ rest))); [discriminate|].
    destruct (partition sep (before ++ sep ++ rest)) as [[b r]|]; [discriminate|].
    exact IH.
Qed.

End StringFacts.

(** ** The branch name *)

Section BranchName.
Import PyStr Orchestrator Orchestrator_spec.

Lemma re_sub_non_slug_ok (s : string) : all_chars slug_char (re_sub_non_slug s) = true.
Proof.
  apply all_chars_map. intros c.
  destruct (slug_char c) eqn:E; [exact E | reflexivity].
Qed.

Lemma title_part (title : string) :
  re_sub_non_slug (lower (replace_char " " "-" title)) = map_chars title_char title.
Proof.
  unfold re_sub_non_slug, lower, replace_char.
  now rewrite !map_chars_compose.
Qed.

(** C7 (as amended).  The branch name is the text
    [feature/{feature_id}-{title}] in which the title has its spaces turned
    into '-' and its letters lower-cased, and in which every character other
    than an ASCII letter, a digit, '-' and '_' is then replaced, one for one,
    by '-' (so the length is kept and a run of such characters gives a run
    of '-'), cut to its first 100 characters.  The example of the spec comes
    out as stated. *)
Theorem feature_branch_name_charwise (feature_id title : string) :
  feature_branch_name feature_id title
    = take 100 ("feature-" ++ re_sub_non_slug feature_id ++ "-"
                ++ map_chars title_char title)
  /\ String.length (feature_branch_name feature_id title)
     = Nat.min 100 (9 + String.length feature_id + String.length title)
  /\ all_chars slug_char (feature_branch_name feature_id title) = true
  /\ feature_branch_name "F101" "Implement Light/Dark Mode Toggle!"
     = "feature-F101-implement-light-dark-mode-toggle-".
Proof.
  unfold feature_branch_name.
  repeat split.
  - f_equal. unfold re_sub_non_slug at 1.
    change ("feature/" ++ feature_id ++ "-" ++ lower (replace_char " " "-" title))
      with ("feature/" ++ (feature_id ++ "-" ++ lower (replace_char " " "-" title))).
    rewrite map_chars_append, map_chars_append, map_chars_append.
    fold (re_sub_non_slug feature_id).
    fold (re_sub_non_slug (lower (replace_char " " "-" title))).
    now rewrite title_part.
  - rewrite length_take. unfold re_sub_non_slug, lower, replace_char.
    rewrite length_map_chars.
    simpl String.length.
    rewrite length_append. simpl String.length.
    rewrite !length_map_chars.
    f_equal. lia.
  - apply all_chars_take, re_sub_non_slug_ok.
Qed.

(** C7, the claim as stated fails: two characters in a row that are not
    alphanumeric give two separators, not one. *)
Lemma feature_branch_name_keeps_runs :
  feature_branch_name "F1" "a!?b" = "feature-F1-a--b"
  /\ feature_branch_name "F1" "a!?b" <> "feature-F1-a-b".
Proof. split; [reflexivity | discriminate]. Qed.

End BranchName.

(** ** Pull requests *)

Section CreatePr.
Context {Repo : Type} `{Github Repo}.
Import GithubAPI.

(** C9.  When an open pull request is already listed for the head branch,
    [create_pr] returns the url and the number of the first one listed and
    leaves the repository as it is (no pull request is created); a second
    call, whatever its title, body and base, returns the same two values. *)
Theorem create_pr_idempotent (title body base title' body' base' head : string)
    (repo : Repo) (existing : PullRequest) (others : list PullRequest) :
  get_pulls repo "open" (owner_login repo ++ ":" ++ head) = existing :: others ->
  create_pr title body head base repo
    = (Return (VDict [("pr_url", VStr (html_url existing));
                      ("pr_number", VInt (number existing))]), repo)
  /\ create_pr title' body' head base' (snd (create_pr title body head base repo))
     = create_pr title body head base repo.
Proof.
  intros Hopen.
  assert (Hcall : forall t b bs, create_pr t b head bs repo
                    = (Return (pr_result existing), repo)).
  { intros t b bs. unfold create_pr. now rewrite Hopen. }
  split.
  - apply Hcall.
  - rewrite (Hcall title body base). simpl. apply Hcall.
Qed.

(** From a repository without such a pull request: when the service lists
    what it has just created as the open pull request of that head, the
    second call returns what the first returned and creates nothing. *)
Lemma create_pr_twice (title body base head : string) (repo repo1 : Repo) (v : value) :
  (forall pr r, create_pull title body head base repo = (Return pr, r) ->
     exists others,
       get_pulls r "open" (owner_login r ++ ":" ++ head) = pr :: others) ->
  create_pr title body head base repo = (Return v, repo1) ->
  create_pr title body head base repo1 = (Return v, repo1).
Proof.
  intros Hlisted. unfold create_pr at 1.
  destruct (get_pulls repo "open" (owner_login repo ++ ":" ++ head))
    as [|existing others] eqn:Hopen.
  - destruct (negb (existsb (String.eqb head) (get_branches repo))); [discriminate|].
    destruct (create_pull title body head base repo) as [[pr|e] r] eqn:Hcreate;
      [|discriminate].
    intros Hret. inversion Hret; subst.
    destruct (Hlisted _ _ eq_refl) as [others Hnow].
    unfold create_pr. now rewrite Hnow.
  - intros Hret. inversion Hret; subst.
    unfold create_pr. now rewrite Hopen.
Qed.

End CreatePr.

(** C9 at a repository with one open pull request for the branch. *)
Lemma create_pr_idempotent_witness :
  let repo := mk_repo "Merothiya"
                [("Merothiya:feature-F1-x", mk_pr 7 "https://github.example/pull/7")]
                ["main"; "feature-F1-x"] in
  GithubAPI.create_pr "t" "b" "feature-F1-x" "main" repo
    = (Return (VDict [("pr_url", VStr "https://github.example/pull/7");
                      ("pr_number", VInt 7)]), repo)
  /\ GithubAPI.create_pr "t2" "b2" "feature-F1-x" "main"
       (snd (GithubAPI.create_pr "t" "b" "feature-F1-x" "main" repo))
     = GithubAPI.create_pr "t" "b" "feature-F1-x" "main" repo.
Proof.
  exact (create_pr_idempotent "t" "b" "main" "t2" "b2" "main" "feature-F1-x"
           (mk_repo "Merothiya"
              [("Merothiya:feature-F1-x", mk_pr 7 "https://github.example/pull/7")]
              ["main"; "feature-F1-x"])
           (mk_pr 7 "https://github.example/pull/7") [] eq_refl).
Defined.

(** ** The confidence formula *)

Section Formula.
Import MergeFormula.
Local Open Scope Q_scope.

Lemma confidence_all_pass_no_risk : confidence 1 1 1 0 == 0.9.
Proof. reflexivity. Qed.

Lemma confidence_all_pass_full_risk : confidence 1 1 1 10 == 0.6.
Proof. reflexivity. Qed.

Lemma confidence_failed_tests (review_score qa_pass risk_score : Q) :
  0 <= review_score <= 1 -> 0 <= qa_pass <= 1 -> 0 <= risk_score <= 10 ->
  confidence 0 review_score qa_pass risk_score <= 0.5.
Proof.
  unfold confidence. intros.
  assert (E : risk_score / 10 == risk_score * (1 # 10)) by (unfold Qdiv; reflexivity).
  rewrite E. lra.
Qed.

End Formula.

(** ** The parsers *)

Section Parsers.
Context {World : Type} `{Capabilities World}.

Lemma _parse_final_answer_absent (text : string) :
  block_absent "<final_answer>" "</final_answer>" text ->
  _parse_final_answer text = Return VNone.
Proof.
  unfold _parse_final_answer.
  intros [Hnone | (group1 & msg & Hsome & Hbad)].
  - now rewrite Hnone.
  - now rewrite Hsome, Hbad.
Qed.

Lemma _parse_tool_code_absent (text : string) :
  block_absent "<tool_code>" "</tool_code>" text ->
  _parse_tool_code text = Return (VNone, VNone).
Proof.
  unfold _parse_tool_code.
  intros [Hnone | (group1 & msg & Hsome & Hbad)].
  - now rewrite Hnone.
  - now rewrite Hsome, Hbad.
Qed.

(** The final-answer parser raises only what the decoder raises. *)
Lemma _parse_final_answer_raises (text : string) (e : exn) :
  _parse_final_answer text = Raise e ->
  exists group1,
    PyStr.search_group "<final_answer>" "</final_answer>" text = Some group1
    /\ json_loads (PyStr.strip group1) = DecoderRaised e.
Proof.
  unfold _parse_final_answer.
  destruct (PyStr.search_group _ _ text) as [group1|]; [|discriminate].
  destruct (json_loads _) eqn:Hdecode; try discriminate.
  intros Hraise. inversion Hraise. subst. now exists group1.
Qed.

Lemma react_without_final_answer (a : agent) (current_prompt text : string)
    (st : state World) (v : value) :
  _parse_final_answer text = Return v -> Py.truthy v = false ->
  react a current_prompt text st = use_tool a current_prompt text st.
Proof.
  intros Hparse Hfalsy. unfold react, bind, lift.
  now rewrite Hparse, Hfalsy.
Qed.

Lemma use_tool_without_tool (a : agent) (current_prompt text : string)
    (st : state World) (name params : value) :
  _parse_tool_code text = Return (name, params) ->
  tool_selected a name = Return false ->
  use_tool a current_prompt text st
    = (Return (Continue (current_prompt ++ thought_segment text) text), st).
Proof.
  intros Hparse Hsel. unfold use_tool, bind, lift.
  rewrite Hparse. simpl. now rewrite Hsel.
Qed.

Lemma react_unrecognized (a : agent) (current_prompt text : string) (st : state World) :
  unrecognized a text ->
  react a current_prompt text st
    = (Return (Continue (current_prompt ++ thought_segment text) text), st).
Proof.
  intros [(v & Hfinal & Hfalsy) (name & params & Htool & Hsel)].
  rewrite (react_without_final_answer _ _ _ _ _ Hfinal Hfalsy).
  exact (use_tool_without_tool _ _ _ _ _ _ Htool Hsel).
Qed.

(** Where the parsers are lenient.  When the tag pair is missing, or the
    decoder rejects what it encloses with [JSONDecodeError],
    [_parse_final_answer] returns [None] and [_parse_tool_code] returns
    [(None, None)].  The loop treats the two causes alike: without a final
    answer the round goes on to the tool-call parse, and without a tool
    call either it appends the response as free text and continues, in the
    same world and with nothing executed. *)
Lemma parsers_absent_not_raise (a : agent) (current_prompt text : string)
    (st : state World) :
  (block_absent "<final_answer>" "</final_answer>" text ->
     _parse_final_answer text = Return VNone
     /\ react a current_prompt text st = use_tool a current_prompt text st)
  /\ (block_absent "<tool_code>" "</tool_code>" text ->
        _parse_tool_code text = Return (VNone, VNone)
        /\ use_tool a current_prompt text st
           = (Return (Continue (current_prompt ++ thought_segment text) text), st)).
Proof.
  split; intros Habsent.
  - pose proof (_parse_final_answer_absent _ Habsent) as Hparse.
    split; [exact Hparse|].
    now apply (react_without_final_answer _ _ _ _ VNone).
  - pose proof (_parse_tool_code_absent _ Habsent) as Hparse.
    split; [exact Hparse|].
    now apply (use_tool_without_tool _ _ _ _ VNone VNone).
Qed.

End Parsers.

(** At a text whose tool-call block holds broken JSON and which has no
    final-answer block. *)
Example parsers_absent_at_broken_json :
  let text := "<tool_code>{bad</tool_code>" in
  (_parse_final_answer text = Return VNone
   /\ react reviewer_agent "P" text (start [])
      = use_tool reviewer_agent "P" text (start []))
  /\ (_parse_tool_code text = Return (VNone, VNone)
      /\ use_tool reviewer_agent "P" text (start [])
         = (Return (Continue ("P" ++ thought_segment text) text), start [])).
Proof.
  pose proof (parsers_absent_not_raise reviewer_agent "P"
                "<tool_code>{bad</tool_code>" (start [])) as [Hfinal Htool].
  split.
  - apply Hfinal. left. reflexivity.
  - apply Htool. right. exists "{bad", "Expecting value". split; reflexivity.
Defined.

(** ** The retry wrapper *)

Section Retry.
Context {World : Type} `{Capabilities World}.
Import Tenacity.

Lemma prompts_app (l1 l2 : list event) : prompts (l1 ++ l2) = (prompts l1 ++ prompts l2)%list.
Proof.
  induction l1 as [|[q|z|n ps] l1 IH]; simpl; try exact IH; [reflexivity|].
  now rewrite IH.
Qed.

Lemma tool_calls_app (l1 l2 : list event) :
  tool_calls (l1 ++ l2) = (tool_calls l1 ++ tool_calls l2)%list.
Proof.
  induction l1 as [|[q|z|n ps] l1 IH]; simpl; try exact IH; [reflexivity|].
  now rewrite IH.
Qed.

Lemma llm_generate_content_eq (prompt : string) (st : state World)
    (r : outcome response) (w : World) :
  generate_content prompt (world st) = (r, w) ->
  llm_generate_content prompt st = (r, mk_state w (trace st ++ [Generate prompt])).
Proof. intros Hcall. unfold llm_generate_content. now rewrite Hcall. Qed.

Lemma wait_exponential_range (attempt_number : Z) :
  (4 <= wait_exponential 1 4 10 attempt_number <= 10)%Z.
Proof. unfold wait_exponential. lia. Qed.

Lemma wait_exponential_first_two :
  wait_exponential 1 4 10 1 = 4%Z /\ wait_exponential 1 4 10 2 = 4%Z.
Proof. split; reflexivity. Qed.

(** What a run of the wrapper leaves in the trace: model calls on the same
    prompt and sleeps, with at most [remaining + 1] calls. *)
Lemma attempts_trace (wait : Z -> Z) (retry_on : exn -> bool) (prompt : string)
    (remaining : nat) :
  forall (attempt_number : Z) (st st' : state World) (o : outcome response),
    attempts wait retry_on remaining attempt_number (llm_generate_content prompt) st
      = (o, st') ->
    exists new,
      trace st' = (trace st ++ new)%list
      /\ (List.length (prompts new) <= S remaining)%nat
      /\ (forall q, In q (prompts new) -> q = prompt)
      /\ tool_calls new = [].
Proof.
  induction remaining as [|k IH]; intros n st st' o Hrun; simpl in Hrun;
    unfold llm_generate_content at 1 in Hrun;
    destruct (generate_content prompt (world st)) as [[r|e] w].
  1, 3: inversion Hrun; subst; exists [Generate prompt]; simpl;
        repeat split; try lia; intros q [<-|[]]; reflexivity.
  - destruct (retry_on e); inversion Hrun; subst; exists [Generate prompt]; simpl;
      repeat split; try lia; intros q [<-|[]]; reflexivity.
  - destruct (retry_on e).
    + unfold emit in Hrun. simpl in Hrun.
      apply IH in Hrun as (new & Htrace & Hlen & Hall & Htools). simpl in Htrace.
      exists ([Generate prompt; Sleep (wait n)] ++ new)%list.
      rewrite Htrace, <- !app_assoc. simpl.
      repeat split; try lia; try assumption.
      intros q [<-|Hin]; [reflexivity | now apply Hall].
    + inversion Hrun; subst. exists [Generate prompt]; simpl;
        repeat split; try lia; intros q [<-|[]]; reflexivity.
Qed.

Lemma retry_other_kind (prompt_text : string) (st : state World) (e : exn) (w : World) :
  generate_content prompt_text (world st) = (Raise e, w) ->
  exn_kind e <> ResourceExhausted ->
  _generate_content_with_retry prompt_text st
    = (Raise e, mk_state w (trace st ++ [Generate prompt_text])).
Proof.
  intros Hcall Hkind. unfold _generate_content_with_retry, retry. simpl.
  unfold llm_generate_content at 1. rewrite Hcall.
  unfold retry_if_exception_type.
  destruct (exn_kind e); try reflexivity. now elim Hkind.
Qed.

(** After one rate-limited attempt the wrapper sleeps 4 and calls again. *)
Lemma retry_recovers (prompt_text msg : string) (st : state World)
    (r : response) (w1 w2 : World) :
  generate_content prompt_text (world st)
    = (Raise (mk_exn ResourceExhausted msg), w1) ->
  generate_content prompt_text w1 = (Return r, w2) ->
  _generate_content_with_retry prompt_text st
    = (Return r,
       mk_state w2 (trace st ++ [Generate prompt_text; Sleep 4; Generate prompt_text])).
Proof.
  intros Hfirst Hsecond. unfold _generate_content_with_retry, retry. simpl.
  unfold llm_generate_content at 1. rewrite Hfirst. simpl.
  unfold llm_generate_content at 1. simpl. rewrite Hsecond.
  now rewrite <- !app_assoc.
Qed.

(** C6.  The wrapper calls the model again only after a [ResourceExhausted].
    At each of the three attempts, what the model does comes out at once
    unless it is a [ResourceExhausted]: after [k] rate-limited calls (none,
    one or two), a response is returned, and a failure of any other kind is
    raised as it is, after these [k + 1] calls and [k] sleeps of 4, with no
    further call.  After three rate-limited calls the wrapper raises
    tenacity's [RetryError], a kind of its own, having made exactly three
    calls and slept 4 and 4 in between; so it does against a model that
    always fails with [ResourceExhausted].  Whatever the model does, one use
    of the wrapper makes at most three calls, all on the same prompt, and
    every wait lies between the floor 4 and the ceiling 10, being
    [1 * 2^(n-1)] clamped to them. *)
Theorem retry_only_when_rate_limited (prompt_text : string) (st : state World) :
  (forall k w o w',
     (k < 3)%nat ->
     rate_limited k prompt_text (world st) w ->
     generate_content prompt_text w = (o, w') ->
     (forall e, o = Raise e -> exn_kind e <> ResourceExhausted) ->
     _generate_content_with_retry prompt_text st
       = (o, mk_state w'
               (trace st
                  ++ flat_map (fun _ => [Generate prompt_text; Sleep 4]) (seq 0 k)
                  ++ [Generate prompt_text])))
  /\ (forall w',
        rate_limited 3 prompt_text (world st) w' ->
        exists e,
          _generate_content_with_retry prompt_text st
            = (Raise e,
               mk_state w' (trace st ++ [Generate prompt_text; Sleep 4;
                                         Generate prompt_text; Sleep 4;
                                         Generate prompt_text]))
          /\ exn_kind e = RetryError)
  /\ (always_rate_limited prompt_text ->
        exists e st',
          _generate_content_with_retry prompt_text st = (Raise e, st')
          /\ exn_kind e = RetryError
          /\ trace st' = (trace st ++ [Generate prompt_text; Sleep 4;
                                       Generate prompt_text; Sleep 4;
                                       Generate prompt_text])%list)
  /\ (forall o st',
        _generate_content_with_retry prompt_text st = (o, st') ->
        exists new,
          trace st' = (trace st ++ new)%list
          /\ (List.length (prompts new) <= 3)%nat
          /\ (forall q, In q (prompts new) -> q = prompt_text))
  /\ (forall attempt_number,
        wait_exponential 1 4 10 attempt_number
          = Z.max 4 (Z.min (1 * 2 ^ (attempt_number - 1)) 10)
        /\ (4 <= wait_exponential 1 4 10 attempt_number <= 10)%Z).
Proof.
  assert (Hlast : forall (o : outcome response) (w' w0 : World) (tr : list event)
                         (remaining : nat) (n : Z),
    generate_content prompt_text w0 = (o, w') ->
    (forall e, o = Raise e -> exn_kind e <> ResourceExhausted) ->
    attempts (wait_exponential 1 4 10) (retry_if_exception_type ResourceExhausted)
      remaining n (llm_generate_content prompt_text) (mk_state w0 tr)
      = (o, mk_state w' (tr ++ [Generate prompt_text]))).
  { intros o w' w0 tr remaining n Hcall Hkind.
    destruct remaining; simpl;
      rewrite (llm_generate_content_eq _ (mk_state w0 tr) _ _ Hcall);
      (destruct o as [r|e]; [reflexivity|]);
      unfold retry_if_exception_type;
      pose proof (Hkind e eq_refl) as Hne;
      destruct (exn_kind e); try reflexivity; now elim Hne. }
  assert (Hstep : forall (e : exn) (w0 w1 : World) (tr : list event)
                         (remaining : nat) (n : Z),
    generate_content prompt_text w0 = (Raise e, w1) ->
    exn_kind e = ResourceExhausted ->
    attempts (wait_exponential 1 4 10) (retry_if_exception_type ResourceExhausted)
      (S remaining) n (llm_generate_content prompt_text) (mk_state w0 tr)
      = attempts (wait_exponential 1 4 10) (retry_if_exception_type ResourceExhausted)
          remaining (n + 1) (llm_generate_content prompt_text)
          (mk_state w1 (tr ++ [Generate prompt_text;
                               Sleep (wait_exponential 1 4 10 n)]))).
  { intros e w0 w1 tr remaining n Hcall Hkind. cbn [attempts].
    rewrite (llm_generate_content_eq _ (mk_state w0 tr) _ _ Hcall).
    unfold retry_if_exception_type. rewrite Hkind. cbn [class_eqb].
    unfold emit. cbn [world trace]. now rewrite <- app_assoc. }
  assert (Hstop : forall (e : exn) (w0 w1 : World) (tr : list event) (n : Z),
    generate_content prompt_text w0 = (Raise e, w1) ->
    exn_kind e = ResourceExhausted ->
    attempts (wait_exponential 1 4 10) (retry_if_exception_type ResourceExhausted)
      0 n (llm_generate_content prompt_text) (mk_state w0 tr)
      = (Raise (retry_error e), mk_state w1 (tr ++ [Generate prompt_text]))).
  { intros e w0 w1 tr n Hcall Hkind. cbn [attempts].
    rewrite (llm_generate_content_eq _ (mk_state w0 tr) _ _ Hcall).
    unfold retry_if_exception_type. now rewrite Hkind. }
  unfold _generate_content_with_retry, retry.
  change (3 - 1)%nat with 2%nat. destruct st as [w0 tr]. cbn [world trace].
  split; [|split; [|split; [|split; [|intros n; split]]]].
  - intros k w o w' Hk Hfailed Hcall Hkind.
    destruct k as [|[|[|k]]]; [| | |lia]; simpl in Hfailed.
    + subst w. rewrite (Hlast o w' w0 tr _ _ Hcall Hkind). reflexivity.
    + destruct Hfailed as (e1 & w1 & H1 & Hk1 & ->).
      rewrite (Hstep _ _ _ _ _ _ H1 Hk1), (Hlast o w' _ _ _ _ Hcall Hkind).
      simpl. now rewrite <- !app_assoc.
    + destruct Hfailed as (e1 & w1 & H1 & Hk1 & e2 & w2 & H2 & Hk2 & ->).
      rewrite (Hstep _ _ _ _ _ _ H1 Hk1), (Hstep _ _ _ _ _ _ H2 Hk2),
        (Hlast o w' _ _ _ _ Hcall Hkind).
      simpl. now rewrite <- !app_assoc.
  - intros w' (e1 & w1 & H1 & Hk1 & e2 & w2 & H2 & Hk2 & e3 & w3 & H3 & Hk3 & ->).
    rewrite (Hstep _ _ _ _ _ _ H1 Hk1), (Hstep _ _ _ _ _ _ H2 Hk2),
      (Hstop _ _ _ _ _ H3 Hk3).
    exists (retry_error e3). split; [|reflexivity]. simpl. now rewrite <- !app_assoc.
  - intros Hfail.
    destruct (Hfail w0) as (m1 & w1 & H1).
    destruct (Hfail w1) as (m2 & w2 & H2).
    destruct (Hfail w2) as (m3 & w3 & H3).
    rewrite (Hstep _ _ _ _ _ _ H1 eq_refl), (Hstep _ _ _ _ _ _ H2 eq_refl),
      (Hstop _ _ _ _ _ H3 eq_refl).
    eexists _, _. split; [reflexivity|]. split; [reflexivity|].
    simpl. now rewrite <- !app_assoc.
  - intros o st' Hrun.
    apply attempts_trace in Hrun as (new & Htrace & Hlen & Hall & _).
    exists new. repeat split; assumption.
  - unfold wait_exponential. lia.
  - apply wait_exponential_range.
Qed.

End Retry.

(** C6 against a model that is always rate limited, and against one that
    is rate limited once and then fails otherwise. *)
Lemma retry_only_when_rate_limited_witness :
  (exists e st',
     @_generate_content_with_retry unit (constant (Raise rate_limit)) "P" (mk_state tt [])
       = (Raise e, st')
     /\ exn_kind e = RetryError
     /\ trace st' = [Generate "P"; Sleep 4; Generate "P"; Sleep 4; Generate "P"])
  /\ _generate_content_with_retry "P" (start [Raise rate_limit; Raise outage; says "late"])
     = (Raise outage,
        mk_state [says "late"] [Generate "P"; Sleep 4; Generate "P"]).
Proof.
  split.
  - apply (proj1 (proj2 (proj2 (@retry_only_when_rate_limited unit
                                  (constant (Raise rate_limit)) "P" (mk_state tt []))))).
    intros w. exists "429 Resource has been exhausted", w. reflexivity.
  - refine (proj1 (retry_only_when_rate_limited "P"
                     (start [Raise rate_limit; Raise outage; says "late"]))
                  1%nat [Raise outage; says "late"] (Raise outage) [says "late"]
                  _ _ eq_refl _).
    + lia.
    + exists rate_limit, [Raise outage; says "late"]. repeat split.
    + intros e He. inversion He. discriminate.
Defined.

(** ** One round *)

Section Round.
Context {World : Type} `{Capabilities World}.

(** A round of the agents that call the model directly. *)
Lemma round_direct (a : agent) (current_prompt : string) (st : state World)
    (r : outcome response) (w : World) :
  style a = Direct ->
  generate_content current_prompt (world st) = (r, w) ->
  round a current_prompt st
    = match r with
      | Return (Parts text) =>
          react a current_prompt text
            (mk_state w (trace st ++ [Generate current_prompt]))
      | Return NoParts =>
          (Raise (mk_exn ValueError
             "Invalid operation: The `response.text` quick accessor requires the response to contain a valid `Part`, but none were returned."),
           mk_state w (trace st ++ [Generate current_prompt]))
      | Raise e => (Raise e, mk_state w (trace st ++ [Generate current_prompt]))
      end.
Proof.
  intros Hstyle Hcall. unfold round. rewrite Hstyle.
  unfold bind. rewrite (llm_generate_content_eq _ _ _ _ Hcall).
  destruct r as [[text|]|e]; reflexivity.
Qed.

(** A round of the builder when the first attempt of the wrapper is answered. *)
Lemma round_retried (a : agent) (current_prompt : string) (st : state World)
    (r : response) (w : World) :
  style a = Retried ->
  generate_content current_prompt (world st) = (Return r, w) ->
  round a current_prompt st
    = react a current_prompt (match r with Parts text => text | NoParts => "" end)
        (mk_state w (trace st ++ [Generate current_prompt])).
Proof.
  intros Hstyle Hcall. unfold round. rewrite Hstyle.
  unfold bind, try_except, _generate_content_with_retry, Tenacity.retry. simpl.
  rewrite (llm_generate_content_eq _ _ _ _ Hcall).
  destruct r; reflexivity.
Qed.

Lemma round_answered (a : agent) (current_prompt text : string) (st : state World)
    (w : World) :
  style a <> RetriedUnbound ->
  generate_content current_prompt (world st) = (Return (Parts text), w) ->
  round a current_prompt st
    = react a current_prompt text (mk_state w (trace st ++ [Generate current_prompt])).
Proof.
  intros Hstyle Hcall. destruct (style a) eqn:E.
  - now rewrite (round_direct _ _ _ _ _ E Hcall).
  - now rewrite (round_retried _ _ _ _ _ E Hcall).
  - now elim Hstyle.
Qed.

(** The tool call always gives a segment; it is recorded when the function
    was called. *)
Lemma execute_tool_returns (name : string) (params : value) (st : state World) :
  exists segment st',
    execute_tool name params st = (Return segment, st')
    /\ (st' = st
        \/ exists w, st' = mk_state w (trace st ++ [ToolCall name params])).
Proof.
  unfold execute_tool.
  destruct params; try (eexists _, _; split; [reflexivity | now left]).
  destruct (tool_func name (VDict d) (world st)) as [[tool_output|e] w];
    eexists _, _; (split; [reflexivity | right; now exists w]).
Qed.

(** What the second half of a round does: it sends nothing to the model,
    and when the loop goes on, the new prompt is the old one followed by
    one segment. *)
Lemma use_tool_appends (a : agent) (current_prompt text : string)
    (st st' : state World) (o : outcome step) :
  use_tool a current_prompt text st = (o, st') ->
  (exists new, trace st' = (trace st ++ new)%list /\ prompts new = [])
  /\ (forall s, o = Return s ->
        exists segment, s = Continue (current_prompt ++ segment) text).
Proof.
  unfold use_tool, bind, lift, ret.
  destruct (_parse_tool_code text) as [[name params]|e]; simpl.
  2: { intros Hrun; inversion Hrun; subst. split; [exists []|discriminate].
       now rewrite app_nil_r. }
  destruct (tool_selected a name) as [selected|e].
  2: { intros Hrun; inversion Hrun; subst. split; [exists []|discriminate].
       now rewrite app_nil_r. }
  assert (Hthought :
    (Return (Continue (current_prompt ++ thought_segment text) text), st) = (o, st') ->
    (exists new, trace st' = (trace st ++ new)%list /\ prompts new = [])
    /\ (forall s, o = Return s ->
          exists segment, s = Continue (current_prompt ++ segment) text)).
  { intros Hrun; inversion Hrun; subst. split.
    - exists []. now rewrite app_nil_r.
    - intros s Hs. inversion Hs; subst. now eexists. }
  destruct selected; [|destruct name; exact Hthought].
  destruct name; try exact Hthought.
  destruct (execute_tool_returns s params st) as (segment & st1 & -> & Hst1).
  intros Hrun; inversion Hrun; subst. split.
  - destruct Hst1 as [->|(w & ->)].
    + exists []. now rewrite app_nil_r.
    + eexists. split; reflexivity.
  - intros s' Hs; inversion Hs; subst; now eexists.
Qed.

Lemma react_appends (a : agent) (current_prompt text : string)
    (st st' : state World) (o : outcome step) :
  react a current_prompt text st = (o, st') ->
  (exists new, trace st' = (trace st ++ new)%list /\ prompts new = [])
  /\ (forall p' t', o = Return (Continue p' t') ->
        exists segment, p' = current_prompt ++ segment).
Proof.
  unfold react, bind, lift, ret.
  destruct (_parse_final_answer text) as [final_answer|e].
  2: { intros Hrun; inversion Hrun; subst. split; [exists []|discriminate].
       now rewrite app_nil_r. }
  destruct (Py.truthy final_answer).
  - destruct (strips_pr_fields a).
    + destruct (obind _ _) as [data|e]; intros Hrun; inversion Hrun; subst;
        (split; [exists []; now rewrite app_nil_r | discriminate]).
    + intros Hrun; inversion Hrun; subst.
      split; [exists []; now rewrite app_nil_r | discriminate].
  - intros Hrun. apply use_tool_appends in Hrun as [Htrace Hstep].
    split; [exact Htrace|].
    intros p' t' Ho. destruct (Hstep _ Ho) as [segment Hs].
    inversion Hs; subst. now eexists.
Qed.

(** What a whole round does: every prompt it sends is the current one, and
    when the loop goes on the new prompt extends the current one. *)
Lemma round_appends (a : agent) (current_prompt : string)
    (st st' : state World) (o : outcome step) :
  round a current_prompt st = (o, st') ->
  (exists new, trace st' = (trace st ++ new)%list
               /\ forall q, In q (prompts new) -> q = current_prompt)
  /\ (forall p' t', o = Return (Continue p' t') ->
        exists segment, p' = current_prompt ++ segment).
Proof.
  unfold round. destruct (style a).
  - (* Direct *)
    unfold bind, lift. unfold llm_generate_content at 1.
    destruct (generate_content current_prompt (world st)) as [[[text|]|e] w]; simpl.
    + intros Hrun. apply react_appends in Hrun as [(new & Htrace & Hnone) Hstep].
      split; [|exact Hstep]. simpl in Htrace.
      exists ([Generate current_prompt] ++ new)%list.
      rewrite Htrace, <- app_assoc. split; [reflexivity|].
      simpl. rewrite Hnone. intros q [<-|[]]. reflexivity.
    + intros Hrun; inversion Hrun; subst. split; [|discriminate].
      exists [Generate current_prompt]. split; [reflexivity|].
      intros q [<-|[]]. reflexivity.
    + intros Hrun; inversion Hrun; subst. split; [|discriminate].
      exists [Generate current_prompt]. split; [reflexivity|].
      intros q [<-|[]]. reflexivity.
  - (* Retried *)
    unfold bind, try_except, ret, _generate_content_with_retry, Tenacity.retry.
    destruct (Tenacity.attempts _ _ _ _ _ st) as [[r|e] st1] eqn:Hcall;
      apply attempts_trace in Hcall as (new1 & Htrace1 & _ & Hall1 & _).
    + assert (Hreact : forall text,
        react a current_prompt text st1 = (o, st') ->
        (exists new, trace st' = (trace st ++ new)%list
                     /\ forall q, In q (prompts new) -> q = current_prompt)
        /\ (forall p' t', o = Return (Continue p' t') ->
              exists segment, p' = current_prompt ++ segment)).
      { intros text Hrun.
        apply react_appends in Hrun as [(new & Htrace & Hnone) Hstep].
        split; [|exact Hstep].
        exists (new1 ++ new)%list. rewrite Htrace, Htrace1, <- app_assoc.
        split; [reflexivity|]. rewrite prompts_app, Hnone, app_nil_r. exact Hall1. }
      destruct r as [text|]; apply Hreact.
    + destruct (Tenacity.retry_if_exception_type ResourceExhausted e);
        intros Hrun; inversion Hrun; subst;
        (split; [exists new1; split; assumption | discriminate]).
  - (* RetriedUnbound *)
    intros Hrun; inversion Hrun; subst. split; [|discriminate].
    exists []. split; [now rewrite app_nil_r | intros q []].
Qed.

End Round.

(** ** The conversation only grows *)

Section AppendOnly.
Context {World : Type} `{Capabilities World}.

Lemma prefix_refl (p : string) : String.prefix p p = true.
Proof. rewrite <- (append_empty_r p) at 2. apply prefix_append. Qed.

Lemma chain_weaken (p q : string) (texts : list string) :
  String.prefix p q = true -> chain q texts -> chain p texts.
Proof.
  destruct texts as [|r texts]; simpl; [trivial|].
  intros Hpq [Hqr Hrest]. split; [|exact Hrest].
  exact (prefix_trans _ _ _ Hpq Hqr).
Qed.

Lemma chain_after_repeats (p q : string) (same texts : list string) :
  (forall r, In r same -> r = p) ->
  String.prefix p q = true -> chain q texts ->
  chain p (same ++ texts).
Proof.
  intros Hsame Hpq Hchain.
  induction same as [|r same IH]; simpl.
  - exact (chain_weaken _ _ _ Hpq Hchain).
  - rewrite (Hsame r (or_introl eq_refl)). split; [apply prefix_refl|].
    apply IH. intros r' Hin. apply Hsame. now right.
Qed.

Lemma pm_round_appends (prompt : string) (st st' : state World) (o : outcome step) :
  pm_round prompt st = (o, st') ->
  (exists new, trace st' = (trace st ++ new)%list
               /\ forall q, In q (prompts new) -> q = prompt)
  /\ (forall p' t', o = Return (Continue p' t') ->
        exists segment, p' = prompt ++ segment).
Proof.
  unfold pm_round, bind, try_except, ret, raise,
    _generate_content_with_retry, Tenacity.retry.
  destruct (Tenacity.attempts _ _ _ _ _ st) as [[r|e] st1] eqn:Hcall;
    apply attempts_trace in Hcall as (new1 & Htrace1 & _ & Hall1 & _).
  - assert (Hdone : forall s,
      (Return s, st1) = (o, st') ->
      (exists segment, forall p' t', s = Continue p' t' -> p' = prompt ++ segment) ->
      (exists new, trace st' = (trace st ++ new)%list
                   /\ forall q, In q (prompts new) -> q = prompt)
      /\ (forall p' t', o = Return (Continue p' t') ->
            exists segment, p' = prompt ++ segment)).
    { intros s Hrun [segment Hs]. inversion Hrun; subst. split.
      - exists new1. split; assumption.
      - intros p' t' Ho. inversion Ho; subst. exists segment. eapply Hs. reflexivity. }
    destruct r as [text|].
    + destruct (PyStr.search_group _ _ text) as [group1|].
      * destruct (json_loads _) as [v|msg|e]; intros Hrun.
        -- apply (Hdone _ Hrun). exists "". intros p' t' Hs. discriminate.
        -- apply (Hdone _ Hrun). eexists. intros p' t' Hs. inversion Hs. reflexivity.
        -- inversion Hrun; subst. split; [|discriminate].
           exists new1. split; assumption.
      * intros Hrun; apply (Hdone _ Hrun).
        eexists. intros p' t' Hs. inversion Hs. reflexivity.
    + intros Hrun; apply (Hdone _ Hrun).
      eexists. intros p' t' Hs. inversion Hs. reflexivity.
  - intros Hrun; inversion Hrun; subst. split; [|discriminate].
    exists new1. split; assumption.
Qed.

Lemma iterate_chain (a : agent) (n : nat) :
  forall (current_prompt response_text : string) (st st' : state World)
         (o : outcome value),
    iterate a n current_prompt response_text st = (o, st') ->
    exists new,
      trace st' = (trace st ++ new)%list /\ chain current_prompt (prompts new).
Proof.
  induction n as [|n IH]; intros p t st st' o Hrun; simpl in Hrun.
  - inversion Hrun; subst. exists []. now rewrite app_nil_r.
  - unfold bind in Hrun.
    destruct (round a p st) as [[s|e] st1] eqn:Hround;
      apply round_appends in Hround as [(new1 & Htrace1 & Hall1) Hstep].
    + destruct s as [result|p' t'].
      * inversion Hrun; subst. exists new1. split; [assumption|].
        rewrite <- (app_nil_r (prompts new1)).
        now apply (chain_after_repeats p p); [|apply prefix_refl|].
      * apply IH in Hrun as (new2 & Htrace2 & Hchain2).
        destruct (Hstep _ _ eq_refl) as [segment ->].
        exists (new1 ++ new2)%list. rewrite Htrace2, Htrace1, <- app_assoc.
        split; [reflexivity|]. rewrite prompts_app.
        apply (chain_after_repeats p (p ++ segment)); auto using prefix_append.
    + inversion Hrun; subst. exists new1. split; [assumption|].
      rewrite <- (app_nil_r (prompts new1)).
      now apply (chain_after_repeats p p); [|apply prefix_refl|].
Qed.

Lemma pm_iterate_chain (n : nat) :
  forall (prompt : string) (st st' : state World) (o : outcome value),
    pm_iterate n prompt st = (o, st') ->
    exists new,
      trace st' = (trace st ++ new)%list /\ chain prompt (prompts new).
Proof.
  induction n as [|n IH]; intros p st st' o Hrun; simpl in Hrun.
  - inversion Hrun; subst. exists []. now rewrite app_nil_r.
  - unfold bind in Hrun.
    destruct (pm_round p st) as [[s|e] st1] eqn:Hround;
      apply pm_round_appends in Hround as [(new1 & Htrace1 & Hall1) Hstep].
    + destruct s as [result|p' t'].
      * inversion Hrun; subst. exists new1. split; [assumption|].
        rewrite <- (app_nil_r (prompts new1)).
        now apply (chain_after_repeats p p); [|apply prefix_refl|].
      * apply IH in Hrun as (new2 & Htrace2 & Hchain2).
        destruct (Hstep _ _ eq_refl) as [segment ->].
        exists (new1 ++ new2)%list. rewrite Htrace2, Htrace1, <- app_assoc.
        split; [reflexivity|]. rewrite prompts_app.
        apply (chain_after_repeats p (p ++ segment)); auto using prefix_append.
    + inversion Hrun; subst. exists new1. split; [assumption|].
      rewrite <- (app_nil_r (prompts new1)).
      now apply (chain_after_repeats p p); [|apply prefix_refl|].
Qed.

(** C8.  In the agent loop and in the product-manager loop alike, a round
    after which the loop goes on leaves a prompt of which the prompt before
    the round is a prefix (the round appended a tool output, a tool error, a
    free-text segment or an error note), so the prompt is no shorter; and
    over a whole run, however it ends, the prompts sent to the model form a
    chain in which each one is a prefix of the next. *)
Theorem conversation_append_only :
  (forall a p st p' t st',
     round a p st = (Return (Continue p' t), st') ->
     String.prefix p p' = true /\ (String.length p <= String.length p')%nat)
  /\ (forall p st p' t st',
        pm_round p st = (Return (Continue p' t), st') ->
        String.prefix p p' = true /\ (String.length p <= String.length p')%nat)
  /\ (forall a n p t st o st',
        iterate a n p t st = (o, st') ->
        exists new,
          trace st' = (trace st ++ new)%list /\ chain p (prompts new))
  /\ (forall n p st o st',
        pm_iterate n p st = (o, st') ->
        exists new,
          trace st' = (trace st ++ new)%list /\ chain p (prompts new)).
Proof.
  split; [|split; [|split]].
  - intros a p st p' t st' Hround.
    apply round_appends in Hround as [_ Hstep].
    destruct (Hstep _ _ eq_refl) as [segment ->].
    split; [apply prefix_append | rewrite length_append; lia].
  - intros p st p' t st' Hround.
    apply pm_round_appends in Hround as [_ Hstep].
    destruct (Hstep _ _ eq_refl) as [segment ->].
    split; [apply prefix_append | rewrite length_append; lia].
  - intros a n p t st o st'. apply iterate_chain.
  - intros n p st o st'. apply pm_iterate_chain.
Qed.

End AppendOnly.

(** C8 at a reviewer round that appends free text. *)
Lemma conversation_append_only_witness :
  String.prefix "P" ("P" ++ thought_segment "let me think") = true
  /\ (String.length "P" <= String.length ("P" ++ thought_segment "let me think"))%nat.
Proof.
  exact (proj1 conversation_append_only reviewer_agent "P"
           (start [says "let me think"])
           ("P" ++ thought_segment "let me think") "let me think"
           (mk_state [] [Generate "P"]) eq_refl).
Defined.

(** ** Exhausting the rounds *)

Section Exhaustion.
Context {World : Type} `{Capabilities World}.

Lemma last_cons_nonempty (p q : string) (sent : list string) (d : string) :
  last (p :: q :: sent) d = last (q :: sent) d.
Proof. reflexivity. Qed.

(** Against a model whose answers the agent never recognizes, [n] rounds
    are [n] model calls and nothing else, and the loop ends with the failure
    result built from the answer to the last call. *)
Lemma iterate_unrecognized (a : agent) :
  style a <> RetriedUnbound ->
  always_unrecognized a ->
  forall (n : nat) (current_prompt response_text : string) (st : state World),
  exists sent t_last st',
    iterate a n current_prompt response_text st
      = (Return (failure a (max_iterations_message a) t_last), st')
    /\ trace st' = (trace st ++ map Generate sent)%list
    /\ List.length sent = n
    /\ match sent with
       | [] => t_last = response_text /\ world st' = world st
       | _ :: _ =>
           exists w_last,
             generate_content (last sent "") w_last
               = (Return (Parts t_last), world st')
       end.
Proof.
  intros Hstyle Hmodel.
  induction n as [|n IH]; intros p t0 st.
  - exists [], t0, st. simpl. rewrite app_nil_r. repeat split; reflexivity.
  - destruct (Hmodel p (world st)) as (text & w & Hcall & Hunrec).
    destruct (IH (p ++ thought_segment text) text
                 (mk_state w (trace st ++ [Generate p])))
      as (sent & t_last & st' & Hrun & Htrace & Hlen & Hlast).
    exists (p :: sent), t_last, st'.
    split; [|split; [|split]].
    + simpl. unfold bind.
      rewrite (round_answered _ _ _ _ _ Hstyle Hcall).
      now rewrite (react_unrecognized _ _ _ _ Hunrec).
    + rewrite Htrace. simpl. now rewrite <- app_assoc.
    + simpl. now rewrite Hlen.
    + destruct sent as [|q sent].
      * destruct Hlast as [-> Hworld]. exists (world st).
        simpl in *. now rewrite Hworld.
      * rewrite last_cons_nonempty. exact Hlast.
Qed.




End Exhaustion.



(** ** The final answer *)

Section FinalAnswer.
Context {World : Type} `{Capabilities World}.
Import Py.

Lemma dict_in_del_same (k : string) (d : list (string * value)) :
  dict_in k (dict_del k d) = false.
Proof.
  unfold dict_in, dict_del.
  induction d as [|[k' v] d IH]; simpl; [reflexivity|].
  destruct (String.eqb k' k) eqn:E; simpl; [exact IH|].
  now rewrite E.
Qed.

Lemma dict_in_del_other (k k' : string) (d : list (string * value)) :
  dict_in k' d = false -> dict_in k' (dict_del k d) = false.
Proof.
  unfold dict_in, dict_del.
  induction d as [|[k0 v] d IH]; simpl; [reflexivity|].
  intros Hin. apply orb_false_iff in Hin as [Hk Hd].
  destruct (String.eqb k0 k); simpl; [now apply IH|].
  now rewrite Hk, IH.
Qed.

Lemma dict_get_del_other (k k' : string) (d : list (string * value)) :
  k' <> k -> dict_get k' (dict_del k d) = dict_get k' d.
Proof.
  intros Hne. unfold dict_del.
  induction d as [|[k0 v] d IH]; simpl; [reflexivity|].
  destruct (String.eqb_spec k0 k) as [->|Hk0]; simpl.
  - destruct (String.eqb_spec k k') as [->|_]; [now elim Hne | exact IH].
  - now rewrite IH.
Qed.

Lemma dict_del_absent (k : string) (d : list (string * value)) :
  dict_in k d = false -> dict_del k d = d.
Proof.
  unfold dict_in, dict_del.
  induction d as [|[k0 v] d IH]; simpl; [reflexivity|].
  intros Hin. apply orb_false_iff in Hin as [Hk Hd].
  now rewrite Hk, IH.
Qed.

Lemma dict_del_twice (d : list (string * value)) :
  dict_del "pr_number" (dict_del "pr_url" d)
    = filter (fun kv => negb (String.eqb (fst kv) "pr_url")
                        && negb (String.eqb (fst kv) "pr_number")) d.
Proof.
  unfold dict_del.
  induction d as [|[k0 v] d IH]; simpl; [reflexivity|].
  destruct (String.eqb k0 "pr_url"); simpl; [exact IH|].
  destruct (String.eqb k0 "pr_number"); simpl; [exact IH | now rewrite IH].
Qed.

(** [if key in d: del d[key]] on a dictionary *)
Lemma discard_dict (k : string) (d : list (string * value)) :
  discard k (VDict d) = Return (VDict (dict_del k d)).
Proof.
  unfold discard. simpl.
  destruct (dict_in k d) eqn:E; [reflexivity|].
  now rewrite (dict_del_absent _ _ E).
Qed.

(** ...and on any object: when it returns, the key is not in the result,
    and a key that was not in the object is not in the result. *)
Lemma discard_returns (k : string) (v r : value) :
  discard k v = Return r ->
  Py.contains k r = Return false
  /\ (forall k', Py.contains k' v = Return false -> Py.contains k' r = Return false).
Proof.
  unfold discard.
  destruct v as [| b | z | f | s | l | d]; simpl; try discriminate.
  - destruct (PyStr.contains k s) eqn:E; [discriminate|].
    intros Hr; inversion Hr; subst. simpl. now rewrite E.
  - destruct (existsb (is_str k) l) eqn:E; [discriminate|].
    intros Hr; inversion Hr; subst. simpl. now rewrite E.
  - destruct (dict_in k d) eqn:E; simpl; intros Hr; inversion Hr; subst; simpl.
    + rewrite dict_in_del_same. split; [reflexivity|].
      intros k' Hk'. inversion Hk' as [Hk'']. rewrite Hk''.
      now rewrite (dict_in_del_other _ _ _ Hk'').
    + now rewrite E.
Qed.

(** The builder's two deletions, one after the other. *)
Lemma strip_returns (v r : value) :
  obind (discard "pr_url" v) (discard "pr_number") = Return r ->
  Py.contains "pr_url" r = Return false /\ Py.contains "pr_number" r = Return false.
Proof.
  destruct (discard "pr_url" v) as [r1|e] eqn:E1; simpl; [|discriminate].
  intros E2.
  apply discard_returns in E1 as [Hurl _].
  apply discard_returns in E2 as [Hnumber Hkept].
  split; [now apply Hkept | exact Hnumber].
Qed.

Lemma failure_without_pr_fields (message text : string) :
  Py.contains "pr_url" (failure builder_agent message text) = Return false
  /\ Py.contains "pr_number" (failure builder_agent message text) = Return false.
Proof. split; reflexivity. Qed.

Lemma _parse_final_answer_decoded (text group1 : string) (v : value) :
  PyStr.search_group "<final_answer>" "</final_answer>" text = Some group1 ->
  json_loads (PyStr.strip group1) = Decoded v ->
  _parse_final_answer text = Return v.
Proof. intros Hg Hv. unfold _parse_final_answer. now rewrite Hg, Hv. Qed.

(** A round of the builder that finishes returns an object without the two
    keys. *)
Lemma builder_round_without_pr_fields (current_prompt : string)
    (st st' : state World) (r : value) :
  round builder_agent current_prompt st = (Return (Finished r), st') ->
  Py.contains "pr_url" r = Return false /\ Py.contains "pr_number" r = Return false.
Proof.
  assert (Hreact : forall text st1,
    react builder_agent current_prompt text st1 = (Return (Finished r), st') ->
    Py.contains "pr_url" r = Return false /\ Py.contains "pr_number" r = Return false).
  { intros text st1. unfold react, bind, lift, ret.
    destruct (_parse_final_answer text) as [v|e]; [|discriminate].
    destruct (truthy v).
    - simpl. destruct (obind _ _) as [data|e] eqn:E; [|discriminate].
      intros Hrun; inversion Hrun; subst. now apply strip_returns in E.
    - intros Hrun. apply use_tool_appends in Hrun as [_ Hstep].
      destruct (Hstep _ eq_refl) as [segment Hs]. discriminate. }
  unfold round. simpl.
  unfold bind, try_except, ret.
  destruct (_generate_content_with_retry current_prompt st) as [[resp|e] st1].
  - destruct resp as [text|]; apply Hreact.
  - destruct (Tenacity.retry_if_exception_type ResourceExhausted e);
      intros Hrun; inversion Hrun; subst; apply failure_without_pr_fields.
Qed.

(** Whatever [BuilderAgent.run] returns has neither key. *)
Lemma builder_run_without_pr_fields (n : nat) :
  forall (current_prompt response_text : string) (st st' : state World) (r : value),
    iterate builder_agent n current_prompt response_text st = (Return r, st') ->
    Py.contains "pr_url" r = Return false /\ Py.contains "pr_number" r = Return false.
Proof.
  induction n as [|n IH]; intros p t st st' r Hrun; simpl in Hrun.
  - inversion Hrun; subst. apply failure_without_pr_fields.
  - unfold bind in Hrun.
    destruct (round builder_agent p st) as [[[result|p' t']|e] st1] eqn:Hround.
    + inversion Hrun; subst. exact (builder_round_without_pr_fields _ _ _ _ Hround).
    + exact (IH _ _ _ _ _ Hrun).
    + discriminate.
Qed.

(** C10.  Whatever [BuilderAgent.run] returns contains neither [pr_url] nor
    [pr_number]; and in any round in which the model's text holds a final
    answer that decodes to a non-empty mapping, the run returns at once the
    mapping without these two keys: the other keys, their values and their
    order are those of the decoded answer. *)
Theorem builder_returns_no_pr_fields :
  (forall current_prompt st r st',
     BuilderAgent.run current_prompt st = (Return r, st') ->
     Py.contains "pr_url" r = Return false
     /\ Py.contains "pr_number" r = Return false)
  /\ (forall n current_prompt response_text st text w group1 d,
        generate_content current_prompt (world st) = (Return (Parts text), w) ->
        PyStr.search_group "<final_answer>" "</final_answer>" text = Some group1 ->
        json_loads (PyStr.strip group1) = Decoded (VDict d) ->
        d <> [] ->
        let result := dict_del "pr_number" (dict_del "pr_url" d) in
        iterate builder_agent (S n) current_prompt response_text st
          = (Return (VDict result),
             mk_state w (trace st ++ [Generate current_prompt]))
        /\ dict_in "pr_url" result = false
        /\ dict_in "pr_number" result = false
        /\ (forall k, k <> "pr_url" -> k <> "pr_number" ->
              dict_get k result = dict_get k d)
        /\ result = filter (fun kv => negb (String.eqb (fst kv) "pr_url")
                                      && negb (String.eqb (fst kv) "pr_number")) d).
Proof.
  split.
  - intros p st r st'. apply builder_run_without_pr_fields.
  - intros n p t0 st text w group1 d Hcall Hgroup Hdecoded Hd result.
    split; [|split; [|split; [|split]]].
    + simpl. unfold bind.
      rewrite (round_answered builder_agent _ _ _ _ ltac:(discriminate) Hcall).
      unfold react, bind, lift, ret.
      rewrite (_parse_final_answer_decoded _ _ _ Hgroup Hdecoded).
      destruct d as [|kv d]; [now elim Hd|].
      change (truthy (VDict (kv :: d))) with true.
      change (strips_pr_fields builder_agent) with true.
      cbv iota beta.
      rewrite (discard_dict "pr_url"). simpl obind.
      rewrite (discard_dict "pr_number"). reflexivity.
    + unfold result. apply dict_in_del_other, dict_in_del_same.
    + unfold result. apply dict_in_del_same.
    + intros k Hurl Hnumber. unfold result.
      now rewrite !dict_get_del_other.
    + apply dict_del_twice.
Qed.

End FinalAnswer.

(** C10 at a final answer that carries both fields. *)
Lemma builder_returns_no_pr_fields_witness :
  BuilderAgent.run "P" (start [says (final_answer_block success_with_pr_json)])
    = (Return (VDict [("status", VStr "success");
                      ("local_changes_made", VBool true)]),
       mk_state [] [Generate "P"]).
Proof.
  exact (proj1 (proj2 builder_returns_no_pr_fields 9%nat "P" ""
                  (start [says (final_answer_block success_with_pr_json)])
                  (final_answer_block success_with_pr_json) []
                  success_with_pr_json
                  [("status", VStr "success");
                   ("pr_url", VStr "https://github.example/pull/7");
                   ("pr_number", VInt 7);
                   ("local_changes_made", VBool true)]
                  eq_refl eq_refl eq_refl ltac:(discriminate))).
Defined.

Section FinalAnswerFirst.
Context {World : Type} `{Capabilities World}.

(** C5 (as amended).  For the builder, the reviewer, the QA agent, the
    impact analyzer and the merge controller: in any round in which the
    model's text holds a final-answer block that decodes to a truthy object
    (for the builder, to a non-empty mapping), the run returns at once, with
    that object (for the builder, with the mapping minus [pr_url] and
    [pr_number]), and the round has called the model once and executed no
    tool, whatever else the text holds. *)
Theorem final_answer_first (a : agent) (n : nat)
    (current_prompt response_text text group1 : string) (st : state World)
    (w : World) (v : value) :
  In a [builder_agent; reviewer_agent; qa_agent; impact_analyzer_agent;
        merge_controller_agent] ->
  generate_content current_prompt (world st) = (Return (Parts text), w) ->
  PyStr.search_group "<final_answer>" "</final_answer>" text = Some group1 ->
  json_loads (PyStr.strip group1) = Decoded v ->
  Py.truthy v = true ->
  (a = builder_agent -> exists d, v = VDict d) ->
  exists result,
    iterate a (S n) current_prompt response_text st
      = (Return result, mk_state w (trace st ++ [Generate current_prompt]))
    /\ (a <> builder_agent -> result = v)
    /\ (a = builder_agent -> forall d, v = VDict d ->
          result = VDict (Py.dict_del "pr_number" (Py.dict_del "pr_url" d))).
Proof.
  intros Hin Hcall Hgroup Hdecoded Htruthy Hdict.
  assert (Hstyle : style a <> RetriedUnbound).
  { simpl in Hin. decompose [or] Hin; subst; try discriminate. contradiction. }
  pose proof (_parse_final_answer_decoded _ _ _ Hgroup Hdecoded) as Hparse.
  assert (Hround : forall result,
    react a current_prompt text (mk_state w (trace st ++ [Generate current_prompt]))
      = (Return (Finished result), mk_state w (trace st ++ [Generate current_prompt])) ->
    iterate a (S n) current_prompt response_text st
      = (Return result, mk_state w (trace st ++ [Generate current_prompt]))).
  { intros result Hreact. simpl. unfold bind.
    now rewrite (round_answered _ _ _ _ _ Hstyle Hcall), Hreact. }
  destruct (strips_pr_fields a) eqn:Hstrips.
  - assert (Ha : a = builder_agent).
    { simpl in Hin. decompose [or] Hin; subst; try discriminate;
        try reflexivity; contradiction. }
    destruct (Hdict Ha) as [d ->].
    exists (VDict (Py.dict_del "pr_number" (Py.dict_del "pr_url" d))).
    split; [|split].
    + apply Hround. unfold react, bind, lift, ret.
      rewrite Hparse, Htruthy, Hstrips.
      rewrite (discard_dict "pr_url"). simpl obind.
      now rewrite (discard_dict "pr_number").
    + intros Hne. now elim Hne.
    + intros _ d' Hd'. now inversion Hd'.
  - exists v. split; [|split].
    + apply Hround. unfold react, bind, lift, ret.
      now rewrite Hparse, Htruthy, Hstrips.
    + reflexivity.
    + intros ->. discriminate.
Qed.

(** ** Model failures *)

(** An agent that calls the model directly lets its exception through. *)
Lemma direct_agents_propagate (a : agent) (current_prompt : string)
    (st : state World) (e : exn) (w : World) :
  style a = Direct ->
  generate_content current_prompt (world st) = (Raise e, w) ->
  run_loop a current_prompt st
    = (Raise e, mk_state w (trace st ++ [Generate current_prompt])).
Proof.
  intros Hstyle Hcall. unfold run_loop. simpl. unfold bind.
  now rewrite (round_direct _ _ _ _ _ Hstyle Hcall).
Qed.

(** The builder turns an exception of the model into a failure result. *)
Lemma builder_reports_model_failure (current_prompt : string) (st : state World)
    (e : exn) (w : World) :
  generate_content current_prompt (world st) = (Raise e, w) ->
  exn_kind e <> ResourceExhausted ->
  BuilderAgent.run current_prompt st
    = (Return (VDict [("status", VStr "failure");
                      ("message",
                       VStr ("Builder Agent failed due to an unexpected error: "
                             ++ exn_str e));
                      ("local_changes_made", VBool false)]),
       mk_state w (trace st ++ [Generate current_prompt])).
Proof.
  intros Hcall Hkind.
  assert (Hround : round builder_agent current_prompt st
            = (Return (Finished (failure builder_agent
                                   (unexpected_message builder_agent e) "")),
               mk_state w (trace st ++ [Generate current_prompt]))).
  { unfold round. change (style builder_agent) with Retried. cbv iota.
    unfold bind, try_except, ret.
    rewrite (retry_other_kind _ _ _ _ Hcall Hkind).
    unfold Tenacity.retry_if_exception_type.
    destruct (exn_kind e); try reflexivity. now elim Hkind. }
  unfold BuilderAgent.run, run_loop, max_iterations.
  cbn [iterate]. unfold bind at 1. now rewrite Hround.
Qed.

(** The documentation agent raises in its first round, before any call. *)
Lemma documentation_agent_raises (current_prompt : string) (st : state World) :
  AutoDocumentationAgent.run_documentation current_prompt st
    = (Raise (mk_exn NameError "name 'google' is not defined"), st).
Proof. reflexivity. Qed.

End FinalAnswerFirst.

(** C5 at the merge controller: the text holds a final answer and, after
    it, a call of a registered tool. *)
Lemma final_answer_first_witness :
  exists result,
    iterate merge_controller_agent 10 "P" ""
      (start [says (final_answer_block (verdict_json "merged")
                    ++ tool_code_block insert_log_json)])
      = (Return result, mk_state [] [Generate "P"])
    /\ (merge_controller_agent <> builder_agent ->
          result = VDict [("merge_decision", VStr "merged")])
    /\ (merge_controller_agent = builder_agent ->
          forall d, VDict [("merge_decision", VStr "merged")] = VDict d ->
            result = VDict (Py.dict_del "pr_number" (Py.dict_del "pr_url" d))).
Proof.
  apply (final_answer_first merge_controller_agent 9 "P" ""
           (final_answer_block (verdict_json "merged") ++ tool_code_block insert_log_json)
           (verdict_json "merged")
           (start [says (final_answer_block (verdict_json "merged")
                         ++ tool_code_block insert_log_json)])
           [] (VDict [("merge_decision", VStr "merged")])).
  - do 4 right. left. reflexivity.
  - reflexivity.
  - reflexivity.
  - reflexivity.
  - reflexivity.
  - discriminate.
Defined.

(** C5, the claim as stated fails: the final-answer block [{}] is well
    formed and decodes, but the empty mapping is falsy, so the round goes on
    to the tool-call block and executes the tool; the run ends only with the
    next answer. *)
Lemma empty_final_answer_runs_tool :
  Json.loads "{}" = Decoded (VDict [])
  /\ BuilderAgent.run "P"
       (start [says (final_answer_block "{}" ++ tool_code_block insert_log_json);
               says (final_answer_block success_json)])
     = (Return (VDict [("status", VStr "success")]),
        mk_state []
          [Generate "P";
           ToolCall "MongoDB_InsertLog" (VDict []);
           Generate ("P" ++ tool_output_segment "MongoDB_InsertLog" "ok")]).
Proof. split; vm_compute; reflexivity. Qed.

(** C2 at the reviewer: the first model call is rate limited, and
    [run_review] raises. *)
Theorem reviewer_raises_on_model_failure :
  @ReviewerAgent.run_review unit (constant (Raise rate_limit)) "P" (mk_state tt [])
    = (Raise rate_limit, mk_state tt [Generate "P"]).
Proof. reflexivity. Qed.

(** The same model under the builder: three calls, and a failure result
    through the generic branch, since what the wrapper raises is a
    [RetryError]. *)
Lemma builder_reports_rate_limit :
  @BuilderAgent.run unit (constant (Raise rate_limit)) "P" (mk_state tt [])
    = (Return (VDict [("status", VStr "failure");
                      ("message",
                       VStr ("Builder Agent failed due to an unexpected error: "
                             ++ "RetryError[<Future state=finished raised ResourceExhausted>]"));
                      ("local_changes_made", VBool false)]),
       mk_state tt [Generate "P"; Sleep 4; Generate "P"; Sleep 4; Generate "P"]).
Proof. vm_compute. reflexivity. Qed.

(** The same model under the product manager: the handler raises. *)
Lemma product_manager_raises_on_model_failure :
  @ProductManagerAgent.process_comment unit (constant (Raise outage)) "P" (mk_state tt [])
    = (Raise (mk_exn NameError "name 'google' is not defined"),
       mk_state tt [Generate "P"]).
Proof. reflexivity. Qed.

(** ** The merge decision *)

Section MergeDecision.
Context {World : Type} `{Capabilities World}.
Import MergeFormula ConfidenceMergeControllerAgent.

Lemma contains_intro (needle before rest : string) :
  PyStr.contains needle (before ++ needle ++ rest) = true.
Proof.
  unfold PyStr.contains.
  pose proof (partition_complete needle before rest) as Hfound.
  now destruct (PyStr.partition needle (before ++ needle ++ rest)).
Qed.

Lemma contains_elim (needle s : string) :
  PyStr.contains needle s = true -> exists before rest, s = before ++ needle ++ rest.
Proof.
  unfold PyStr.contains.
  destruct (PyStr.partition needle s) as [[before rest]|] eqn:E; [|discriminate].
  intros _. exists before, rest. now apply partition_sound.
Qed.

Lemma contains_append_l (needle a b : string) :
  PyStr.contains needle a = true -> PyStr.contains needle (a ++ b) = true.
Proof.
  intros Ha. apply contains_elim in Ha as (before & rest & ->).
  rewrite !append_assoc. apply contains_intro.
Qed.

Lemma contains_append_r (needle a b : string) :
  PyStr.contains needle b = true -> PyStr.contains needle (a ++ b) = true.
Proof.
  intros Hb. apply contains_elim in Hb as (before & rest & ->).
  rewrite <- append_assoc. apply contains_intro.
Qed.

Lemma contains_concat (needle sep line : string) (lines : list string) :
  In line lines -> PyStr.contains needle line = true ->
  PyStr.contains needle (String.concat sep lines) = true.
Proof.
  intros Hin Hline.
  induction lines as [|x lines IH]; [contradiction|].
  destruct lines as [|y lines].
  - destruct Hin as [->|[]]. exact Hline.
  - change (String.concat sep (x :: y :: lines))
      with (x ++ sep ++ String.concat sep (y :: lines)).
    destruct Hin as [->|Hin].
    + now apply contains_append_l.
    + apply contains_append_r, contains_append_r. now apply IH.
Qed.

Lemma template_states_formula
    (tool_descriptions test_results review_feedback qa_report risk_score
     pr_details : string) :
  PyStr.contains formula_text
    (MERGE_CONTROLLER_PROMPT_TEMPLATE tool_descriptions test_results
       review_feedback qa_report risk_score pr_details) = true
  /\ PyStr.contains threshold_text
       (MERGE_CONTROLLER_PROMPT_TEMPLATE tool_descriptions test_results
          review_feedback qa_report risk_score pr_details) = true.
Proof.
  unfold MERGE_CONTROLLER_PROMPT_TEMPLATE. split.
  - apply (contains_concat _ _ ("   `" ++ formula_text ++ "`")).
    + do 16 right. left. reflexivity.
    + reflexivity.
  - apply (contains_concat _ _ ("3. " ++ threshold_text)).
    + do 21 right. left. reflexivity.
    + reflexivity.
Qed.

(** C1 (as amended).  The confidence formula and the threshold 0.85 are
    instructions written in the prompt that the merge controller sends to
    the model; the agent itself computes nothing: when the model's text
    holds a final answer that decodes to a truthy object, [run_merge_decision]
    returns that object as it is.  Taken over the rationals, the formula
    gives 0.9 at (1, 1, 1, 0), which is above 0.85; 0.6 at (1, 1, 1, 10),
    which is not; and at most 0.5, which is not, whenever tests_pass is 0
    and the other scores are in their ranges. *)
Theorem merge_decision_is_the_models :
  (forall tool_descriptions test_results review_feedback qa_report risk_score pr_details,
     PyStr.contains formula_text
       (MERGE_CONTROLLER_PROMPT_TEMPLATE tool_descriptions test_results
          review_feedback qa_report risk_score pr_details) = true
     /\ PyStr.contains threshold_text
          (MERGE_CONTROLLER_PROMPT_TEMPLATE tool_descriptions test_results
             review_feedback qa_report risk_score pr_details) = true)
  /\ (forall test_results review_feedback qa_report risk_score pr_details
             (st : state World) text w group1 v,
        let current_prompt :=
          MERGE_CONTROLLER_PROMPT_TEMPLATE
            (_format_tool_descriptions merge_controller_agent)
            test_results review_feedback qa_report risk_score pr_details in
        generate_content current_prompt (world st) = (Return (Parts text), w) ->
        PyStr.search_group "<final_answer>" "</final_answer>" text = Some group1 ->
        json_loads (PyStr.strip group1) = Decoded v ->
        Py.truthy v = true ->
        run_merge_decision test_results review_feedback qa_report risk_score
          pr_details st
          = (Return v, mk_state w (trace st ++ [Generate current_prompt])))
  /\ (confidence 1 1 1 0 == 0.9 /\ above_threshold (confidence 1 1 1 0))%Q
  /\ (confidence 1 1 1 10 == 0.6 /\ ~ above_threshold (confidence 1 1 1 10))%Q
  /\ (forall review_score qa_pass risk_score : Q,
        (0 <= review_score <= 1 -> 0 <= qa_pass <= 1 -> 0 <= risk_score <= 10 ->
         confidence 0 review_score qa_pass risk_score <= 0.5
         /\ ~ above_threshold (confidence 0 review_score qa_pass risk_score))%Q).
Proof.
  split; [|split; [|split; [|split]]].
  - intros. apply template_states_formula.
  - intros tr rf qa rs pr st text w group1 v current_prompt Hcall Hgroup Hdecoded Htruthy.
    unfold run_merge_decision, run_loop, max_iterations. fold current_prompt.
    cbn [iterate]. unfold bind at 1.
    rewrite (round_answered merge_controller_agent _ _ _ _ ltac:(discriminate) Hcall).
    unfold react, bind, lift, ret.
    now rewrite (_parse_final_answer_decoded _ _ _ Hgroup Hdecoded), Htruthy.
  - split; [reflexivity | unfold above_threshold; reflexivity].
  - split; [reflexivity | unfold above_threshold; intros Habove; discriminate Habove].
  - intros review_score qa_pass risk_score Hr Hq Hk.
    pose proof (confidence_failed_tests _ _ _ Hr Hq Hk) as Hle.
    split; [exact Hle|]. unfold above_threshold. intros Habove.
    apply (Qlt_irrefl 0.5). eapply Qlt_trans; [|eapply Qlt_le_trans; eauto].
    reflexivity.
Qed.

End MergeDecision.

(** C1 at passing results with no risk and a model that answers "merged",
    and at failed tests with the other scores at 1 and 5. *)
Lemma merge_decision_is_the_models_witness :
  ConfidenceMergeControllerAgent.run_merge_decision
    "tests passed" "approved" "no UI bugs detected" "0" "PR 1"
    (start [says (final_answer_block (verdict_json "merged"))])
    = (Return (VDict [("merge_decision", VStr "merged")]),
       mk_state []
         [Generate (ConfidenceMergeControllerAgent.MERGE_CONTROLLER_PROMPT_TEMPLATE
                      (_format_tool_descriptions merge_controller_agent)
                      "tests passed" "approved" "no UI bugs detected" "0" "PR 1")])
  /\ (MergeFormula.confidence 0 1 1 5 <= 0.5
      /\ ~ MergeFormula.above_threshold (MergeFormula.confidence 0 1 1 5))%Q.
Proof.
  split.
  - exact (proj1 (proj2 merge_decision_is_the_models)
             "tests passed" "approved" "no UI bugs detected" "0" "PR 1"
             (start [says (final_answer_block (verdict_json "merged"))])
             (final_answer_block (verdict_json "merged")) []
             (verdict_json "merged")
             (VDict [("merge_decision", VStr "merged")])
             eq_refl eq_refl eq_refl eq_refl).
  - apply (proj2 (proj2 (proj2 (proj2
             (@merge_decision_is_the_models (list (outcome response)) scripted))))).
    + split; unfold Qle; simpl; lia.
    + split; unfold Qle; simpl; lia.
    + split; unfold Qle; simpl; lia.
Defined.

(** C1, the claim as stated fails: on the same passing results with risk 0,
    for which the formula gives 0.9, the agent rejects when the model
    answers "rejected" and merges when it answers "merged"; the decision is
    the model's, not a function of the four inputs. *)
Lemma merge_decision_follows_model :
  let decide verdict :=
    fst (ConfidenceMergeControllerAgent.run_merge_decision
           "tests passed" "approved" "no UI bugs detected" "0" "PR 1"
           (start [says (final_answer_block (verdict_json verdict))])) in
  decide "rejected" = Return (VDict [("merge_decision", VStr "rejected")])
  /\ decide "merged" = Return (VDict [("merge_decision", VStr "merged")])
  /\ MergeFormula.above_threshold (MergeFormula.confidence 1 1 1 0).
Proof. repeat split; vm_compute; reflexivity. Qed.

(** ** At the edge of the wire format *)

(** A tool-call block that holds valid JSON other than an object: the
    decoded value has no [get], and [_parse_tool_code] raises. *)
Lemma _parse_tool_code_on_array :
  _parse_tool_code (tool_code_block "[1]")
    = Raise (mk_exn AttributeError "'list' object has no attribute 'get'").
Proof. reflexivity. Qed.

(** The exception leaves the run, in the builder as in the other agents. *)
Lemma builder_raises_on_array_tool_code :
  BuilderAgent.run "P" (start [says (tool_code_block "[1]")])
    = (Raise (mk_exn AttributeError "'list' object has no attribute 'get'"),
       mk_state [] [Generate "P"]).
Proof. reflexivity. Qed.

(** C4.  The tool-call parser is not total.  On a response whose
    tool-call block holds valid JSON that is not an object, the decoded
    value has no [get]: [_parse_tool_code] raises [AttributeError], which
    its [except json.JSONDecodeError] does not catch, and the exception
    leaves the round.  On the same JSON in a final-answer block the other
    parser returns the decoded value. *)
Theorem tool_code_parser_raises :
  _parse_tool_code (tool_code_block "[1]")
    = Raise (mk_exn AttributeError "'list' object has no attribute 'get'")
  /\ _parse_final_answer (final_answer_block "[1]") = Return (VList [VInt 1])
  /\ round reviewer_agent "P" (start [says (tool_code_block "[1]")])
     = (Raise (mk_exn AttributeError "'list' object has no attribute 'get'"),
        mk_state [] [Generate "P"]).
Proof. repeat split. Qed.

(** A tool-call block that names a tool the agent does not have is free
    text for the loop. *)
Lemma unknown_tool_is_free_text :
  let text := tool_code_block ("{" ++ quoted "tool_name" ++ ": " ++ quoted "rm" ++ "}") in
  round reviewer_agent "P" (start [says text])
    = (Return (Continue ("P" ++ thought_segment text) text),
       mk_state [] [Generate "P"]).
Proof. reflexivity. Qed.

(** The end-to-end scenario of the spec: a tool call answered in round one,
    the final answer in round two. *)
Lemma tool_then_final_answer :
  BuilderAgent.run "P"
    (start [says (tool_code_block insert_log_json);
            says (final_answer_block success_json)])
    = (Return (VDict [("status", VStr "success")]),
       mk_state []
         [Generate "P";
          ToolCall "MongoDB_InsertLog" (VDict []);
          Generate ("P" ++ tool_output_segment "MongoDB_InsertLog" "ok")]).
Proof. vm_compute. reflexivity. Qed.

(* ================================================================== *)
(** * Further properties of the loops *)

(** ** What a run can cost and which tools it can reach *)

Section Budget.
Context {World : Type} `{Capabilities World}.

Lemma tool_selected_registered (a : agent) (name : string) :
  tool_selected a (VStr name) = Return true -> registered a name.
Proof.
  unfold tool_selected, registered. destruct (Py.truthy (VStr name)); [|discriminate].
  simpl. intros Hsel. inversion Hsel as [Hex].
  apply existsb_exists in Hex as (x & Hin & Heq).
  apply String.eqb_eq in Heq. now subst.
Qed.

(** The second half of a round executes at most one tool, a registered one. *)
Lemma use_tool_trace (a : agent) (current_prompt text : string) (st : state World) :
  exists new,
    trace (snd (use_tool a current_prompt text st)) = (trace st ++ new)%list
    /\ prompts new = []
    /\ (List.length (tool_calls new) <= 1)%nat
    /\ Forall (registered a) (tool_calls new).
Proof.
  assert (Hnothing :
    exists new, trace st = (trace st ++ new)%list
                /\ prompts new = [] /\ (List.length (tool_calls new) <= 1)%nat
                /\ Forall (registered a) (tool_calls new)).
  { exists []. simpl. rewrite app_nil_r. repeat split; auto. }
  unfold use_tool, bind, lift, ret.
  destruct (_parse_tool_code text) as [[name params]|e]; simpl; [|exact Hnothing].
  destruct (tool_selected a name) as [selected|e] eqn:Hsel; [|exact Hnothing].
  destruct selected; [|destruct name; exact Hnothing].
  destruct name; try exact Hnothing.
  apply tool_selected_registered in Hsel.
  destruct (execute_tool_returns s params st) as (segment & st1 & -> & Hst1).
  destruct Hst1 as [->|(w & ->)]; simpl.
  - exact Hnothing.
  - exists [ToolCall s params]. simpl. repeat split; auto.
Qed.

Lemma react_trace (a : agent) (current_prompt text : string) (st : state World) :
  exists new,
    trace (snd (react a current_prompt text st)) = (trace st ++ new)%list
    /\ prompts new = []
    /\ (List.length (tool_calls new) <= 1)%nat
    /\ Forall (registered a) (tool_calls new).
Proof.
  assert (Hnothing :
    exists new, trace st = (trace st ++ new)%list
                /\ prompts new = [] /\ (List.length (tool_calls new) <= 1)%nat
                /\ Forall (registered a) (tool_calls new)).
  { exists []. simpl. rewrite app_nil_r. repeat split; auto. }
  unfold react, bind, lift, ret.
  destruct (_parse_final_answer text) as [final_answer|e]; [|exact Hnothing].
  destruct (Py.truthy final_answer); [|apply use_tool_trace].
  destruct (strips_pr_fields a); [|exact Hnothing].
  destruct (obind _ _); exact Hnothing.
Qed.

(** One round: at most [calls_per_round] model calls, all on the current
    prompt, and at most one tool, a registered one. *)
Lemma round_trace (a : agent) (current_prompt : string) (st : state World) :
  exists new,
    trace (snd (round a current_prompt st)) = (trace st ++ new)%list
    /\ (List.length (prompts new) <= calls_per_round a)%nat
    /\ (List.length (tool_calls new) <= 1)%nat
    /\ Forall (registered a) (tool_calls new).
Proof.
  assert (Hthen : forall (st1 : state World) new1 text,
    trace st1 = (trace st ++ new1)%list -> tool_calls new1 = [] ->
    (List.length (prompts new1) <= calls_per_round a)%nat ->
    exists new,
      trace (snd (react a current_prompt text st1)) = (trace st ++ new)%list
      /\ (List.length (prompts new) <= calls_per_round a)%nat
      /\ (List.length (tool_calls new) <= 1)%nat
      /\ Forall (registered a) (tool_calls new)).
  { intros st1 new1 text Htrace1 Htools1 Hlen1.
    destruct (react_trace a current_prompt text st1) as (new & Htrace & Hnone & Hone & Hreg).
    exists (new1 ++ new)%list. rewrite Htrace, Htrace1, <- app_assoc.
    rewrite prompts_app, tool_calls_app, Hnone, Htools1, app_nil_r. simpl.
    repeat split; auto. }
  unfold round, calls_per_round in *. destruct (style a).
  - unfold bind, lift. unfold llm_generate_content at 1.
    destruct (generate_content current_prompt (world st)) as [[[text|]|e] w]; simpl.
    + apply (Hthen _ [Generate current_prompt]); simpl; auto.
    + exists [Generate current_prompt]. simpl. repeat split; auto.
    + exists [Generate current_prompt]. simpl. repeat split; auto.
  - unfold bind, try_except, ret, _generate_content_with_retry, Tenacity.retry.
    destruct (Tenacity.attempts _ _ _ _ _ st) as [[r|e] st1] eqn:Hcall;
      apply attempts_trace in Hcall as (new1 & Htrace1 & Hlen1 & _ & Htools1).
    + destruct r as [text|]; now apply (Hthen _ new1).
    + destruct (Tenacity.retry_if_exception_type ResourceExhausted e); simpl;
        exists new1; rewrite Htools1; simpl; repeat split; auto.
  - exists []. simpl. rewrite app_nil_r. repeat split; auto.
Qed.

Lemma iterate_trace (a : agent) (n : nat) :
  forall (current_prompt response_text : string) (st : state World),
  exists new,
    trace (snd (iterate a n current_prompt response_text st)) = (trace st ++ new)%list
    /\ (List.length (prompts new) <= n * calls_per_round a)%nat
    /\ (List.length (tool_calls new) <= n)%nat
    /\ Forall (registered a) (tool_calls new).
Proof.
  induction n as [|n IH]; intros p t st; simpl.
  - exists []. rewrite app_nil_r. simpl. repeat split; auto.
  - unfold bind.
    destruct (round_trace a p st) as (new1 & Htrace1 & Hlen1 & Hone1 & Hreg1).
    destruct (round a p st) as [[[result|p' t']|e] st1]; simpl in *.
    + exists new1. repeat split; auto; lia.
    + destruct (IH p' t' st1) as (new2 & Htrace2 & Hlen2 & Hmany2 & Hreg2).
      exists (new1 ++ new2)%list. rewrite Htrace2, Htrace1, <- app_assoc.
      rewrite prompts_app, tool_calls_app, !length_app.
      repeat split; auto; try lia. now apply Forall_app.
    + exists new1. repeat split; auto; lia.
Qed.

(** X1.  An agent never executes a tool that is not in its own registry:
    whatever the model writes and however the run ends, every tool executed
    in a run is a key of [self.tools]. *)
Theorem only_registered_tools (a : agent) (current_prompt : string) (st : state World) :
  exists new,
    trace (snd (run_loop a current_prompt st)) = (trace st ++ new)%list
    /\ Forall (registered a) (tool_calls new).
Proof.
  destruct (iterate_trace a max_iterations current_prompt "" st)
    as (new & Htrace & _ & _ & Hreg).
  exists new. split; assumption.
Qed.

(** X2.  What a run can cost, whatever the model and the tools do: at most
    ten tool executions, and at most ten model calls for an agent that calls
    the model directly, thirty for the builder (three attempts in each of
    ten rounds). *)
Theorem run_budget (a : agent) (current_prompt : string) (st : state World) :
  exists new,
    trace (snd (run_loop a current_prompt st)) = (trace st ++ new)%list
    /\ (List.length (tool_calls new) <= 10)%nat
    /\ (List.length (prompts new) <= 10 * calls_per_round a)%nat
    /\ (style a = Direct -> List.length (prompts new) <= 10)%nat
    /\ (List.length (prompts new) <= 30)%nat.
Proof.
  destruct (iterate_trace a max_iterations current_prompt "" st)
    as (new & Htrace & Hcalls & Htools & _).
  exists new. unfold max_iterations in *.
  split; [assumption|]. split; [assumption|]. split; [assumption|].
  unfold calls_per_round in *. split.
  - intros Hstyle. rewrite Hstyle in Hcalls. lia.
  - destruct (style a); lia.
Qed.

End Budget.

(** ** Tools in a round *)

Section ToolRounds.
Context {World : Type} `{Capabilities World}.

Lemma registered_selected (a : agent) (name : string) :
  registered a name -> name <> EmptyString ->
  tool_selected a (VStr name) = Return true.
Proof.
  intros Hreg Hname. unfold tool_selected. simpl.
  destruct (String.eqb_spec name EmptyString) as [->|_]; [now elim Hname|].
  simpl. f_equal. apply existsb_exists. exists name. split; [exact Hreg|].
  apply String.eqb_refl.
Qed.

Lemma unregistered_not_selected (a : agent) (name : string) :
  ~ registered a name -> tool_selected a (VStr name) = Return false.
Proof.
  intros Hreg. unfold tool_selected.
  destruct (Py.truthy (VStr name)); [|reflexivity].
  simpl. f_equal. destruct (existsb (String.eqb name) (map fst (tools a))) eqn:E;
    [|reflexivity].
  apply existsb_exists in E as (x & Hin & Heq).
  apply String.eqb_eq in Heq. subst. now elim Hreg.
Qed.

(** X3.  A tool failure does not end the run.  In a round whose text holds
    no usable final answer and a call of a registered tool: when the decoded
    parameters are a mapping, the function is called once with them; if it
    returns, two newlines, "Tool Output for <name>:", a newline, the output
    and two newlines are appended to the prompt; if it raises, two newlines,
    "Tool Error for <name>: ", the text of the exception and two newlines
    are appended.  When the parameters are not a mapping, the function is
    not called (nothing is recorded, the world is unchanged) and the text of
    the [TypeError] of the call is appended in the same way.  In every case
    the loop goes on. *)
Theorem tool_result_fed_back (a : agent) (current_prompt text name : string)
    (params v : value) (st : state World) (w : World) :
  style a <> RetriedUnbound ->
  generate_content current_prompt (world st) = (Return (Parts text), w) ->
  _parse_final_answer text = Return v -> Py.truthy v = false ->
  _parse_tool_code text = Return (VStr name, params) ->
  registered a name -> name <> EmptyString ->
  ((exists d, params = VDict d) ->
     round a current_prompt st
       = (Return (Continue
                    (current_prompt
                     ++ match fst (tool_func name params w) with
                        | Return tool_output =>
                            PyStr.nl ++ PyStr.nl ++ "Tool Output for " ++ name ++ ":"
                              ++ PyStr.nl ++ tool_output ++ PyStr.nl ++ PyStr.nl
                        | Raise e =>
                            PyStr.nl ++ PyStr.nl ++ "Tool Error for " ++ name ++ ": "
                              ++ exn_str e ++ PyStr.nl ++ PyStr.nl
                        end)
                    text),
          mk_state (snd (tool_func name params w))
                   (trace st ++ [Generate current_prompt; ToolCall name params])))
  /\ ((forall d, params <> VDict d) ->
        round a current_prompt st
          = (Return (Continue
                       (current_prompt
                        ++ PyStr.nl ++ PyStr.nl ++ "Tool Error for " ++ name ++ ": "
                        ++ (function_str name
                            ++ " argument after ** must be a mapping, not "
                            ++ Py.type_name params)
                        ++ PyStr.nl ++ PyStr.nl)
                       text),
             mk_state w (trace st ++ [Generate current_prompt]))).
Proof.
  intros Hstyle Hcall Hfinal Hfalsy Hparse Hreg Hname.
  rewrite (round_answered _ _ _ _ _ Hstyle Hcall).
  rewrite (react_without_final_answer _ _ _ _ _ Hfinal Hfalsy).
  unfold use_tool, bind, lift, ret. rewrite Hparse. simpl fst. simpl snd.
  rewrite (registered_selected _ _ Hreg Hname).
  unfold execute_tool, tool_output_segment, tool_error_segment, not_a_mapping.
  change (world (mk_state w (trace st ++ [Generate current_prompt]))) with w.
  change (trace (mk_state w (trace st ++ [Generate current_prompt])))
    with (trace st ++ [Generate current_prompt])%list.
  split.
  - intros (d & ->). simpl.
    destruct (tool_func name (VDict d) w) as [[tool_output|e] w']; simpl;
      rewrite <- app_assoc; reflexivity.
  - intros Hother. destruct params; try reflexivity. now elim (Hother d).
Qed.

(** X4.  A call of a tool that the agent does not have is not an error and
    calls nothing: two newlines, "LLM Thought/Response:", a newline, the
    whole response and two newlines are appended to the prompt, and the
    loop goes on. *)
Theorem unknown_tool_ignored (a : agent) (current_prompt text name : string)
    (params v : value) (st : state World) (w : World) :
  style a <> RetriedUnbound ->
  generate_content current_prompt (world st) = (Return (Parts text), w) ->
  _parse_final_answer text = Return v -> Py.truthy v = false ->
  _parse_tool_code text = Return (VStr name, params) ->
  ~ registered a name ->
  round a current_prompt st
    = (Return (Continue
                 (current_prompt ++ PyStr.nl ++ PyStr.nl ++ "LLM Thought/Response:"
                    ++ PyStr.nl ++ text ++ PyStr.nl ++ PyStr.nl)
                 text),
       mk_state w (trace st ++ [Generate current_prompt])).
Proof.
  intros Hstyle Hcall Hfinal Hfalsy Hparse Hreg.
  rewrite (round_answered _ _ _ _ _ Hstyle Hcall).
  rewrite (react_without_final_answer _ _ _ _ _ Hfinal Hfalsy).
  exact (use_tool_without_tool _ _ _ _ _ _ Hparse (unregistered_not_selected _ _ Hreg)).
Qed.

(** X5.  A response with a candidate and without parts is not an error for
    the builder and for the product manager: it uses up one round.  The
    builder appends the free-text segment of the empty text (two newlines,
    "LLM Thought/Response:" and three newlines); the product manager
    appends two newlines and "Error: LLM did not return any text. Please
    provide a valid JSON output.". *)
Theorem empty_response_costs_a_round (current_prompt : string) (st : state World)
    (w : World) :
  generate_content current_prompt (world st) = (Return NoParts, w) ->
  round builder_agent current_prompt st
    = (Return (Continue
                 (current_prompt ++ PyStr.nl ++ PyStr.nl ++ "LLM Thought/Response:"
                    ++ PyStr.nl ++ PyStr.nl ++ PyStr.nl)
                 ""),
       mk_state w (trace st ++ [Generate current_prompt]))
  /\ pm_round current_prompt st
     = (Return (Continue
                  (current_prompt ++ PyStr.nl ++ PyStr.nl
                     ++ "Error: LLM did not return any text. Please provide a valid JSON output.")
                  ""),
        mk_state w (trace st ++ [Generate current_prompt])).
Proof.
  intros Hcall. split.
  - rewrite (round_retried builder_agent _ _ _ _ eq_refl Hcall). reflexivity.
  - unfold pm_round, bind, try_except, _generate_content_with_retry, Tenacity.retry.
    simpl. now rewrite (llm_generate_content_eq _ _ _ _ Hcall).
Qed.

(** The wrapper never lets a [ResourceExhausted] out. *)
Lemma attempts_never_rate_limited (wait : Z -> Z) (prompt : string) (remaining : nat) :
  forall (attempt_number : Z) (st st' : state World) (e : exn),
    Tenacity.attempts wait (Tenacity.retry_if_exception_type ResourceExhausted)
      remaining attempt_number (llm_generate_content prompt) st = (Raise e, st') ->
    exn_kind e <> ResourceExhausted.
Proof.
  induction remaining as [|k IH]; intros n st st' e; simpl;
    destruct (llm_generate_content prompt st) as [[r|e0] st1]; try discriminate;
    destruct (Tenacity.retry_if_exception_type ResourceExhausted e0) eqn:Hretry.
  - intros Hrun; inversion Hrun; subst. discriminate.
  - intros Hrun; inversion Hrun; subst.
    unfold Tenacity.retry_if_exception_type in Hretry.
    intros Hkind. rewrite Hkind in Hretry. discriminate.
  - apply IH.
  - intros Hrun; inversion Hrun; subst.
    unfold Tenacity.retry_if_exception_type in Hretry.
    intros Hkind. rewrite Hkind in Hretry. discriminate.
Qed.

(** X6.  The builder's branch for quota exhaustion is never taken: what the
    retry wrapper raises is never a [ResourceExhausted] (after the third
    attempt it is tenacity's [RetryError]), so every failure of the model
    call, rate limiting included, comes back as the failure result of the
    generic branch, with the message "failed due to an unexpected error". *)
Theorem builder_quota_branch_dead (current_prompt : string) (st st' : state World)
    (e : exn) :
  _generate_content_with_retry current_prompt st = (Raise e, st') ->
  exn_kind e <> ResourceExhausted
  /\ round builder_agent current_prompt st
     = (Return (Finished
                  (VDict [("status", VStr "failure");
                          ("message",
                           VStr ("Builder Agent failed due to an unexpected error: "
                                 ++ exn_str e));
                          ("local_changes_made", VBool false)])),
        st').
Proof.
  intros Hcall.
  assert (Hkind : exn_kind e <> ResourceExhausted).
  { unfold _generate_content_with_retry, Tenacity.retry in Hcall.
    exact (attempts_never_rate_limited _ _ _ _ _ _ _ Hcall). }
  split; [exact Hkind|].
  unfold round. change (style builder_agent) with Retried. cbv iota.
  unfold bind, try_except, ret. rewrite Hcall.
  unfold Tenacity.retry_if_exception_type.
  destruct (exn_kind e); try reflexivity. now elim Hkind.
Qed.

End ToolRounds.

(** X3 at the reviewer: the same tool call against tools that work and
    against tools that fail, and a call whose parameters are a list. *)
Lemma tool_result_fed_back_witness :
  round reviewer_agent "P" (start [says (tool_code_block insert_log_json)])
    = (Return (Continue ("P" ++ PyStr.nl ++ PyStr.nl
                           ++ "Tool Output for MongoDB_InsertLog:" ++ PyStr.nl
                           ++ "ok" ++ PyStr.nl ++ PyStr.nl)
                        (tool_code_block insert_log_json)),
       mk_state [] [Generate "P"; ToolCall "MongoDB_InsertLog" (VDict [])])
  /\ @round _ Fixtures.broken_tools reviewer_agent "P"
       (start [says (tool_code_block insert_log_json)])
     = (Return (Continue ("P" ++ PyStr.nl ++ PyStr.nl
                            ++ "Tool Error for MongoDB_InsertLog: disk full"
                            ++ PyStr.nl ++ PyStr.nl)
                         (tool_code_block insert_log_json)),
        mk_state [] [Generate "P"; ToolCall "MongoDB_InsertLog" (VDict [])])
  /\ round reviewer_agent "P" (start [says (tool_code_block Fixtures.insert_log_list_json)])
     = (Return (Continue
                  ("P" ++ PyStr.nl ++ PyStr.nl
                     ++ "Tool Error for MongoDB_InsertLog: tools.MongoDB_InsertLog() argument after ** must be a mapping, not list"
                     ++ PyStr.nl ++ PyStr.nl)
                  (tool_code_block Fixtures.insert_log_list_json)),
        mk_state [] [Generate "P"]).
Proof.
  split; [|split].
  - exact (proj1 (tool_result_fed_back reviewer_agent "P"
                    (tool_code_block insert_log_json)
                    "MongoDB_InsertLog" (VDict []) VNone
                    (start [says (tool_code_block insert_log_json)]) []
                    ltac:(discriminate) eq_refl eq_refl eq_refl eq_refl
                    (or_intror (or_intror (or_introl eq_refl))) ltac:(discriminate))
                 (ex_intro _ [] eq_refl)).
  - exact (proj1 (@tool_result_fed_back _ Fixtures.broken_tools reviewer_agent "P"
                    (tool_code_block insert_log_json)
                    "MongoDB_InsertLog" (VDict []) VNone
                    (start [says (tool_code_block insert_log_json)]) []
                    ltac:(discriminate) eq_refl eq_refl eq_refl eq_refl
                    (or_intror (or_intror (or_introl eq_refl))) ltac:(discriminate))
                 (ex_intro _ [] eq_refl)).
  - exact (proj2 (tool_result_fed_back reviewer_agent "P"
                    (tool_code_block Fixtures.insert_log_list_json)
                    "MongoDB_InsertLog" (VList [VInt 1]) VNone
                    (start [says (tool_code_block Fixtures.insert_log_list_json)]) []
                    ltac:(discriminate) eq_refl eq_refl eq_refl eq_refl
                    (or_intror (or_intror (or_introl eq_refl))) ltac:(discriminate))
                 ltac:(discriminate)).
Defined.

(** X4 at the reviewer, asked to run a shell. *)
Lemma unknown_tool_ignored_witness :
  round reviewer_agent "P" (start [says (tool_code_block Fixtures.shell_json)])
    = (Return (Continue ("P" ++ PyStr.nl ++ PyStr.nl ++ "LLM Thought/Response:"
                           ++ PyStr.nl ++ tool_code_block Fixtures.shell_json
                           ++ PyStr.nl ++ PyStr.nl)
                        (tool_code_block Fixtures.shell_json)),
       mk_state [] [Generate "P"]).
Proof.
  refine (unknown_tool_ignored reviewer_agent "P" (tool_code_block Fixtures.shell_json)
            "Shell_Run" (VDict []) VNone
            (start [says (tool_code_block Fixtures.shell_json)]) []
            ltac:(discriminate) eq_refl eq_refl eq_refl eq_refl _).
  unfold registered. simpl.
  intros [Hin|[Hin|[Hin|[]]]]; discriminate Hin.
Defined.

(** X5 against a model that answers without text. *)
Lemma empty_response_costs_a_round_witness :
  round builder_agent "P" (start [Return NoParts])
    = (Return (Continue ("P" ++ PyStr.nl ++ PyStr.nl ++ "LLM Thought/Response:"
                           ++ PyStr.nl ++ PyStr.nl ++ PyStr.nl) ""),
       mk_state [] [Generate "P"])
  /\ pm_round "P" (start [Return NoParts])
     = (Return (Continue
                  ("P" ++ PyStr.nl ++ PyStr.nl
                     ++ "Error: LLM did not return any text. Please provide a valid JSON output.")
                  ""),
        mk_state [] [Generate "P"]).
Proof. exact (empty_response_costs_a_round "P" (start [Return NoParts]) [] eq_refl). Defined.

(** X6 against a model that is always rate limited. *)
Lemma builder_quota_branch_dead_witness :
  exn_kind (Tenacity.retry_error rate_limit) <> ResourceExhausted
  /\ @round unit (constant (Raise rate_limit)) builder_agent "P" (mk_state tt [])
     = (Return (Finished
                  (VDict [("status", VStr "failure");
                          ("message",
                           VStr ("Builder Agent failed due to an unexpected error: "
                                 ++ exn_str (Tenacity.retry_error rate_limit)));
                          ("local_changes_made", VBool false)])),
        mk_state tt [Generate "P"; Sleep 4; Generate "P"; Sleep 4; Generate "P"]).
Proof.
  exact (@builder_quota_branch_dead unit (constant (Raise rate_limit)) "P"
           (mk_state tt [])
           (mk_state tt [Generate "P"; Sleep 4; Generate "P"; Sleep 4; Generate "P"])
           (Tenacity.retry_error rate_limit) eq_refl).
Defined.

(** ** The product-manager intake loop *)

Section Intake.
Context {World : Type} `{Capabilities World}.

Lemma retry_first_try (prompt_text : string) (st : state World) (r : response)
    (w : World) :
  generate_content prompt_text (world st) = (Return r, w) ->
  _generate_content_with_retry prompt_text st
    = (Return r, mk_state w (trace st ++ [Generate prompt_text])).
Proof.
  intros Hcall. unfold _generate_content_with_retry, Tenacity.retry. simpl.
  now rewrite (llm_generate_content_eq _ _ _ _ Hcall).
Qed.

(** X7.  The intake loop accepts whatever JSON the [<json_output>] block
    holds: as soon as a response has such a block that decodes, the run
    returns success with the decoded value as [output], be it an empty
    mapping, a list or a number; no key of the ticket is checked and,
    unlike the agents' final answer, the value is not tested for truth. *)
Theorem intake_accepts_any_json (n : nat) (prompt text group1 : string)
    (structured_output : value) (st : state World) (w : World) :
  generate_content prompt (world st) = (Return (Parts text), w) ->
  PyStr.search_group "<json_output>" "</json_output>" text = Some group1 ->
  json_loads (PyStr.strip group1) = Decoded structured_output ->
  pm_iterate (S n) prompt st
    = (Return (VDict [("status", VStr "success"); ("output", structured_output)]),
       mk_state w (trace st ++ [Generate prompt])).
Proof.
  intros Hcall Hgroup Hdecoded. simpl.
  unfold bind at 1. unfold pm_round, bind, try_except.
  rewrite (retry_first_try _ _ _ _ Hcall).
  now rewrite Hgroup, Hdecoded.
Qed.

(** A round on a response that holds no ticket appends one note. *)
Lemma pm_round_unusable (prompt : string) (st : state World) (r : response)
    (w : World) :
  generate_content prompt (world st) = (Return r, w) ->
  pm_unusable r ->
  exists note t,
    pm_round prompt st
      = (Return (Continue (prompt ++ note) t),
         mk_state w (trace st ++ [Generate prompt])).
Proof.
  intros Hcall Hbad. unfold pm_round, bind, try_except.
  rewrite (retry_first_try _ _ _ _ Hcall).
  destruct r as [text|]; [|now eexists _, _].
  destruct Hbad as [Hnone | (group1 & msg & Hsome & Hinvalid)].
  - rewrite Hnone. now eexists _, _.
  - rewrite Hsome, Hinvalid. now eexists _, _.
Qed.

Lemma pm_iterate_unusable :
  never_a_ticket ->
  forall (n : nat) (prompt : string) (st : state World),
  exists sent st',
    pm_iterate n prompt st
      = (Return (VDict [("status", VStr "failure");
                        ("message",
                         VStr "Product Manager Agent failed to generate valid JSON after multiple attempts.")]),
         st')
    /\ trace st' = (trace st ++ map Generate sent)%list
    /\ List.length sent = n
    /\ chain prompt sent.
Proof.
  intros Hmodel. induction n as [|n IH]; intros p st.
  - exists [], st. simpl. rewrite app_nil_r. repeat split; reflexivity.
  - destruct (Hmodel p (world st)) as (r & w & Hcall & Hbad).
    destruct (pm_round_unusable _ _ _ _ Hcall Hbad) as (note & t & Hround).
    destruct (IH (p ++ note) (mk_state w (trace st ++ [Generate p])))
      as (sent & st' & Hrun & Htrace & Hlen & Hchain).
    exists (p :: sent), st'. split; [|split; [|split]].
    + simpl. unfold bind at 1. now rewrite Hround.
    + rewrite Htrace. simpl. now rewrite <- app_assoc.
    + simpl. now rewrite Hlen.
    + simpl. split; [apply prefix_refl|].
      exact (chain_weaken _ _ _ (prefix_append p note) Hchain).
Qed.

(** X8.  The intake loop gives up after three rounds.  In a run whose
    three model calls are each answered by a response that holds no ticket
    (no text; or no [<json_output>] block; or a block whose content the
    decoder rejects with [JSONDecodeError]), [process_comment] calls the
    model exactly three times, each time on the previous prompt followed by
    the note for the answer it got, sleeps for nothing, and returns the
    failure result.  The notes are, after two newlines: "Error: LLM did not
    return any text. ..." for a response without text, "Error: JSON output
    not enclosed in <json_output> tags. ..." for a text without a block,
    and "Error: Invalid JSON format. ... Error: <decoder message>", a
    newline and "Invalid JSON: <the stripped content>" for a rejected
    block. *)
Theorem intake_gives_up_after_three (prompt : string) (st : state World)
    (r1 r2 r3 : response) (w1 w2 w3 : World) :
  let note := fun r =>
    match r with
    | NoParts =>
        PyStr.nl ++ PyStr.nl
          ++ "Error: LLM did not return any text. Please provide a valid JSON output."
    | Parts text =>
        match PyStr.search_group "<json_output>" "</json_output>" text with
        | None =>
            PyStr.nl ++ PyStr.nl
              ++ "Error: JSON output not enclosed in <json_output> tags. Please use the specified format."
        | Some group1 =>
            match json_loads (PyStr.strip group1) with
            | JSONDecodeError msg =>
                PyStr.nl ++ PyStr.nl
                  ++ "Error: Invalid JSON format. Please ensure the output is valid JSON. Error: "
                  ++ msg ++ PyStr.nl ++ "Invalid JSON: " ++ PyStr.strip group1
            | _ => EmptyString
            end
        end
    end in
  pm_unusable r1 -> pm_unusable r2 -> pm_unusable r3 ->
  generate_content prompt (world st) = (Return r1, w1) ->
  generate_content (prompt ++ note r1) w1 = (Return r2, w2) ->
  generate_content ((prompt ++ note r1) ++ note r2) w2 = (Return r3, w3) ->
  ProductManagerAgent.process_comment prompt st
    = (Return (VDict [("status", VStr "failure");
                      ("message",
                       VStr "Product Manager Agent failed to generate valid JSON after multiple attempts.")]),
       mk_state w3
         (trace st ++ [Generate prompt;
                       Generate (prompt ++ note r1);
                       Generate ((prompt ++ note r1) ++ note r2)])).
Proof.
  intros note Hbad1 Hbad2 Hbad3 Hcall1 Hcall2 Hcall3.
  assert (Hround : forall (p : string) (w0 : World) (tr : list event)
                          (r : response) (w : World),
    generate_content p w0 = (Return r, w) -> pm_unusable r ->
    exists t,
      pm_round p (mk_state w0 tr)
        = (Return (Continue (p ++ note r) t), mk_state w (tr ++ [Generate p]))).
  { intros p w0 tr r w Hcall Hbad. unfold pm_round, bind, try_except.
    rewrite (retry_first_try _ (mk_state w0 tr) _ _ Hcall). unfold note.
    destruct r as [text|]; [|now eexists].
    destruct Hbad as [Hnone | (group1 & msg & Hsome & Hinvalid)].
    - rewrite Hnone. now eexists.
    - rewrite Hsome, Hinvalid. now eexists. }
  unfold ProductManagerAgent.process_comment, ProductManagerAgent.max_iterations.
  destruct st as [w0 tr]. cbn [world trace] in *.
  destruct (Hround _ _ tr _ _ Hcall1 Hbad1) as (t1 & Hround1).
  destruct (Hround _ _ (tr ++ [Generate prompt])%list _ _ Hcall2 Hbad2)
    as (t2 & Hround2).
  destruct (Hround _ _ ((tr ++ [Generate prompt])
                          ++ [Generate (prompt ++ note r1)])%list _ _ Hcall3 Hbad3)
    as (t3 & Hround3).
  cbn [pm_iterate]. unfold bind.
  rewrite Hround1. cbv beta iota. rewrite Hround2. cbv beta iota.
  rewrite Hround3. cbv beta iota. unfold ret.
  now rewrite <- !app_assoc.
Qed.

Lemma pm_round_trace (prompt : string) (st : state World) :
  exists new,
    trace (snd (pm_round prompt st)) = (trace st ++ new)%list
    /\ (List.length (prompts new) <= 3)%nat
    /\ tool_calls new = [].
Proof.
  unfold pm_round, bind, try_except, ret, raise,
    _generate_content_with_retry, Tenacity.retry.
  destruct (Tenacity.attempts _ _ _ _ _ st) as [[r|e] st1] eqn:Hcall;
    apply attempts_trace in Hcall as (new1 & Htrace1 & Hlen1 & _ & Htools1);
    exists new1.
  - destruct r as [text|]; [|now simpl].
    destruct (PyStr.search_group _ _ text) as [group1|]; [|now simpl].
    destruct (json_loads _); now simpl.
  - now simpl.
Qed.

Lemma pm_iterate_trace (n : nat) :
  forall (prompt : string) (st : state World),
  exists new,
    trace (snd (pm_iterate n prompt st)) = (trace st ++ new)%list
    /\ (List.length (prompts new) <= 3 * n)%nat
    /\ tool_calls new = [].
Proof.
  induction n as [|n IH]; intros p st0; simpl.
  - exists []. rewrite app_nil_r. simpl. repeat split; auto.
  - unfold bind.
    destruct (pm_round_trace p st0) as (new1 & Htrace1 & Hlen1 & Htools1).
    destruct (pm_round p st0) as [[[result|p' t']|e] st1]; simpl in *.
    + exists new1. repeat split; auto; lia.
    + destruct (IH p' st1) as (new2 & Htrace2 & Hlen2 & Htools2).
      exists (new1 ++ new2)%list. rewrite Htrace2, Htrace1, <- app_assoc.
      rewrite prompts_app, tool_calls_app, length_app, Htools1, Htools2.
      repeat split; auto; lia.
    + exists new1. repeat split; auto; lia.
Qed.

(** X9.  What an intake run can cost, whatever the model does: at most
    nine model calls (three attempts in each of three rounds), and no tool
    is ever executed. *)
Theorem intake_budget (prompt : string) (st : state World) :
  exists new,
    trace (snd (ProductManagerAgent.process_comment prompt st)) = (trace st ++ new)%list
    /\ (List.length (prompts new) <= 9)%nat
    /\ tool_calls new = [].
Proof.
  unfold ProductManagerAgent.process_comment, ProductManagerAgent.max_iterations.
  destruct (pm_iterate_trace 3%nat prompt st) as (new & Htrace & Hlen & Htools).
  exists new. repeat split; auto; lia.
Qed.

End Intake.

(** X7 at a response whose block holds the empty mapping. *)
Lemma intake_accepts_any_json_witness :
  ProductManagerAgent.process_comment "P"
    (start [says (Fixtures.json_output_block "{}")])
    = (Return (VDict [("status", VStr "success"); ("output", VDict [])]),
       mk_state [] [Generate "P"]).
Proof.
  exact (intake_accepts_any_json 2 "P" (Fixtures.json_output_block "{}") "{}"
           (VDict []) (start [says (Fixtures.json_output_block "{}")]) []
           eq_refl eq_refl eq_refl).
Defined.

(** X8 against a model that answers without text, then without a block,
    then with a block of broken JSON. *)
Lemma intake_gives_up_after_three_witness :
  ProductManagerAgent.process_comment "P"
    (start [Return NoParts; says "Sure, here it is.";
            says (Fixtures.json_output_block "{bad"); says "too late"])
    = (Return (VDict [("status", VStr "failure");
                      ("message",
                       VStr "Product Manager Agent failed to generate valid JSON after multiple attempts.")]),
       mk_state [says "too late"]
         ([] ++ [Generate "P";
                 Generate ("P" ++ PyStr.nl ++ PyStr.nl
                             ++ "Error: LLM did not return any text. Please provide a valid JSON output.");
                 Generate (("P" ++ PyStr.nl ++ PyStr.nl
                              ++ "Error: LLM did not return any text. Please provide a valid JSON output.")
                             ++ PyStr.nl ++ PyStr.nl
                             ++ "Error: JSON output not enclosed in <json_output> tags. Please use the specified format.")])).
Proof.
  refine (intake_gives_up_after_three "P"
            (start [Return NoParts; says "Sure, here it is.";
                    says (Fixtures.json_output_block "{bad"); says "too late"])
            NoParts (Parts "Sure, here it is.")
            (Parts (Fixtures.json_output_block "{bad"))
            [says "Sure, here it is."; says (Fixtures.json_output_block "{bad");
             says "too late"]
            [says (Fixtures.json_output_block "{bad"); says "too late"]
            [says "too late"]
            I _ _ eq_refl eq_refl eq_refl).
  - left. reflexivity.
  - right. eexists _, _. split; reflexivity.
Defined.

(** ** The tagged blocks *)

Section Blocks.
Import PyStr.

Lemma partition_none_contains (sep s : string) :
  contains sep s = false <-> partition sep s = None.
Proof.
  unfold contains. destruct (partition sep s); split; intros; congruence.
Qed.

Lemma strip_prefix_append (p s rest extra : string) :
  strip_prefix p s = Some rest -> strip_prefix p (s ++ extra) = Some (rest ++ extra).
Proof.
  intros Hp. apply strip_prefix_sound in Hp as ->.
  rewrite append_assoc. apply strip_prefix_complete.
Qed.

(** What [partition] leaves before the separator does not contain it. *)
Lemma partition_before_free (sep : string) :
  sep <> EmptyString ->
  forall s before rest,
    partition sep s = Some (before, rest) -> contains sep before = false.
Proof.
  intros Hsep.
  assert (Hempty : contains sep EmptyString = false).
  { destruct sep; [now elim Hsep | reflexivity]. }
  induction s as [|c s IH]; intros before rest Hp; simpl in Hp.
  - destruct (strip_prefix sep EmptyString); [|discriminate].
    now inversion Hp; subst.
  - destruct (strip_prefix sep (String c s)) eqn:Hhere.
    + now inversion Hp; subst.
    + destruct (partition sep s) as [[b r]|] eqn:Hlater; [|discriminate].
      inversion Hp; subst.
      pose proof (IH _ _ eq_refl) as Hb. apply partition_none_contains in Hb.
      apply partition_none_contains. simpl. rewrite Hb.
      destruct (strip_prefix sep (String c b)) eqn:Hshort; [|reflexivity].
      apply partition_sound in Hlater. subst s.
      apply (strip_prefix_append _ _ _ (sep ++ rest)) in Hshort.
      simpl in Hshort, Hhere. congruence.
Qed.

(** A prefix of a concatenation either ends in the first part or runs over
    it. *)
Lemma strip_prefix_split (p : string) :
  forall u v r,
    strip_prefix p (u ++ v) = Some r ->
    (exists u', strip_prefix p u = Some u')
    \/ (exists p', p = u ++ p' /\ strip_prefix p' v = Some r).
Proof.
  induction p as [|a p IH]; intros u v r Hp.
  - left. destruct u; now eexists.
  - destruct u as [|b u].
    + right. exists (String a p). split; [reflexivity | exact Hp].
    + simpl in Hp. destruct (Ascii.eqb_spec a b) as [->|]; [|discriminate].
      destruct (IH _ _ _ Hp) as [[u' Hu] | (p' & -> & Hv)].
      * left. exists u'. simpl. now rewrite Ascii.eqb_refl.
      * right. exists p'. split; [reflexivity | exact Hv].
Qed.

Lemma all_chars_middle (p : ascii -> bool) (u v : string) (y : ascii) :
  all_chars p (u ++ String y v) = true -> p y = true.
Proof.
  induction u as [|x u IH]; simpl; intros Hall;
    apply andb_true_iff in Hall as [Hx Hrest]; auto.
Qed.

Lemma contains_cons_false (sep : string) (x : ascii) (b : string) :
  contains sep (String x b) = false ->
  strip_prefix sep (String x b) = None /\ contains sep b = false.
Proof.
  unfold contains. simpl.
  destruct (strip_prefix sep (String x b)); [discriminate|].
  destruct (partition sep b) as [[b' r']|]; [discriminate|]. now split.
Qed.

Lemma partition_cons (sep : string) (x : ascii) (s before rest : string) :
  strip_prefix sep (String x s) = None ->
  partition sep s = Some (before, rest) ->
  partition sep (String x s) = Some (String x before, rest).
Proof. intros Hhere Hlater. simpl. now rewrite Hhere, Hlater. Qed.

(** For a separator whose first character occurs nowhere else in it, an
    occurrence that follows a text free of the separator is the first one. *)
Lemma partition_first (c : ascii) (tail before rest : string) :
  all_chars (fun x => negb (Ascii.eqb x c)) tail = true ->
  contains (String c tail) before = false ->
  partition (String c tail) (before ++ String c tail ++ rest) = Some (before, rest).
Proof.
  intros Htail.
  induction before as [|x b IH]; intros Hfree.
  - change (EmptyString ++ String c tail ++ rest) with (String c tail ++ rest).
    apply partition_at_prefix, strip_prefix_complete.
  - apply contains_cons_false in Hfree as [Hshort Hb]. specialize (IH Hb).
    change (String x b ++ String c tail ++ rest)
      with (String x (b ++ String c tail ++ rest)).
    apply partition_cons; [|exact IH].
    destruct (strip_prefix (String c tail) (String x (b ++ String c tail ++ rest)))
      eqn:Hlong; [|reflexivity].
    exfalso.
    change (String x (b ++ String c tail ++ rest))
      with (String x b ++ (String c tail ++ rest)) in Hlong.
    apply strip_prefix_split in Hlong as [[u' Hu] | (p' & Hsplit & Hover)].
    + congruence.
    + destruct p' as [|y p'].
      * rewrite append_empty_r in Hsplit. rewrite <- Hsplit in Hshort.
        pose proof (strip_prefix_complete (String c tail) EmptyString) as Hself.
        rewrite append_empty_r in Hself. congruence.
      * simpl in Hover.
        destruct (Ascii.eqb_spec y c) as [->|]; [|discriminate].
        simpl in Hsplit. injection Hsplit as Hx Htl.
        rewrite Htl in Htail. apply all_chars_middle in Htail.
        cbv beta in Htail. now rewrite Ascii.eqb_refl in Htail.
Qed.

(** X10.  What [re.search] hands to the decoder.  When a block is found,
    the text is made of a part without the opening tag, the opening tag,
    the group, the closing tag and a rest, and the group does not contain
    the closing tag: the match starts at the first opening tag and stops at
    the first closing tag after it. *)
Theorem search_group_first_and_shortest (open close text group1 : string) :
  open <> EmptyString -> close <> EmptyString ->
  search_group open close text = Some group1 ->
  exists before rest,
    text = before ++ open ++ group1 ++ close ++ rest
    /\ contains open before = false
    /\ contains close group1 = false.
Proof.
  intros Hopen Hclose. unfold search_group.
  destruct (partition open text) as [[before tail]|] eqn:Hfirst; [|discriminate].
  destruct (partition close tail) as [[inner rest]|] eqn:Hsecond; [|discriminate].
  intros Hgroup; inversion Hgroup; subst.
  exists before, rest. split; [|split].
  - apply partition_sound in Hfirst, Hsecond. now subst.
  - exact (partition_before_free _ Hopen _ _ _ Hfirst).
  - exact (partition_before_free _ Hclose _ _ _ Hsecond).
Qed.

Lemma search_group_reads (c d : ascii) (otail ctail before inner rest : string) :
  all_chars (fun x => negb (Ascii.eqb x c)) otail = true ->
  all_chars (fun x => negb (Ascii.eqb x d)) ctail = true ->
  contains (String c otail) before = false ->
  contains (String d ctail) inner = false ->
  search_group (String c otail) (String d ctail)
    (before ++ String c otail ++ inner ++ String d ctail ++ rest) = Some inner.
Proof.
  intros Ho Hc Hbefore Hinner. unfold search_group.
  rewrite (partition_first _ _ _ _ Ho Hbefore).
  now rewrite (partition_first _ _ _ _ Hc Hinner).
Qed.

(** X11.  The wire format is read back, and only the first block counts.
    For each of the three tag pairs of the program: in a text made of a
    part without the opening tag, a block, and any rest (further blocks
    included), the group that is found is the content of that first block,
    provided the content does not itself contain the closing tag. *)
Theorem first_block_is_read (before inner rest : string) :
  (contains "<final_answer>" before = false ->
   contains "</final_answer>" inner = false ->
   search_group "<final_answer>" "</final_answer>"
     (before ++ "<final_answer>" ++ inner ++ "</final_answer>" ++ rest) = Some inner)
  /\ (contains "<tool_code>" before = false ->
      contains "</tool_code>" inner = false ->
      search_group "<tool_code>" "</tool_code>"
        (before ++ "<tool_code>" ++ inner ++ "</tool_code>" ++ rest) = Some inner)
  /\ (contains "<json_output>" before = false ->
      contains "</json_output>" inner = false ->
      search_group "<json_output>" "</json_output>"
        (before ++ "<json_output>" ++ inner ++ "</json_output>" ++ rest) = Some inner).
Proof.
  split; [|split]; intros Hbefore Hinner;
    apply search_group_reads; auto.
Qed.

End Blocks.

(** X10 at a text with two final-answer blocks. *)
Lemma search_group_first_and_shortest_witness :
  exists before rest,
    "so: <final_answer>1</final_answer> or <final_answer>2</final_answer>"
      = before ++ "<final_answer>" ++ "1" ++ "</final_answer>" ++ rest
    /\ PyStr.contains "<final_answer>" before = false
    /\ PyStr.contains "</final_answer>" "1" = false.
Proof.
  exact (search_group_first_and_shortest "<final_answer>" "</final_answer>"
           "so: <final_answer>1</final_answer> or <final_answer>2</final_answer>" "1"
           ltac:(discriminate) ltac:(discriminate) eq_refl).
Defined.

(** X11 at the same text. *)
Lemma first_block_is_read_witness :
  PyStr.search_group "<final_answer>" "</final_answer>"
    ("so: " ++ "<final_answer>" ++ "1" ++ "</final_answer>"
     ++ " or <final_answer>2</final_answer>") = Some "1".
Proof.
  exact (proj1 (first_block_is_read "so: " "1" " or <final_answer>2</final_answer>")
           eq_refl eq_refl).
Defined.

(** ** What the model is shown *)

Section Shown.
Context {World : Type} `{Capabilities World}.
Import ConfidenceMergeControllerAgent.

Lemma contains_self_prefixed (before s : string) :
  PyStr.contains s (before ++ s) = true.
Proof.
  rewrite <- (append_empty_r s) at 2. apply contains_intro.
Qed.

Lemma contains_self (s : string) : PyStr.contains s s = true.
Proof. exact (contains_self_prefixed EmptyString s). Qed.

(** X12.  The listing of tools put into a prompt shows every tool of the
    agent's registry, as a line made of "- ", the name, ": " and the
    description. *)
Theorem tool_listing_complete (a : agent) (name description : string) :
  In (name, description) (tools a) ->
  PyStr.contains ("- " ++ name ++ ": " ++ description)
    (_format_tool_descriptions a) = true.
Proof.
  intros Hin. unfold _format_tool_descriptions.
  apply (contains_concat _ _ ("- " ++ name ++ ": " ++ description)).
  - apply in_map_iff. exists (name, description). split; [reflexivity | exact Hin].
  - apply contains_self.
Qed.

(** An agent that calls the model directly sends its rendered prompt first. *)
Lemma direct_run_starts_with_prompt (a : agent) (n : nat)
    (current_prompt response_text : string) (st : state World) :
  style a = Direct ->
  exists rest,
    trace (snd (iterate a (S n) current_prompt response_text st))
      = (trace st ++ Generate current_prompt :: rest)%list.
Proof.
  intros Hstyle. simpl. unfold bind.
  destruct (generate_content current_prompt (world st)) as [r w] eqn:Hcall.
  rewrite (round_direct _ _ _ _ _ Hstyle Hcall).
  destruct r as [[text|]|e]; try (now exists []).
  destruct (react_trace a current_prompt text
              (mk_state w (trace st ++ [Generate current_prompt])))
    as (new1 & Htrace1 & _).
  destruct (react a current_prompt text _) as [[[result|p' t']|e] st1]; simpl in *.
  - exists new1. now rewrite Htrace1, <- app_assoc.
  - destruct (iterate_trace a n p' t' st1) as (new2 & Htrace2 & _).
    exists (new1 ++ new2)%list. now rewrite Htrace2, Htrace1, <- !app_assoc.
  - exists new1. now rewrite Htrace1, <- app_assoc.
Qed.

(** X13.  What the merge controller's first model call is given: whatever
    happens next, the first event of [run_merge_decision] is a call of the
    model with a prompt that contains, word for word, each of the five
    texts passed in (test results, review feedback, QA report, risk score,
    pull-request details) and the listing line of each of its three tools. *)
Theorem merge_prompt_carries_inputs
    (test_results review_feedback qa_report risk_score pr_details : string)
    (st : state World) :
  let current_prompt :=
    MERGE_CONTROLLER_PROMPT_TEMPLATE
      (_format_tool_descriptions merge_controller_agent)
      test_results review_feedback qa_report risk_score pr_details in
  (exists rest,
     trace (snd (run_merge_decision test_results review_feedback qa_report
                   risk_score pr_details st))
       = (trace st ++ Generate current_prompt :: rest)%list)
  /\ PyStr.contains test_results current_prompt = true
  /\ PyStr.contains review_feedback current_prompt = true
  /\ PyStr.contains qa_report current_prompt = true
  /\ PyStr.contains risk_score current_prompt = true
  /\ PyStr.contains pr_details current_prompt = true
  /\ (forall name description,
        In (name, description) (tools merge_controller_agent) ->
        PyStr.contains ("- " ++ name ++ ": " ++ description) current_prompt = true).
Proof.
  intros current_prompt.
  split; [|split; [|split; [|split; [|split; [|split]]]]].
  - unfold run_merge_decision, run_loop, max_iterations. fold current_prompt.
    now apply direct_run_starts_with_prompt.
  - apply (contains_concat _ _ ("- Test Results (from Builder A1): " ++ test_results)).
    + do 5 right. left. reflexivity.
    + apply contains_self_prefixed.
  - apply (contains_concat _ _
             ("- Review Feedback (from Reviewer A2): " ++ review_feedback)).
    + do 6 right. left. reflexivity.
    + apply contains_self_prefixed.
  - apply (contains_concat _ _ ("- QA Report (from QA Agent A4): " ++ qa_report)).
    + do 7 right. left. reflexivity.
    + apply contains_self_prefixed.
  - apply (contains_concat _ _
             ("- Risk Score (from Impact Analyzer A6): " ++ risk_score)).
    + do 8 right. left. reflexivity.
    + apply contains_self_prefixed.
  - apply (contains_concat _ _ pr_details).
    + do 11 right. left. reflexivity.
    + apply contains_self.
  - intros name description Hin.
    apply (contains_concat _ _ (_format_tool_descriptions merge_controller_agent)).
    + do 2 right. left. reflexivity.
    + unfold _format_tool_descriptions.
      apply (contains_concat _ _ ("- " ++ name ++ ": " ++ description)).
      * apply in_map_iff. exists (name, description). split; [reflexivity | exact Hin].
      * apply contains_self.
Qed.

End Shown.

(** X12 at the builder's file-writing tool. *)
Lemma tool_listing_complete_witness :
  PyStr.contains
    ("- " ++ "LocalFile_Write" ++ ": "
     ++ "Writes content to a local file within the repository. Input: file_path (relative to local_repo_path), content.")
    (_format_tool_descriptions builder_agent) = true.
Proof.
  exact (tool_listing_complete builder_agent "LocalFile_Write"
           "Writes content to a local file within the repository. Input: file_path (relative to local_repo_path), content."
           (or_intror (or_introl eq_refl))).
Defined.

(* ================================================================== *)
(** * The git workflow *)

Section GitWorkflowFacts.
Import GitWorkflow.
Context {World : Type} `{Shell World}.

Lemma run_command_checked (cmd : list string) (dir : option string)
    (st : sh_state World) :
  run_command cmd dir true st
    = (match fst (subprocess_run cmd dir (sh_world st)) with
       | Exited result =>
           if Z.eqb (returncode result) 0 then Done result
           else Failed (CalledProcessError result)
       | NotFound => Failed FileNotFoundError
       | Broken e => Failed (OtherError e)
       end,
       mk_sh (snd (subprocess_run cmd dir (sh_world st)))
             (history st ++ [mk_executed cmd dir
                               (fst (subprocess_run cmd dir (sh_world st)))])).
Proof.
  unfold run_command.
  destruct (subprocess_run cmd dir (sh_world st)) as [[result| |e] w]; simpl;
    try reflexivity.
  destruct (Z.eqb (returncode result) 0); reflexivity.
Qed.

Lemma clone_repository_eq (repo_url local_path branch : string) (st : sh_state World) :
  clone_repository repo_url local_path branch st
    = if isdir local_path (sh_world st) then (Done true, st)
      else
        let cmd := ["git"; "clone"; "-b"; branch; repo_url; local_path] in
        (Done (exit_ok (fst (subprocess_run cmd None (sh_world st)))),
         after cmd None st).
Proof.
  unfold clone_repository, or_else, after.
  destruct (isdir local_path (sh_world st)); [reflexivity|].
  rewrite run_command_checked.
  destruct (fst (subprocess_run _ None (sh_world st))) as [result| |e]; simpl;
    try reflexivity.
  destruct (Z.eqb (returncode result) 0); reflexivity.
Qed.

Lemma detect_changes_eq (local_path : string) (st : sh_state World) :
  detect_changes local_path st
    = let cmd := ["git"; "status"; "--porcelain"] in
      (Done (reports_changes (fst (subprocess_run cmd (Some local_path) (sh_world st)))),
       after cmd (Some local_path) st).
Proof.
  unfold detect_changes, or_else, after. rewrite run_command_checked.
  destruct (fst (subprocess_run _ (Some local_path) (sh_world st))) as [result| |e];
    simpl; try reflexivity.
  destruct (Z.eqb (returncode result) 0); reflexivity.
Qed.

Lemma stage_changes_eq (local_path : string) (st : sh_state World) :
  stage_changes local_path st
    = let cmd := ["git"; "add"; "."] in
      (Done (exit_ok (fst (subprocess_run cmd (Some local_path) (sh_world st)))),
       after cmd (Some local_path) st).
Proof.
  unfold stage_changes, or_else, after. rewrite run_command_checked.
  destruct (fst (subprocess_run _ (Some local_path) (sh_world st))) as [result| |e];
    simpl; try reflexivity.
  destruct (Z.eqb (returncode result) 0); reflexivity.
Qed.

Lemma commit_changes_eq (local_path message_prefix : string) (st : sh_state World) :
  commit_changes local_path message_prefix st
    = let cmd := ["git"; "commit"; "-m";
                  message_prefix ++ " - " ++ strftime_now (sh_world st)] in
      (Done (commit_accepted (fst (subprocess_run cmd (Some local_path) (sh_world st)))),
       after cmd (Some local_path) st).
Proof.
  unfold commit_changes, or_else, after. rewrite run_command_checked.
  destruct (fst (subprocess_run _ (Some local_path) (sh_world st))) as [result| |e];
    simpl; try reflexivity.
  destruct (Z.eqb (returncode result) 0); reflexivity.
Qed.

Lemma push_changes_eq (local_path remote branch : string) (st : sh_state World) :
  push_changes local_path remote branch st
    = let pull := ["git"; "pull"; remote; branch] in
      let push := ["git"; "push"; remote; branch] in
      if exit_ok (fst (subprocess_run pull (Some local_path) (sh_world st)))
      then
        (Done (exit_ok (fst (subprocess_run push (Some local_path)
                               (sh_world (after pull (Some local_path) st))))),
         after push (Some local_path) (after pull (Some local_path) st))
      else (Done false, after pull (Some local_path) st).
Proof.
  unfold push_changes, or_else. rewrite run_command_checked.
  fold (after ["git"; "pull"; remote; branch] (Some local_path) st).
  destruct (fst (subprocess_run ["git"; "pull"; remote; branch] (Some local_path)
                   (sh_world st))) as [result| |e]; simpl; try reflexivity.
  destruct (Z.eqb (returncode result) 0); [|reflexivity].
  rewrite run_command_checked.
  fold (after ["git"; "push"; remote; branch] (Some local_path)
          (after ["git"; "pull"; remote; branch] (Some local_path) st)).
  destruct (fst (subprocess_run ["git"; "push"; remote; branch] (Some local_path) _))
    as [result'| |e']; simpl; try reflexivity.
  destruct (Z.eqb (returncode result') 0); reflexivity.
Qed.

End GitWorkflowFacts.

Section GitWorkflowRuns.
Import GitWorkflow.
Context {World : Type} `{Shell World}.

Ltac workflow_steps :=
  unfold automated_git_workflow, and_then, apply_changes, verify_changes;
  rewrite ?clone_repository_eq; cbv zeta.

Ltac next_step :=
  first
    [ rewrite detect_changes_eq
    | rewrite stage_changes_eq
    | rewrite commit_changes_eq
    | rewrite push_changes_eq ];
  cbv zeta.

Ltac case_on f E :=
  match goal with |- context [f ?l] => destruct (f l) eqn:E end.

Ltac history_of_leaf :=
  unfold after; cbn [history sh_world fst snd]; rewrite <- ?app_assoc; reflexivity.

(** X14.  The workflow never raises and never runs a command out of turn.
    Whatever the commands do (non-zero exit, missing program, any other
    exception), [automated_git_workflow] returns a boolean, and the commands
    it has run are an initial part of the fixed sequence clone, status, add,
    commit, pull, push, without the clone when the directory already exists:
    at most six commands, each at most once, and no push that is not
    preceded by add, commit and pull.  The commit message is the prefix,
    " - " and a time stamp. *)
Theorem workflow_returns_in_order
    (repo_url local_path branch commit_message_prefix : string)
    (st : sh_state World) :
  exists timestamp b k new,
    fst (automated_git_workflow repo_url local_path branch commit_message_prefix st)
      = Done b
    /\ history (snd (automated_git_workflow repo_url local_path branch
                       commit_message_prefix st))
       = (history st ++ new)%list
    /\ map command new
       = firstn k
           (let commands :=
              script repo_url local_path branch
                (commit_message_prefix ++ " - " ++ timestamp) in
            if isdir local_path (sh_world st) then tl commands else commands).
Proof.
  workflow_steps.
  destruct (isdir local_path (sh_world st)) eqn:Hdir.
  - exists (strftime_now
              (sh_world (after ["git"; "add"; "."] (Some local_path)
                           (after ["git"; "status"; "--porcelain"] (Some local_path) st)))).
    next_step. destruct (reports_changes _);
      [|exists true, 1%nat; eexists; split; [reflexivity | split; [history_of_leaf | reflexivity]]].
    next_step. destruct (exit_ok _);
      [|exists false, 2%nat; eexists; split; [reflexivity | split; [history_of_leaf | reflexivity]]].
    next_step. destruct (commit_accepted _);
      [|exists false, 3%nat; eexists; split; [reflexivity | split; [history_of_leaf | reflexivity]]].
    next_step. destruct (exit_ok _);
      [|exists false, 4%nat; eexists; split; [reflexivity | split; [history_of_leaf | reflexivity]]].
    destruct (exit_ok _);
      [exists true, 5%nat | exists false, 5%nat];
      eexists; (split; [reflexivity | split; [history_of_leaf | reflexivity]]).
  - set (clone := ["git"; "clone"; "-b"; branch; repo_url; local_path]).
    exists (strftime_now
              (sh_world (after ["git"; "add"; "."] (Some local_path)
                           (after ["git"; "status"; "--porcelain"] (Some local_path)
                              (after clone None st))))).
    destruct (exit_ok _);
      [|exists false, 1%nat; eexists; split; [reflexivity | split; [history_of_leaf | reflexivity]]].
    next_step. destruct (reports_changes _);
      [|exists true, 2%nat; eexists; split; [reflexivity | split; [history_of_leaf | reflexivity]]].
    next_step. destruct (exit_ok _);
      [|exists false, 3%nat; eexists; split; [reflexivity | split; [history_of_leaf | reflexivity]]].
    next_step. destruct (commit_accepted _);
      [|exists false, 4%nat; eexists; split; [reflexivity | split; [history_of_leaf | reflexivity]]].
    next_step. destruct (exit_ok _);
      [|exists false, 5%nat; eexists; split; [reflexivity | split; [history_of_leaf | reflexivity]]].
    destruct (exit_ok _);
      [exists true, 6%nat | exists false, 6%nat];
      eexists; (split; [reflexivity | split; [history_of_leaf | reflexivity]]).
Qed.

(** X15.  A [git status] that fails counts as "no changes".  In a directory
    that exists, when [git status --porcelain] exits with a non-zero code,
    cannot be started, or prints nothing but white space, the workflow
    returns True after that single command: nothing is staged, committed,
    pulled or pushed. *)
Theorem failed_status_is_success
    (repo_url local_path branch commit_message_prefix : string)
    (st : sh_state World) :
  isdir local_path (sh_world st) = true ->
  reports_changes
    (fst (subprocess_run ["git"; "status"; "--porcelain"] (Some local_path)
            (sh_world st))) = false ->
  automated_git_workflow repo_url local_path branch commit_message_prefix st
    = (Done true, after ["git"; "status"; "--porcelain"] (Some local_path) st).
Proof.
  intros Hdir Hstatus. workflow_steps. rewrite Hdir.
  next_step. now rewrite Hstatus.
Qed.

(** X16.  What the two answers mean.  When the workflow returns True, the
    last command it ran is either the [git status] (which reported no
    change) or a [git push] that exited with code 0 right after a
    [git pull] that exited with code 0.  When it returns False, the last
    command it ran did not exit with code 0. *)
Theorem workflow_answer
    (repo_url local_path branch commit_message_prefix : string)
    (st : sh_state World) :
  exists new,
    history (snd (automated_git_workflow repo_url local_path branch
                    commit_message_prefix st))
      = (history st ++ new)%list
    /\ (fst (automated_git_workflow repo_url local_path branch
               commit_message_prefix st) = Done true ->
        (exists earlier status,
           new = (earlier ++ [status])%list
           /\ command status = ["git"; "status"; "--porcelain"]
           /\ reports_changes (outcome_of status) = false)
        \/ (exists earlier pull push,
              new = (earlier ++ [pull; push])%list
              /\ command pull = ["git"; "pull"; "origin"; branch]
              /\ exit_ok (outcome_of pull) = true
              /\ command push = ["git"; "push"; "origin"; branch]
              /\ exit_ok (outcome_of push) = true))
    /\ (fst (automated_git_workflow repo_url local_path branch
               commit_message_prefix st) = Done false ->
        exists earlier last,
          new = (earlier ++ [last])%list /\ exit_ok (outcome_of last) = false).
Proof.
  assert (Hcommit : forall l, commit_accepted l = false -> exit_ok l = false).
  { intros [result| |e]; simpl; try reflexivity.
    intros Hacc. now apply orb_false_iff in Hacc as [-> _]. }
  assert (Hstart : forall st0 : sh_state World,
    exists new,
      history (snd ((fun st1 =>
        match detect_changes local_path st1 with
        | (Failed f, st2) => (Failed f, st2)
        | (Done false, st2) => (Done true, st2)
        | (Done true, st2) =>
            and_then (verify_changes local_path)
              (and_then (stage_changes local_path)
                 (and_then (commit_changes local_path commit_message_prefix)
                    (and_then (push_changes local_path "origin" branch)
                       (fun st5 => (Done true, st5))))) st2
        end) st0)) = (history st0 ++ new)%list
      /\ (fst ((fun st1 =>
        match detect_changes local_path st1 with
        | (Failed f, st2) => (Failed f, st2)
        | (Done false, st2) => (Done true, st2)
        | (Done true, st2) =>
            and_then (verify_changes local_path)
              (and_then (stage_changes local_path)
                 (and_then (commit_changes local_path commit_message_prefix)
                    (and_then (push_changes local_path "origin" branch)
                       (fun st5 => (Done true, st5))))) st2
        end) st0) = Done true ->
          (exists earlier status,
             new = (earlier ++ [status])%list
             /\ command status = ["git"; "status"; "--porcelain"]
             /\ reports_changes (outcome_of status) = false)
          \/ (exists earlier pull push,
                new = (earlier ++ [pull; push])%list
                /\ command pull = ["git"; "pull"; "origin"; branch]
                /\ exit_ok (outcome_of pull) = true
                /\ command push = ["git"; "push"; "origin"; branch]
                /\ exit_ok (outcome_of push) = true))
      /\ (fst ((fun st1 =>
        match detect_changes local_path st1 with
        | (Failed f, st2) => (Failed f, st2)
        | (Done false, st2) => (Done true, st2)
        | (Done true, st2) =>
            and_then (verify_changes local_path)
              (and_then (stage_changes local_path)
                 (and_then (commit_changes local_path commit_message_prefix)
                    (and_then (push_changes local_path "origin" branch)
                       (fun st5 => (Done true, st5))))) st2
        end) st0) = Done false ->
          exists earlier last,
            new = (earlier ++ [last])%list /\ exit_ok (outcome_of last) = false)).
  { intros st0. cbv beta. unfold and_then, verify_changes.
    next_step. case_on reports_changes Hstatus.
    2: { eexists. split; [history_of_leaf|]. split; [|discriminate].
         intros _. left. exists [], (mk_executed ["git"; "status"; "--porcelain"]
                                       (Some local_path)
                                       (fst (subprocess_run ["git"; "status"; "--porcelain"]
                                               (Some local_path) (sh_world st0)))).
         split; [reflexivity | split; [reflexivity | exact Hstatus]]. }
    next_step. case_on exit_ok Hadd.
    2: { eexists. split; [history_of_leaf|]. split; [discriminate|].
         intros _. eexists [_], _. split; [reflexivity | exact Hadd]. }
    next_step. case_on commit_accepted Hcom.
    2: { eexists. split; [history_of_leaf|]. split; [discriminate|].
         intros _. eexists [_; _], _. split; [reflexivity | exact (Hcommit _ Hcom)]. }
    next_step. case_on exit_ok Hpull.
    2: { eexists. split; [history_of_leaf|]. split; [discriminate|].
         intros _. eexists [_; _; _], _. split; [reflexivity | exact Hpull]. }
    case_on exit_ok Hpush.
    - eexists. split; [history_of_leaf|]. split; [|discriminate].
      intros _. right. eexists [_; _; _], _, _.
      split; [reflexivity|]. split; [reflexivity|]. split; [exact Hpull|].
      split; [reflexivity | exact Hpush].
    - eexists. split; [history_of_leaf|]. split; [discriminate|].
      intros _. eexists [_; _; _; _], _. split; [reflexivity | exact Hpush]. }
  unfold automated_git_workflow, apply_changes.
  match goal with
  | |- context [and_then (clone_repository _ _ _) ?r] => set (rest := r) in *
  end.
  unfold and_then. rewrite clone_repository_eq. cbv zeta.
  destruct (isdir local_path (sh_world st)).
  - apply Hstart.
  - case_on exit_ok Hclone.
    + destruct (Hstart (after ["git"; "clone"; "-b"; branch; repo_url; local_path]
                          None st)) as (new & Hhist & Htrue & Hfalse).
      exists (mk_executed ["git"; "clone"; "-b"; branch; repo_url; local_path] None
                (fst (subprocess_run ["git"; "clone"; "-b"; branch; repo_url; local_path]
                        None (sh_world st))) :: new).
      split; [|split].
      * rewrite Hhist. unfold after. cbn [history]. now rewrite <- app_assoc.
      * intros Hb. destruct (Htrue Hb) as [(earlier & status & -> & Hs)
                                          | (earlier & pull & push & -> & Hs)].
        -- left. eexists (_ :: earlier), status. split; [reflexivity | exact Hs].
        -- right. eexists (_ :: earlier), pull, push. split; [reflexivity | exact Hs].
      * intros Hb. destruct (Hfalse Hb) as (earlier & last & -> & Hl).
        eexists (_ :: earlier), last. split; [reflexivity | exact Hl].
    + eexists. split; [history_of_leaf|]. split; [discriminate|].
      intros _. eexists [], _. split; [reflexivity | exact Hclone].
Qed.

End GitWorkflowRuns.

(** X15 in an existing directory where [git status] exits with code 128. *)
Lemma failed_status_is_success_witness :
  @GitWorkflow.automated_git_workflow _ (GitWorkflow.played true)
    "https://github.com/Merothiya/Snakes-Ladders-and-Faith.git" "repo" "main"
    "Automated commit"
    (GitWorkflow.mk_sh [GitWorkflow.exits 128 "" "fatal: not a git repository"] [])
    = (GitWorkflow.Done true,
       GitWorkflow.mk_sh []
         [GitWorkflow.mk_executed ["git"; "status"; "--porcelain"] (Some "repo")
            (GitWorkflow.exits 128 "" "fatal: not a git repository")]).
Proof.
  exact (@failed_status_is_success _ (GitWorkflow.played true)
           "https://github.com/Merothiya/Snakes-Ladders-and-Faith.git" "repo" "main"
           "Automated commit"
           (GitWorkflow.mk_sh [GitWorkflow.exits 128 "" "fatal: not a git repository"] [])
           eq_refl eq_refl).
Defined.

(** ** The orchestrator *)

Section CycleFacts.
Import DevopsCycle.
Context {World : Type} `{Capabilities World} `{GitWorkflow.Shell World}
        `{Github World} `{Services World}.
Variable py : Python.
Variable templates : Templates.
Variable LOCAL_REPO_PATH : string.



(** The documentation agent of the cycle never returns. *)
Lemma run_documentation_raised (pr_number : Z) (pr_details : value)
    (c : cycle World) :
  exists x, fst (run_documentation py templates pr_number pr_details c) = Raised x.
Proof.
  unfold run_documentation, service, request, then_, agents, crashes, unit_.
  destruct (get_pr_diff pr_number (cy_world c)) as [[commit_diff|e] w]; simpl.
  - eexists. reflexivity.
  - eexists. reflexivity.
Qed.





(** *** What a cycle prints and requests *)

Section Shows.
Variable lines_ok : list string -> Prop.
Hypothesis lines_nil : lines_ok [].
Hypothesis lines_app : forall l1 l2, lines_ok l1 -> lines_ok l2 -> lines_ok (l1 ++ l2)%list.




End Shows.



























(** *** What a cycle can cost *)

Lemma spends_unit {A} (a : A) : spends (unit_ (World := World) a) 0 0.
Proof. intros c. exists []. simpl. rewrite app_nil_r. auto. Qed.

Lemma spends_crashes {A} (x : crash) : spends (crashes (World := World) (A := A) x) 0 0.
Proof. intros c. exists []. simpl. rewrite app_nil_r. auto. Qed.

Lemma spends_then {A B} (m : @O World A) (k : A -> @O World B) (calls tools calls' tools' : nat) :
  spends m calls tools -> (forall a, spends (k a) calls' tools') ->
  spends (then_ m k) (calls + calls') (tools + tools').
Proof.
  intros Hm Hk c. unfold then_.
  destruct (Hm c) as (new1 & Hev1 & Hcalls1 & Htools1).
  destruct (m c) as [[a|x] c1]; simpl in *.
  - destruct (Hk a c1) as (new2 & Hev2 & Hcalls2 & Htools2).
    exists (new1 ++ new2)%list. rewrite Hev2, Hev1, <- app_assoc.
    rewrite prompts_app, tool_calls_app, !length_app. repeat split; auto; lia.
  - exists new1. repeat split; auto; lia.
Qed.

Lemma spends_free_then {A B} (m : @O World A) (k : A -> @O World B) (calls tools : nat) :
  spends m 0 0 -> (forall a, spends (k a) calls tools) ->
  spends (then_ m k) calls tools.
Proof. intros Hm Hk. exact (spends_then m k 0 0 calls tools Hm Hk). Qed.

Lemma spends_then_raised {A B} (m : @O World A) (k : A -> @O World B) (calls tools : nat) :
  spends m calls tools -> (forall c, exists x, fst (m c) = Raised x) ->
  spends (then_ m k) calls tools.
Proof.
  intros Hm Hraised c. unfold then_.
  destruct (Hm c) as (new1 & Hev1 & Hcalls1 & Htools1).
  destruct (Hraised c) as (x & Hx).
  destruct (m c) as [[a|y] c1]; simpl in *; [discriminate|].
  exists new1. auto.
Qed.

Lemma spends_weaken {A} (m : @O World A) (calls tools calls' tools' : nat) :
  spends m calls tools -> (calls <= calls')%nat -> (tools <= tools')%nat ->
  spends m calls' tools'.
Proof.
  intros Hm Hcalls Htools c. destruct (Hm c) as (new & Hev & Hc & Ht).
  exists new. repeat split; auto; lia.
Qed.

Lemma spends_agents {A} (m : M World A) (calls tools : nat) :
  (forall st : state World,
     exists new,
       trace (snd (m st)) = (trace st ++ new)%list
       /\ (List.length (prompts new) <= calls)%nat
       /\ (List.length (tool_calls new) <= tools)%nat) ->
  spends (agents m) calls tools.
Proof.
  intros Hm c. unfold agents.
  destruct (Hm (mk_state (cy_world c) (events c))) as (new & Htrace & Hc & Ht).
  destruct (m _) as [[a|e] st]; simpl in *; exists new; auto.
Qed.

Lemma spends_shell {A} (g : @GitWorkflow.G World A) : spends (shell g) 0 0.
Proof.
  intros c. unfold shell. destruct (g _) as [a st]. simpl.
  exists []. simpl. rewrite app_nil_r. auto.
Qed.

Lemma spends_announce (line : string) : spends (announce (World := World) line) 0 0.
Proof.
  intros c. exists []. simpl. rewrite app_nil_r. auto.
Qed.

Lemma spends_request {A} (sent : call) (f : World -> outcome A * World) :
  spends (request sent f) 0 0.
Proof.
  intros c. unfold request. destruct (f _) as [o w]. simpl.
  exists []. simpl. rewrite app_nil_r. auto.
Qed.

Lemma spends_service {A} (sent : call) (f : World -> outcome A * World) :
  spends (service sent f) 0 0.
Proof.
  unfold service. apply spends_free_then; [apply spends_request|].
  intros [a|e]; [apply spends_unit | apply spends_crashes].
Qed.

Lemma spends_getitem (v : value) (key : string) : spends (getitem (World := World) v key) 0 0.
Proof.
  destruct v; try apply spends_crashes. simpl.
  destruct (Py.dict_get key d); [apply spends_unit | apply spends_crashes].
Qed.

Lemma spends_get (v : value) (key : string) : spends (get (World := World) v key) 0 0.
Proof.
  unfold get. destruct (Py.get v key VNone); [apply spends_unit | apply spends_crashes].
Qed.

Lemma spends_branch_name_of (feature_ticket : value) :
  spends (branch_name_of (World := World) py feature_ticket) 0 0.
Proof.
  unfold branch_name_of.
  apply spends_free_then; [apply spends_getitem|]. intros feature_id.
  apply spends_free_then; [apply spends_getitem|]. intros title.
  apply spends_free_then; [|intros; apply spends_unit].
  destruct title; try apply spends_crashes. apply spends_unit.
Qed.

Lemma spends_feat_title (feature_ticket : value) :
  spends (feat_title (World := World) py feature_ticket) 0 0.
Proof.
  unfold feat_title.
  apply spends_free_then; [apply spends_getitem|]. intros feature_id.
  apply spends_free_then; [apply spends_getitem|]. intros title.
  apply spends_unit.
Qed.

Lemma spends_git_workflow (branch commit_message_prefix : string) :
  spends (git_workflow LOCAL_REPO_PATH branch commit_message_prefix) 0 0.
Proof.
  unfold git_workflow. apply spends_free_then; [apply spends_shell|].
  intros [b|f]; [apply spends_unit | apply spends_crashes].
Qed.

Lemma spends_open_pull_request (feature_ticket : value) (name : string) :
  spends (open_pull_request py feature_ticket name) 0 0.
Proof.
  unfold open_pull_request, create_pr.
  apply spends_free_then; [apply spends_feat_title|]. intros pr_title.
  apply spends_free_then; [apply spends_getitem|]. intros description.
  apply spends_free_then; [apply spends_getitem|]. intros id.
  apply spends_free_then.
  - apply spends_free_then; [apply spends_request | intros; apply spends_unit].
  - intros [pr|e]; apply spends_unit.
Qed.

Lemma spends_run_documentation (pr_number : Z) (pr_details : value) :
  spends (run_documentation py templates pr_number pr_details) 0 0.
Proof.
  unfold run_documentation.
  apply spends_free_then; [apply spends_service|]. intros commit_diff.
  apply spends_agents. intros st. exists []. simpl. rewrite app_nil_r. auto.
Qed.

Lemma spends_assess (feature_ticket builder_response pr_url : value) (pr_number : Z) :
  spends (assess py templates feature_ticket builder_response pr_url pr_number) 0 0.
Proof.
  unfold assess.
  apply spends_free_then; [apply spends_getitem|]. intros title.
  apply spends_free_then; [apply spends_announce|]. intros _.
  apply spends_then_raised; [apply spends_run_documentation|].
  apply run_documentation_raised.
Qed.

Lemma spends_run (feature_ticket : value) :
  spends (run py templates LOCAL_REPO_PATH feature_ticket) 30 10.
Proof.
  unfold run.
  apply spends_free_then; [apply spends_service|]. intros repo_context.
  apply spends_free_then; [apply spends_branch_name_of|]. intros _.
  apply spends_agents. intros st. unfold BuilderAgent.run, run_loop.
  destruct (iterate_trace builder_agent max_iterations
              (BUILDER_PROMPT_TEMPLATE templates
                 (_format_tool_descriptions builder_agent)
                 (dumps_or_str py feature_ticket) (format py repo_context)
                 LOCAL_REPO_PATH) "" st)
    as (new & Htrace & Hcalls & Htools & _).
  exists new. unfold max_iterations in *. simpl in Hcalls. auto.
Qed.

Lemma spends_develop (feature_ticket : value) :
  spends (develop py templates LOCAL_REPO_PATH feature_ticket) 30 10.
Proof.
  unfold develop.
  apply spends_free_then; [apply spends_getitem|]. intros _.
  apply spends_free_then; [apply spends_branch_name_of|]. intros name.
  apply spends_free_then; [apply spends_request|]. intros [_|e].
  2: { apply (spends_weaken _ 0 0); [apply spends_unit | lia | lia]. }
  apply spends_free_then; [apply spends_shell|]. intros [_|f].
  2: { apply (spends_weaken _ 0 0); [apply spends_unit | lia | lia]. }
  apply spends_free_then; [apply spends_announce|]. intros _.
  apply (spends_then _ _ 30 10 0 0); [apply spends_run|]. intros builder_response.
  apply spends_free_then; [apply spends_get|]. intros status.
  destruct (negb _); [apply spends_unit|].
  apply spends_free_then; [apply spends_get|]. intros local_changes_made.
  destruct (Py.truthy _).
  2: { apply spends_free_then; [apply spends_announce|]. intros _. apply spends_unit. }
  apply spends_free_then; [apply spends_announce|]. intros _.
  apply spends_free_then; [apply spends_feat_title|]. intros prefix.
  apply spends_free_then; [apply spends_git_workflow|]. intros pushed.
  destruct (negb _).
  { apply spends_free_then; [apply spends_announce|]. intros _. apply spends_unit. }
  apply spends_free_then; [apply spends_announce|]. intros _.
  apply spends_free_then; [apply spends_open_pull_request|].
  intros [result|[pr_url pr_number]]; [apply spends_unit | apply spends_assess].
Qed.

(** X18.  What a cycle can cost, whatever the model, the tools, the shell
    and the services do: at most 39 model calls (nine for the intake,
    thirty for the builder) and at most ten tool executions.  The five
    agents after the builder add nothing: the first of them raises before
    it calls the model. *)
Theorem cycle_budget (raw_user_comment : string) :
  spends (run_devops_cycle py templates LOCAL_REPO_PATH raw_user_comment) 39 10.
Proof.
  unfold run_devops_cycle.
  apply spends_free_then; [apply spends_announce|]. intros _.
  apply spends_free_then; [apply spends_git_workflow|]. intros ok.
  destruct (negb ok).
  { apply spends_free_then; [apply spends_announce|]. intros _.
    apply (spends_weaken _ 0 0); [apply spends_unit | lia | lia]. }
  apply spends_free_then; [apply spends_announce|]. intros _.
  apply spends_free_then; [apply spends_announce|]. intros _.
  apply (spends_then _ _ 9 0 30 10).
  - unfold process_comment. apply spends_agents. intros st.
    unfold ProductManagerAgent.process_comment, ProductManagerAgent.max_iterations.
    destruct (pm_iterate_trace 3%nat
                (PRODUCT_MANAGER_PROMPT_TEMPLATE templates raw_user_comment) st)
      as (new & Htrace & Hcalls & Htools).
    exists new. rewrite Htools. simpl in *. repeat split; auto.
  - intros pm_response.
    apply spends_free_then; [apply spends_getitem|]. intros status.
    destruct (Py.is_str "failure" status).
    + apply spends_free_then; [apply spends_getitem|]. intros message.
      apply (spends_weaken _ 0 0); [apply spends_unit | lia | lia].
    + apply spends_free_then; [apply spends_getitem|]. intros ticket.
      apply spends_develop.
Qed.

(** X19.  The pull request needs a key that the intake does not ask for.
    The body of the pull request quotes [feature_ticket['id']], and it is
    built before the [try] that guards the creation: for a ticket without
    the key [id] (the tickets that the intake prompt describes have
    [feature_id], [title], [description], [priority] and
    [acceptance_criteria]) this step raises [KeyError] and leaves the
    repository as it was: [create_pr] is not reached.  In the cycle it
    comes after the commit and the push. *)
Theorem pull_request_needs_id (d : list (string * value)) (name : string)
    (c : cycle World) :
  Py.dict_get "id" d = None ->
  exists key,
    open_pull_request py (VDict d) name c = (Raised (KeyError key), c)
    /\ (Py.dict_get "feature_id" d <> None -> Py.dict_get "title" d <> None ->
        Py.dict_get "description" d <> None -> key = "id").
Proof.
  intros Hid. unfold open_pull_request, feat_title, then_, getitem, unit_, crashes.
  destruct (Py.dict_get "feature_id" d) as [feature_id|];
    [|eexists; split; [reflexivity | intros Hf; now destruct Hf]].
  destruct (Py.dict_get "title" d) as [title|];
    [|eexists; split; [reflexivity | intros _ Ht; now destruct Ht]].
  destruct (Py.dict_get "description" d) as [description|];
    [|eexists; split; [reflexivity | intros _ _ Hd; now destruct Hd]].
  rewrite Hid. eexists; split; reflexivity.
Qed.

End CycleFacts.

(** X19 at the example ticket of the intake prompt, in a repository with
    the branch and no pull request. *)
Lemma pull_request_needs_id_witness :
  exists key,
    DevopsCycle.open_pull_request DevopsCycle.by_type
      (VDict DevopsCycle.example_ticket) "feature-F103-implement-user-profile-page"
      (DevopsCycle.mk_cycle
         (mk_repo "Merothiya" [] ["main"; "feature-F103-implement-user-profile-page"])
         [] [] [] [])
    = (DevopsCycle.Raised (DevopsCycle.KeyError key),
       DevopsCycle.mk_cycle
         (mk_repo "Merothiya" [] ["main"; "feature-F103-implement-user-profile-page"])
         [] [] [] [])
    /\ (Py.dict_get "feature_id" DevopsCycle.example_ticket <> None ->
        Py.dict_get "title" DevopsCycle.example_ticket <> None ->
        Py.dict_get "description" DevopsCycle.example_ticket <> None ->
        key = "id").
Proof.
  exact (pull_request_needs_id DevopsCycle.by_type DevopsCycle.example_ticket
           "feature-F103-implement-user-profile-page"
           (DevopsCycle.mk_cycle
              (mk_repo "Merothiya" [] ["main"; "feature-F103-implement-user-profile-page"])
              [] [] [] [])
           eq_refl).
Defined.

Section WholeRuns.
Import Lab.

(** Two whole runs, on a day when the model, the shell and GitHub all do
    their part.  With a ticket that has an [id], the cycle creates the
    branch and the pull request and then stops in the documentation agent;
    with the ticket that the intake prompt asks for, it commits and pushes
    and then stops before the pull request. *)
Example good_day_with_id :
  let ended := DevopsCycle.run_devops_cycle DevopsCycle.by_type Lab.templates "repo"
                 "dark mode please" (Lab.good_day (Some "T1")) in
  fst ended
    = DevopsCycle.Raised
        (DevopsCycle.Exception (mk_exn NameError "name 'google' is not defined"))
  /\ map GitWorkflow.command (DevopsCycle.commands (snd ended))
     = [["git"; "status"; "--porcelain"];
        ["git"; "fetch"; "origin"];
        ["git"; "rev-parse"; "--verify"; "feature-F7-dark-mode"];
        ["git"; "checkout"; "-b"; "feature-F7-dark-mode"; "origin/feature-F7-dark-mode"];
        ["git"; "branch"; "-vv"];
        ["git"; "status"; "--porcelain"];
        ["git"; "add"; "."];
        ["git"; "commit"; "-m"; "feat(F7): Dark Mode - 2025-01-01 12:00:00"];
        ["git"; "pull"; "origin"; "feature-F7-dark-mode"];
        ["git"; "push"; "origin"; "feature-F7-dark-mode"]]
  /\ prompts (DevopsCycle.events (snd ended)) = ["dark mode please"; "<dict>"]
  /\ Lab.github (DevopsCycle.cy_world (snd ended))
     = mk_repo "Merothiya"
         [("Merothiya:feature-F7-dark-mode",
           mk_pr 1 "https://github.example/pull/feature-F7-dark-mode")]
         ["main"; "feature-F7-dark-mode"]
  /\ DevopsCycle.printed (snd ended)
     = ["Running automated Git workflow to initialize/update repository...";
        "Automated Git workflow completed successfully for initialization.";
        "Running Product Manager Agent...";
        "Running Builder Agent (A1)...";
        "Builder Agent made local changes. Committing and pushing via automated Git workflow...";
        "Automated Git workflow completed successfully for commit/push.";
        "Running Auto Documentation Agent (Post-PR Creation)..."]
  /\ (exists title body,
        DevopsCycle.requests (snd ended)
        = [DevopsCycle.CreateBranch "feature-F7-dark-mode" "main";
           DevopsCycle.GetRepoContent "";
           DevopsCycle.CreatePr title body "feature-F7-dark-mode" "main";
           DevopsCycle.GetPrDiff 1]).
Proof. vm_compute. repeat split. eexists. eexists. reflexivity. Qed.

Example good_day_without_id :
  let ended := DevopsCycle.run_devops_cycle DevopsCycle.by_type Lab.templates "repo"
                 "dark mode please" (Lab.good_day None) in
  fst ended = DevopsCycle.Raised (DevopsCycle.KeyError "id")
  /\ List.length (DevopsCycle.commands (snd ended)) = 10%nat
  /\ Lab.github (DevopsCycle.cy_world (snd ended))
     = mk_repo "Merothiya" [] ["main"; "feature-F7-dark-mode"]
  /\ DevopsCycle.requests (snd ended)
     = [DevopsCycle.CreateBranch "feature-F7-dark-mode" "main";
        DevopsCycle.GetRepoContent ""].
Proof. vm_compute. repeat split. Qed.

End WholeRuns.

(** ** The UI tester *)

Section SeleniumFacts.
Import Selenium.
Context {World : Type} `{WebDriver World}.

Lemma saved_app (l1 l2 : list driver_call) :
  saved (l1 ++ l2) = (saved l1 ++ saved l2)%list.
Proof.
  induction l1 as [|call l1 IH]; simpl; [reflexivity|].
  destruct call; simpl; now rewrite IH.
Qed.

Lemma plain_nil : plain [].
Proof. now split. Qed.

Lemma plain_app (s1 s2 : list driver_call) : plain s1 -> plain s2 -> plain (s1 ++ s2).
Proof.
  intros [Hq1 Hs1] [Hq2 Hs2]. split.
  - now rewrite existsb_app, Hq1, Hq2.
  - now rewrite saved_app, Hs1, Hs2.
Qed.

Section Composition.
Variable P : list driver_call -> Prop.
Hypothesis P_nil : P [].
Hypothesis P_app : forall s1 s2, P s1 -> P s2 -> P (s1 ++ s2).

Lemma only_lift {A} (r : DevopsCycle.ended A) : calls_only (World := World) P (lift_ r).
Proof. intros b. exists []. simpl. now rewrite app_nil_r. Qed.

Lemma only_unit {A} (a : A) : calls_only (World := World) P (unit_ a).
Proof. intros b. exists []. simpl. now rewrite app_nil_r. Qed.

Lemma only_then {A C} (m : @B World A) (k : A -> @B World C) :
  calls_only P m -> (forall a, calls_only P (k a)) -> calls_only P (then_ m k).
Proof.
  intros Hm Hk b. unfold then_.
  destruct (Hm b) as (s1 & Hcalls1 & Hp1).
  destruct (m b) as [[a|x] b1]; simpl in *.
  - destruct (Hk a b1) as (s2 & Hcalls2 & Hp2).
    exists (s1 ++ s2)%list. rewrite Hcalls2, Hcalls1, <- app_assoc. auto.
  - now exists s1.
Qed.

Lemma only_drive (call : driver_call) :
  P [call] -> calls_only (World := World) P (drive call).
Proof.
  intros Hp b. exists [call]. split; [|exact Hp].
  unfold drive. now destruct (perform call (br_world b)) as [[e|] w].
Qed.

Lemma only_getitem (action : value) (key : string) :
  calls_only (World := World) P (getitem action key).
Proof.
  destruct action; try apply only_lift. simpl.
  destruct (Py.dict_get key d); [apply only_unit | apply only_lift].
Qed.

End Composition.

Lemma interact_plain (action : value) : calls_only (World := World) plain (interact action).
Proof.
  pose proof plain_nil as Hnil. pose proof plain_app as Happ.
  unfold interact.
  apply only_then; auto; [now apply only_getitem|]. intros type1.
  destruct (Py.is_str "click" type1).
  - apply only_then; auto; [now apply only_getitem|]. intros selector.
    apply only_then; auto; [now apply only_drive|]. intros _.
    now apply only_drive.
  - apply only_then; auto; [now apply only_getitem|]. intros type2.
    destruct (Py.is_str "type" type2); [|now apply only_unit].
    apply only_then; auto; [now apply only_getitem|]. intros selector.
    apply only_then; auto; [now apply only_drive|]. intros _.
    apply only_then; auto; [now apply only_getitem|]. intros text.
    now apply only_drive.
Qed.

(** The loop invariant: the screenshots listed are those saved, and the
    [n]-th is named after [n]. *)
Lemma act_numbered (actions : list value) :
  forall (screenshots : list string) (b : browser World),
  exists steps,
    driver_calls (snd (act actions screenshots b)) = (driver_calls b ++ steps)%list
    /\ existsb is_quit steps = false
    /\ forall out, fst (act actions screenshots b) = DevopsCycle.Returned out ->
         out = (screenshots
                  ++ map screenshot_path
                       (seq (List.length screenshots) (List.length actions)))%list
         /\ saved steps
            = map screenshot_path (seq (List.length screenshots) (List.length actions)).
Proof.
  induction actions as [|action rest IH]; intros screenshots b.
  - exists []. simpl. rewrite !app_nil_r.
    split; [reflexivity|]. split; [reflexivity|].
    intros out Hout. inversion Hout. auto.
  - set (path := screenshot_path (List.length screenshots)).
    assert (Hstep :
      act (action :: rest) screenshots b
        = match interact action b with
          | (DevopsCycle.Returned _, b1) =>
              match drive (SaveScreenshot path) b1 with
              | (DevopsCycle.Returned _, b2) => act rest (screenshots ++ [path]) b2
              | (DevopsCycle.Raised x, b2) => (DevopsCycle.Raised x, b2)
              end
          | (DevopsCycle.Raised x, b1) => (DevopsCycle.Raised x, b1)
          end) by reflexivity.
    rewrite Hstep. clear Hstep.
    destruct (interact_plain action b) as (s1 & Hcalls1 & Hq1 & Hs1).
    destruct (interact action b) as [[[]|x] b1]; simpl in Hcalls1.
    2: { exists s1. simpl. split; [assumption|]. split; [assumption|].
         intros out Hout. simpl in Hout. discriminate Hout. }
    pose proof (only_drive (fun s => s = [SaveScreenshot path]) (SaveScreenshot path)
                  eq_refl b1) as (s2 & Hcalls2 & ->).
    destruct (drive (SaveScreenshot path) b1) as [[[]|x] b2]; simpl in Hcalls2.
    2: { exists (s1 ++ [SaveScreenshot path])%list. simpl.
         rewrite Hcalls2, Hcalls1, <- app_assoc, existsb_app, Hq1.
         split; [reflexivity|]. split; [reflexivity|].
         intros out Hout. simpl in Hout. discriminate Hout. }
    destruct (IH (screenshots ++ [path])%list b2) as (s3 & Hcalls3 & Hq3 & Hout3).
    exists (s1 ++ SaveScreenshot path :: s3)%list.
    rewrite Hcalls3, Hcalls2, Hcalls1, <- !app_assoc. simpl.
    rewrite existsb_app, Hq1. simpl. rewrite Hq3.
    split; [reflexivity|]. split; [reflexivity|].
    intros out Hout. destruct (Hout3 out Hout) as [-> Hsaved].
    rewrite length_app, Nat.add_1_r in *. cbn [List.length] in *.
    split.
    + now rewrite <- app_assoc.
    + rewrite saved_app, Hs1. simpl. now rewrite Hsaved.
Qed.

Lemma drive_step (call : driver_call) (b : browser World) :
  driver_calls (snd (drive call b)) = (driver_calls b ++ [call])%list.
Proof. unfold drive. now destruct (perform call (br_world b)) as [[e|] w]. Qed.

(** The body of the [try]: it opens the page first and never closes the
    browser; when it returns, it returns the screenshots it saved. *)
Lemma test_ui_calls (deploy_url actions : value) (b : browser World) :
  exists steps,
    driver_calls (snd (test_ui deploy_url actions b))
      = (driver_calls b ++ Get deploy_url :: steps)%list
    /\ existsb is_quit steps = false
    /\ forall v, fst (test_ui deploy_url actions b) = DevopsCycle.Returned v ->
         exists l logs,
           iter actions = DevopsCycle.Returned l
           /\ v = VDict [("success", VBool true);
                         ("screenshots",
                          VList (map VStr (map screenshot_path
                                             (seq 0 (List.length l)))));
                         ("logs", logs)]
           /\ saved steps = map screenshot_path (seq 0 (List.length l)).
Proof.
  assert (Hbody :
    test_ui deploy_url actions b
      = match drive (Get deploy_url) b with
        | (DevopsCycle.Raised x, b1) => (DevopsCycle.Raised x, b1)
        | (DevopsCycle.Returned _, b1) =>
            match iter actions with
            | DevopsCycle.Raised x => (DevopsCycle.Raised x, b1)
            | DevopsCycle.Returned l =>
                match act l [] b1 with
                | (DevopsCycle.Raised x, b2) => (DevopsCycle.Raised x, b2)
                | (DevopsCycle.Returned screenshots, b2) =>
                    match drive (GetLog "browser") b2 with
                    | (DevopsCycle.Raised x, b3) => (DevopsCycle.Raised x, b3)
                    | (DevopsCycle.Returned _, b3) =>
                        (DevopsCycle.Returned
                           (VDict [("success", VBool true);
                                   ("screenshots", VList (map VStr screenshots));
                                   ("logs", log_of "browser" (br_world b3))]),
                         b3)
                    end
                end
            end
        end).
  { unfold test_ui, get_log, then_, lift_, unit_.
    destruct (drive (Get deploy_url) b) as [[[]|x] b1]; [|reflexivity].
    destruct (iter actions) as [l|x]; [|reflexivity].
    destruct (act l [] b1) as [[screenshots|x] b2]; [|reflexivity].
    destruct (drive (GetLog "browser") b2) as [[[]|x] b3]; reflexivity. }
  rewrite Hbody. clear Hbody.
  pose proof (drive_step (Get deploy_url) b) as Hget.
  destruct (drive (Get deploy_url) b) as [[[]|x] b1]; simpl in Hget.
  2: { exists []. simpl. split; [assumption|]. split; [reflexivity|].
       intros v Hv. discriminate Hv. }
  destruct (iter actions) as [l|x].
  2: { exists []. simpl. split; [assumption|]. split; [reflexivity|].
       intros v Hv. discriminate Hv. }
  destruct (act_numbered l [] b1) as (s1 & Hcalls1 & Hq1 & Hout1).
  destruct (act l [] b1) as [[screenshots|x] b2]; simpl in Hcalls1, Hout1.
  2: { exists s1. simpl. rewrite Hcalls1, Hget, <- app_assoc.
       split; [reflexivity|]. split; [assumption|].
       intros v Hv. discriminate Hv. }
  destruct (Hout1 screenshots eq_refl) as [-> Hsaved1].
  pose proof (drive_step (GetLog "browser") b2) as Hlog.
  destruct (drive (GetLog "browser") b2) as [[[]|x] b3]; simpl in Hlog;
    exists (s1 ++ [GetLog "browser"])%list; simpl;
    rewrite Hlog, Hcalls1, Hget, <- !app_assoc, existsb_app, Hq1;
    (split; [reflexivity|]); (split; [reflexivity|]); intros v Hv.
  - inversion Hv. exists l, (log_of "browser" (br_world b3)).
    split; [reflexivity|]. split; [reflexivity|].
    rewrite saved_app, Hsaved1. simpl. now rewrite app_nil_r.
  - discriminate Hv.
Qed.

(** X20.  The browser is always closed, once, at the end.  Whatever the
    actions are and whatever fails (the page, an element, a missing key
    of an action, a screenshot, the log), the calls that
    [deploy_and_test_ui] makes on the driver begin with [get(deploy_url)],
    end with [quit()], and hold no other [quit()]. *)
Theorem browser_always_closed (deploy_url actions : value) (b : browser World) :
  exists steps,
    driver_calls (snd (deploy_and_test_ui deploy_url actions b))
      = (driver_calls b ++ Get deploy_url :: steps ++ [Quit])%list
    /\ existsb is_quit steps = false.
Proof.
  unfold deploy_and_test_ui.
  destruct (test_ui_calls deploy_url actions b) as (steps & Hcalls & Hq & _).
  destruct (test_ui deploy_url actions b) as [r b1]. simpl in Hcalls.
  pose proof (drive_step Quit b1) as Hquit.
  exists steps. split; [|assumption].
  destruct (drive Quit b1) as [[[]|x] b2]; simpl in *;
    rewrite Hquit, Hcalls, <- app_assoc; reflexivity.
Qed.

(** X21.  When the tester returns, it reports success and the screenshots
    it saved: there is one per action, the [n]-th is
    [reports/screenshot_n.png] (counted from 0), and these are the paths
    that were given to [save_screenshot], in this order.  The tester has no
    result with [success] false: every failure is an exception. *)
Theorem screenshots_numbered (deploy_url actions v : value) (b : browser World) :
  fst (deploy_and_test_ui deploy_url actions b) = DevopsCycle.Returned v ->
  exists l logs,
    iter actions = DevopsCycle.Returned l
    /\ v = VDict [("success", VBool true);
                  ("screenshots",
                   VList (map VStr (map screenshot_path (seq 0 (List.length l)))));
                  ("logs", logs)]
    /\ saved (driver_calls (snd (deploy_and_test_ui deploy_url actions b)))
       = (saved (driver_calls b)
            ++ map screenshot_path (seq 0 (List.length l)))%list.
Proof.
  unfold deploy_and_test_ui.
  destruct (test_ui_calls deploy_url actions b) as (steps & Hcalls & _ & Hout).
  destruct (test_ui deploy_url actions b) as [r b1]. simpl in Hcalls, Hout.
  pose proof (drive_step Quit b1) as Hquit.
  destruct (drive Quit b1) as [[[]|x] b2]; simpl in *; intros Hv; [|discriminate Hv].
  destruct (Hout v Hv) as (l & logs & Hiter & -> & Hsaved).
  exists l, logs. split; [assumption|]. split; [reflexivity|].
  rewrite Hquit, Hcalls.
  change (Get deploy_url :: steps)%list with ([Get deploy_url] ++ steps)%list.
  rewrite !saved_app, Hsaved. simpl. now rewrite app_nil_r.
Qed.

End SeleniumFacts.

(** X21 at two clicks in a browser where every call succeeds. *)
Lemma screenshots_numbered_witness :
  exists l logs,
    Selenium.iter (VList [Selenium.click_toggle; Selenium.click_toggle])
      = DevopsCycle.Returned l
    /\ VDict [("success", VBool true);
              ("screenshots", VList [VStr "reports/screenshot_0.png";
                                     VStr "reports/screenshot_1.png"]);
              ("logs", VList [])]
       = VDict [("success", VBool true);
                ("screenshots",
                 VList (map VStr (map Selenium.screenshot_path
                                    (seq 0 (List.length l)))));
                ("logs", logs)]
    /\ Selenium.saved
         (Selenium.driver_calls
            (snd (@Selenium.deploy_and_test_ui unit Selenium.obliging
                    (VStr "http://localhost:3000")
                    (VList [Selenium.click_toggle; Selenium.click_toggle])
                    (Selenium.mk_browser tt []))))
       = (Selenium.saved [] ++ map Selenium.screenshot_path (seq 0 (List.length l)))%list.
Proof.
  exact (@screenshots_numbered unit Selenium.obliging
           (VStr "http://localhost:3000")
           (VList [Selenium.click_toggle; Selenium.click_toggle])
           (VDict [("success", VBool true);
                   ("screenshots", VList [VStr "reports/screenshot_0.png";
                                          VStr "reports/screenshot_1.png"]);
                   ("logs", VList [])])
           (Selenium.mk_browser tt []) eq_refl).
Defined.

(** A click on a page without the element: the exception leaves the
    tester, after the browser was closed; no screenshot was taken. *)
Example click_on_blank_page :
  @Selenium.deploy_and_test_ui unit Selenium.blank_page
    (VStr "http://localhost:3000") (VList [Selenium.click_toggle])
    (Selenium.mk_browser tt [])
  = (DevopsCycle.Raised
       (DevopsCycle.Exception
          (mk_exn OtherException "no such element: Unable to locate element")),
     Selenium.mk_browser tt
       [Selenium.Get (VStr "http://localhost:3000");
        Selenium.FindElement (VStr "#toggle");
        Selenium.Quit]).
Proof. reflexivity. Qed.
